(** * lm_eval/models/optimum_habana_lm.py: the Optimum-Habana model wrapper

    A shallow embedding of the configuration layer and of the bucketed
    forward pass of [OptimumHabanaLM], followed by the properties the
    specification states about them.

    Conventions of the embedding:
    - Python integers are [Z]; tensor dimensions are [Z] as well (they are
      Python integers in [inps.shape]) and are non-negative by the
      well-formedness predicate of the tensor that carries them;
    - a call that can raise returns a [result]; code that mutates [args],
      [os.environ] or talks to the accelerator runs in the monad [M], which
      threads the [World] and keeps it when an exception is raised;
    - everything the module imports from torch, transformers, deepspeed and
      optimum.habana is a field of the record [Framework]. *)

From Stdlib Require Import ZArith Ascii.
From Stdlib Require QArith.
From stdpp Require Import gmap strings list sorting.

Local Open Scope string_scope.
Local Open Scope Z_scope.

(** ** Exceptions and results *)

Inductive exn : Type :=
  | IndexError
  | AssertionError
  | ValueError
  | AttributeError (name : string)
  | FrameworkError (msg : string).

Inductive result (A : Type) : Type :=
  | Ok (a : A)
  | Raise (e : exn).
Arguments Ok {A} a.
Arguments Raise {A} e.

Definition is_ok {A} (r : result A) : bool :=
  match r with Ok _ => true | Raise _ => false end.

(** ** Python built-ins used by the module *)

Module Py.

(** [sorted(l)] on a list of integers: a stable merge sort. *)
Definition sorted (l : list Z) : list Z := merge_sort Z.le l.

(** [l[0]] *)
Definition index_first {A} (l : list A) : result A :=
  match l with
  | [] => Raise IndexError
  | x :: _ => Ok x
  end.

(** [l[-1]] *)
Definition index_last {A} (l : list A) : result A :=
  match last l with
  | None => Raise IndexError
  | Some x => Ok x
  end.

(** [o is not None] *)
Definition is_not_None {A} (o : option A) : bool :=
  match o with
  | Some _ => true
  | None => false
  end.

(** [sub in s] on strings. *)
Fixpoint is_prefix (p s : string) : bool :=
  match p, s with
  | EmptyString, _ => true
  | String _ _, EmptyString => false
  | String a p', String b s' => if Ascii.eqb a b then is_prefix p' s' else false
  end.

Fixpoint str_in (sub s : string) : bool :=
  if is_prefix sub s then true
  else match s with
       | EmptyString => false
       | String _ s' => str_in sub s'
       end.

(** [x in l] on a list of strings. *)
Definition in_list (x : string) (l : list string) : bool :=
  bool_decide (x ∈ l).

(** [int(s)] for a string [s], base 10: surrounding white space is
    dropped, one sign is allowed, and single underscores may separate
    digits.  The embedding covers ASCII input. *)
Definition is_space (c : Ascii.ascii) : bool :=
  let n := Ascii.N_of_ascii c in
  ((9 <=? n) && (n <=? 13) || (28 <=? n) && (n <=? 32))%N.

Fixpoint lstrip (s : string) : string :=
  match s with
  | String c s' => if is_space c then lstrip s' else s
  | EmptyString => EmptyString
  end.

Definition strip (s : string) : string :=
  String.rev (lstrip (String.rev (lstrip s))).

Definition digit_of (c : Ascii.ascii) : option Z :=
  let n := Ascii.N_of_ascii c in
  if ((48 <=? n) && (n <=? 57))%N then Some (Z.of_N n - 48) else None.

(** [digits acc after_digit s]: [after_digit] tells whether the previous
    character was a digit, which is where an underscore may stand. *)
Fixpoint digits (acc : Z) (after_digit : bool) (s : string) : option Z :=
  match s with
  | EmptyString => if after_digit then Some acc else None
  | String c s' =>
      match digit_of c with
      | Some d => digits (10 * acc + d) true s'
      | None =>
          if Ascii.eqb c "_"%char && after_digit then
            match s' with
            | EmptyString => None
            | _ => digits acc false s'
            end
          else None
      end
  end.

Definition int (s : string) : result Z :=
  let parse body := digits 0 false body in
  let r :=
    match strip s with
    | String "-"%char body => Z.opp <$> parse body
    | String "+"%char body => parse body
    | body => parse body
    end in
  match r with
  | Some z => Ok z
  | None => Raise ValueError
  end.

End Py.

(** ** Data model *)

(** A Python float that is only carried around ([penalty_alpha]). *)
Definition PyFloat : Type := QArith_base.Q.

(** [batch_size: Optional[Union[int, str]]] *)
Inductive BatchSize : Type :=
  | BatchNone
  | BatchInt (n : Z)
  | BatchStr (s : string).

(** [args.batch_size == 1] *)
Definition batch_size_is_1 (b : BatchSize) : bool :=
  match b with
  | BatchInt n => n =? 1
  | _ => false
  end.

(** A token id attribute: [None], one id, or a list of ids. *)
Inductive TokenId : Type :=
  | IdNone
  | IdInt (i : Z)
  | IdList (l : list Z).

Inductive Dtype : Type := Bfloat16 | Float32 | Int64.

(** [class Args]: a flat record.  The last three attributes do not exist on
    a fresh [Args()]; [setup_distributed] creates them. *)
Module Args.

Record t : Type := mk {
  device : string;
  model_name_or_path : string;
  bf16 : bool;
  max_new_tokens : Z;
  max_input_tokens : Z;
  batch_size : BatchSize;
  warmup : Z;
  n_iterations : Z;
  reuse_cache : bool;
  use_kv_cache : bool;
  use_hpu_graphs : bool;
  attn_softmax_bf16 : bool;
  limit_hpu_graphs : bool;
  do_sample : bool;
  torch_compile : bool;
  bucket_internal : bool;
  bucket_size : Z;
  trust_remote_code : bool;
  num_beams : Z;
  bad_words : option (list string);
  force_words : option (list string);
  token : option string;
  top_k : option Z;
  num_return_sequences : Z;
  trim_logits : bool;
  penalty_alpha : option PyFloat;
  reduce_recompile : bool;
  use_flash_attention : bool;
  flash_attention_recompute : bool;
  flash_attention_causal_mask : bool;
  flash_attention_fast_softmax : bool;
  model_revision : string;
  buckets : list Z;
  local_rank : option Z;
  world_size : option Z;
  global_rank : option Z
}.

(** [Args()]: the class attributes. *)
Definition default : t := {|
  device := "hpu";
  model_name_or_path := "";
  bf16 := true;
  max_new_tokens := 100;
  max_input_tokens := 0;
  batch_size := BatchInt 1;
  warmup := 0;
  n_iterations := 5;
  reuse_cache := true;
  use_kv_cache := true;
  use_hpu_graphs := true;
  attn_softmax_bf16 := true;
  limit_hpu_graphs := true;
  do_sample := true;
  torch_compile := false;
  bucket_internal := true;
  bucket_size := 128;
  trust_remote_code := true;
  num_beams := 1;
  bad_words := None;
  force_words := None;
  token := None;
  top_k := None;
  num_return_sequences := 1;
  trim_logits := true;
  penalty_alpha := None;
  reduce_recompile := false;
  use_flash_attention := true;
  flash_attention_recompute := false;
  flash_attention_causal_mask := false;
  flash_attention_fast_softmax := false;
  model_revision := "main";
  buckets := [16; 32; 64; 128; 189; 284; 384];
  local_rank := None;
  world_size := None;
  global_rank := None
|}.

(** [setattr(args, <field>, v)], one definition per attribute. *)
Definition set_device (v : string) (a : t) : t :=
  let '(mk x0 x1 x2 x3 x4 x5 x6 x7 x8 x9 x10 x11 x12 x13 x14 x15 x16 x17
    x18 x19 x20 x21 x22 x23 x24 x25 x26 x27 x28 x29 x30 x31 x32 x33 x34
    x35) := a in mk v x1 x2 x3 x4 x5 x6 x7 x8 x9 x10 x11 x12 x13 x14 x15
    x16 x17 x18 x19 x20 x21 x22 x23 x24 x25 x26 x27 x28 x29 x30 x31 x32
    x33 x34 x35.
Definition set_model_name_or_path (v : string) (a : t) : t :=
  let '(mk x0 x1 x2 x3 x4 x5 x6 x7 x8 x9 x10 x11 x12 x13 x14 x15 x16 x17
    x18 x19 x20 x21 x22 x23 x24 x25 x26 x27 x28 x29 x30 x31 x32 x33 x34
    x35) := a in mk x0 v x2 x3 x4 x5 x6 x7 x8 x9 x10 x11 x12 x13 x14 x15
    x16 x17 x18 x19 x20 x21 x22 x23 x24 x25 x26 x27 x28 x29 x30 x31 x32
    x33 x34 x35.
Definition set_bf16 (v : bool) (a : t) : t :=
  let '(mk x0 x1 x2 x3 x4 x5 x6 x7 x8 x9 x10 x11 x12 x13 x14 x15 x16 x17
    x18 x19 x20 x21 x22 x23 x24 x25 x26 x27 x28 x29 x30 x31 x32 x33 x34
    x35) := a in mk x0 x1 v x3 x4 x5 x6 x7 x8 x9 x10 x11 x12 x13 x14 x15
    x16 x17 x18 x19 x20 x21 x22 x23 x24 x25 x26 x27 x28 x29 x30 x31 x32
    x33 x34 x35.
Definition set_max_new_tokens (v : Z) (a : t) : t :=
  let '(mk x0 x1 x2 x3 x4 x5 x6 x7 x8 x9 x10 x11 x12 x13 x14 x15 x16 x17
    x18 x19 x20 x21 x22 x23 x24 x25 x26 x27 x28 x29 x30 x31 x32 x33 x34
    x35) := a in mk x0 x1 x2 v x4 x5 x6 x7 x8 x9 x10 x11 x12 x13 x14 x15
    x16 x17 x18 x19 x20 x21 x22 x23 x24 x25 x26 x27 x28 x29 x30 x31 x32
    x33 x34 x35.
Definition set_max_input_tokens (v : Z) (a : t) : t :=
  let '(mk x0 x1 x2 x3 x4 x5 x6 x7 x8 x9 x10 x11 x12 x13 x14 x15 x16 x17
    x18 x19 x20 x21 x22 x23 x24 x25 x26 x27 x28 x29 x30 x31 x32 x33 x34
    x35) := a in mk x0 x1 x2 x3 v x5 x6 x7 x8 x9 x10 x11 x12 x13 x14 x15
    x16 x17 x18 x19 x20 x21 x22 x23 x24 x25 x26 x27 x28 x29 x30 x31 x32
    x33 x34 x35.
Definition set_batch_size (v : BatchSize) (a : t) : t :=
  let '(mk x0 x1 x2 x3 x4 x5 x6 x7 x8 x9 x10 x11 x12 x13 x14 x15 x16 x17
    x18 x19 x20 x21 x22 x23 x24 x25 x26 x27 x28 x29 x30 x31 x32 x33 x34
    x35) := a in mk x0 x1 x2 x3 x4 v x6 x7 x8 x9 x10 x11 x12 x13 x14 x15
    x16 x17 x18 x19 x20 x21 x22 x23 x24 x25 x26 x27 x28 x29 x30 x31 x32
    x33 x34 x35.
Definition set_warmup (v : Z) (a : t) : t :=
  let '(mk x0 x1 x2 x3 x4 x5 x6 x7 x8 x9 x10 x11 x12 x13 x14 x15 x16 x17
    x18 x19 x20 x21 x22 x23 x24 x25 x26 x27 x28 x29 x30 x31 x32 x33 x34
    x35) := a in mk x0 x1 x2 x3 x4 x5 v x7 x8 x9 x10 x11 x12 x13 x14 x15
    x16 x17 x18 x19 x20 x21 x22 x23 x24 x25 x26 x27 x28 x29 x30 x31 x32
    x33 x34 x35.
Definition set_n_iterations (v : Z) (a : t) : t :=
  let '(mk x0 x1 x2 x3 x4 x5 x6 x7 x8 x9 x10 x11 x12 x13 x14 x15 x16 x17
    x18 x19 x20 x21 x22 x23 x24 x25 x26 x27 x28 x29 x30 x31 x32 x33 x34
    x35) := a in mk x0 x1 x2 x3 x4 x5 x6 v x8 x9 x10 x11 x12 x13 x14 x15
    x16 x17 x18 x19 x20 x21 x22 x23 x24 x25 x26 x27 x28 x29 x30 x31 x32
    x33 x34 x35.
Definition set_reuse_cache (v : bool) (a : t) : t :=
  let '(mk x0 x1 x2 x3 x4 x5 x6 x7 x8 x9 x10 x11 x12 x13 x14 x15 x16 x17
    x18 x19 x20 x21 x22 x23 x24 x25 x26 x27 x28 x29 x30 x31 x32 x33 x34
    x35) := a in mk x0 x1 x2 x3 x4 x5 x6 x7 v x9 x10 x11 x12 x13 x14 x15
    x16 x17 x18 x19 x20 x21 x22 x23 x24 x25 x26 x27 x28 x29 x30 x31 x32
    x33 x34 x35.
Definition set_use_kv_cache (v : bool) (a : t) : t :=
  let '(mk x0 x1 x2 x3 x4 x5 x6 x7 x8 x9 x10 x11 x12 x13 x14 x15 x16 x17
    x18 x19 x20 x21 x22 x23 x24 x25 x26 x27 x28 x29 x30 x31 x32 x33 x34
    x35) := a in mk x0 x1 x2 x3 x4 x5 x6 x7 x8 v x10 x11 x12 x13 x14 x15
    x16 x17 x18 x19 x20 x21 x22 x23 x24 x25 x26 x27 x28 x29 x30 x31 x32
    x33 x34 x35.
Definition set_use_hpu_graphs (v : bool) (a : t) : t :=
  let '(mk x0 x1 x2 x3 x4 x5 x6 x7 x8 x9 x10 x11 x12 x13 x14 x15 x16 x17
    x18 x19 x20 x21 x22 x23 x24 x25 x26 x27 x28 x29 x30 x31 x32 x33 x34
    x35) := a in mk x0 x1 x2 x3 x4 x5 x6 x7 x8 x9 v x11 x12 x13 x14 x15
    x16 x17 x18 x19 x20 x21 x22 x23 x24 x25 x26 x27 x28 x29 x30 x31 x32
    x33 x34 x35.
Definition set_attn_softmax_bf16 (v : bool) (a : t) : t :=
  let '(mk x0 x1 x2 x3 x4 x5 x6 x7 x8 x9 x10 x11 x12 x13 x14 x15 x16 x17
    x18 x19 x20 x21 x22 x23 x24 x25 x26 x27 x28 x29 x30 x31 x32 x33 x34
    x35) := a in mk x0 x1 x2 x3 x4 x5 x6 x7 x8 x9 x10 v x12 x13 x14 x15
    x16 x17 x18 x19 x20 x21 x22 x23 x24 x25 x26 x27 x28 x29 x30 x31 x32
    x33 x34 x35.
Definition set_limit_hpu_graphs (v : bool) (a : t) : t :=
  let '(mk x0 x1 x2 x3 x4 x5 x6 x7 x8 x9 x10 x11 x12 x13 x14 x15 x16 x17
    x18 x19 x20 x21 x22 x23 x24 x25 x26 x27 x28 x29 x30 x31 x32 x33 x34
    x35) := a in mk x0 x1 x2 x3 x4 x5 x6 x7 x8 x9 x10 x11 v x13 x14 x15
    x16 x17 x18 x19 x20 x21 x22 x23 x24 x25 x26 x27 x28 x29 x30 x31 x32
    x33 x34 x35.
Definition set_do_sample (v : bool) (a : t) : t :=
  let '(mk x0 x1 x2 x3 x4 x5 x6 x7 x8 x9 x10 x11 x12 x13 x14 x15 x16 x17
    x18 x19 x20 x21 x22 x23 x24 x25 x26 x27 x28 x29 x30 x31 x32 x33 x34
    x35) := a in mk x0 x1 x2 x3 x4 x5 x6 x7 x8 x9 x10 x11 x12 v x14 x15
    x16 x17 x18 x19 x20 x21 x22 x23 x24 x25 x26 x27 x28 x29 x30 x31 x32
    x33 x34 x35.
Definition set_torch_compile (v : bool) (a : t) : t :=
  let '(mk x0 x1 x2 x3 x4 x5 x6 x7 x8 x9 x10 x11 x12 x13 x14 x15 x16 x17
    x18 x19 x20 x21 x22 x23 x24 x25 x26 x27 x28 x29 x30 x31 x32 x33 x34
    x35) := a in mk x0 x1 x2 x3 x4 x5 x6 x7 x8 x9 x10 x11 x12 x13 v x15
    x16 x17 x18 x19 x20 x21 x22 x23 x24 x25 x26 x27 x28 x29 x30 x31 x32
    x33 x34 x35.
Definition set_bucket_internal (v : bool) (a : t) : t :=
  let '(mk x0 x1 x2 x3 x4 x5 x6 x7 x8 x9 x10 x11 x12 x13 x14 x15 x16 x17
    x18 x19 x20 x21 x22 x23 x24 x25 x26 x27 x28 x29 x30 x31 x32 x33 x34
    x35) := a in mk x0 x1 x2 x3 x4 x5 x6 x7 x8 x9 x10 x11 x12 x13 x14 v
    x16 x17 x18 x19 x20 x21 x22 x23 x24 x25 x26 x27 x28 x29 x30 x31 x32
    x33 x34 x35.
Definition set_bucket_size (v : Z) (a : t) : t :=
  let '(mk x0 x1 x2 x3 x4 x5 x6 x7 x8 x9 x10 x11 x12 x13 x14 x15 x16 x17
    x18 x19 x20 x21 x22 x23 x24 x25 x26 x27 x28 x29 x30 x31 x32 x33 x34
    x35) := a in mk x0 x1 x2 x3 x4 x5 x6 x7 x8 x9 x10 x11 x12 x13 x14 x15
    v x17 x18 x19 x20 x21 x22 x23 x24 x25 x26 x27 x28 x29 x30 x31 x32 x33
    x34 x35.
Definition set_trust_remote_code (v : bool) (a : t) : t :=
  let '(mk x0 x1 x2 x3 x4 x5 x6 x7 x8 x9 x10 x11 x12 x13 x14 x15 x16 x17
    x18 x19 x20 x21 x22 x23 x24 x25 x26 x27 x28 x29 x30 x31 x32 x33 x34
    x35) := a in mk x0 x1 x2 x3 x4 x5 x6 x7 x8 x9 x10 x11 x12 x13 x14 x15
    x16 v x18 x19 x20 x21 x22 x23 x24 x25 x26 x27 x28 x29 x30 x31 x32 x33
    x34 x35.
Definition set_num_beams (v : Z) (a : t) : t :=
  let '(mk x0 x1 x2 x3 x4 x5 x6 x7 x8 x9 x10 x11 x12 x13 x14 x15 x16 x17
    x18 x19 x20 x21 x22 x23 x24 x25 x26 x27 x28 x29 x30 x31 x32 x33 x34
    x35) := a in mk x0 x1 x2 x3 x4 x5 x6 x7 x8 x9 x10 x11 x12 x13 x14 x15
    x16 x17 v x19 x20 x21 x22 x23 x24 x25 x26 x27 x28 x29 x30 x31 x32 x33
    x34 x35.
Definition set_bad_words (v : option (list string)) (a : t) : t :=
  let '(mk x0 x1 x2 x3 x4 x5 x6 x7 x8 x9 x10 x11 x12 x13 x14 x15 x16 x17
    x18 x19 x20 x21 x22 x23 x24 x25 x26 x27 x28 x29 x30 x31 x32 x33 x34
    x35) := a in mk x0 x1 x2 x3 x4 x5 x6 x7 x8 x9 x10 x11 x12 x13 x14 x15
    x16 x17 x18 v x20 x21 x22 x23 x24 x25 x26 x27 x28 x29 x30 x31 x32 x33
    x34 x35.
Definition set_force_words (v : option (list string)) (a : t) : t :=
  let '(mk x0 x1 x2 x3 x4 x5 x6 x7 x8 x9 x10 x11 x12 x13 x14 x15 x16 x17
    x18 x19 x20 x21 x22 x23 x24 x25 x26 x27 x28 x29 x30 x31 x32 x33 x34
    x35) := a in mk x0 x1 x2 x3 x4 x5 x6 x7 x8 x9 x10 x11 x12 x13 x14 x15
    x16 x17 x18 x19 v x21 x22 x23 x24 x25 x26 x27 x28 x29 x30 x31 x32 x33
    x34 x35.
Definition set_token (v : option string) (a : t) : t :=
  let '(mk x0 x1 x2 x3 x4 x5 x6 x7 x8 x9 x10 x11 x12 x13 x14 x15 x16 x17
    x18 x19 x20 x21 x22 x23 x24 x25 x26 x27 x28 x29 x30 x31 x32 x33 x34
    x35) := a in mk x0 x1 x2 x3 x4 x5 x6 x7 x8 x9 x10 x11 x12 x13 x14 x15
    x16 x17 x18 x19 x20 v x22 x23 x24 x25 x26 x27 x28 x29 x30 x31 x32 x33
    x34 x35.
Definition set_top_k (v : option Z) (a : t) : t :=
  let '(mk x0 x1 x2 x3 x4 x5 x6 x7 x8 x9 x10 x11 x12 x13 x14 x15 x16 x17
    x18 x19 x20 x21 x22 x23 x24 x25 x26 x27 x28 x29 x30 x31 x32 x33 x34
    x35) := a in mk x0 x1 x2 x3 x4 x5 x6 x7 x8 x9 x10 x11 x12 x13 x14 x15
    x16 x17 x18 x19 x20 x21 v x23 x24 x25 x26 x27 x28 x29 x30 x31 x32 x33
    x34 x35.
Definition set_num_return_sequences (v : Z) (a : t) : t :=
  let '(mk x0 x1 x2 x3 x4 x5 x6 x7 x8 x9 x10 x11 x12 x13 x14 x15 x16 x17
    x18 x19 x20 x21 x22 x23 x24 x25 x26 x27 x28 x29 x30 x31 x32 x33 x34
    x35) := a in mk x0 x1 x2 x3 x4 x5 x6 x7 x8 x9 x10 x11 x12 x13 x14 x15
    x16 x17 x18 x19 x20 x21 x22 v x24 x25 x26 x27 x28 x29 x30 x31 x32 x33
    x34 x35.
Definition set_trim_logits (v : bool) (a : t) : t :=
  let '(mk x0 x1 x2 x3 x4 x5 x6 x7 x8 x9 x10 x11 x12 x13 x14 x15 x16 x17
    x18 x19 x20 x21 x22 x23 x24 x25 x26 x27 x28 x29 x30 x31 x32 x33 x34
    x35) := a in mk x0 x1 x2 x3 x4 x5 x6 x7 x8 x9 x10 x11 x12 x13 x14 x15
    x16 x17 x18 x19 x20 x21 x22 x23 v x25 x26 x27 x28 x29 x30 x31 x32 x33
    x34 x35.
Definition set_penalty_alpha (v : option PyFloat) (a : t) : t :=
  let '(mk x0 x1 x2 x3 x4 x5 x6 x7 x8 x9 x10 x11 x12 x13 x14 x15 x16 x17
    x18 x19 x20 x21 x22 x23 x24 x25 x26 x27 x28 x29 x30 x31 x32 x33 x34
    x35) := a in mk x0 x1 x2 x3 x4 x5 x6 x7 x8 x9 x10 x11 x12 x13 x14 x15
    x16 x17 x18 x19 x20 x21 x22 x23 x24 v x26 x27 x28 x29 x30 x31 x32 x33
    x34 x35.
Definition set_reduce_recompile (v : bool) (a : t) : t :=
  let '(mk x0 x1 x2 x3 x4 x5 x6 x7 x8 x9 x10 x11 x12 x13 x14 x15 x16 x17
    x18 x19 x20 x21 x22 x23 x24 x25 x26 x27 x28 x29 x30 x31 x32 x33 x34
    x35) := a in mk x0 x1 x2 x3 x4 x5 x6 x7 x8 x9 x10 x11 x12 x13 x14 x15
    x16 x17 x18 x19 x20 x21 x22 x23 x24 x25 v x27 x28 x29 x30 x31 x32 x33
    x34 x35.
Definition set_use_flash_attention (v : bool) (a : t) : t :=
  let '(mk x0 x1 x2 x3 x4 x5 x6 x7 x8 x9 x10 x11 x12 x13 x14 x15 x16 x17
    x18 x19 x20 x21 x22 x23 x24 x25 x26 x27 x28 x29 x30 x31 x32 x33 x34
    x35) := a in mk x0 x1 x2 x3 x4 x5 x6 x7 x8 x9 x10 x11 x12 x13 x14 x15
    x16 x17 x18 x19 x20 x21 x22 x23 x24 x25 x26 v x28 x29 x30 x31 x32 x33
    x34 x35.
Definition set_flash_attention_recompute (v : bool) (a : t) : t :=
  let '(mk x0 x1 x2 x3 x4 x5 x6 x7 x8 x9 x10 x11 x12 x13 x14 x15 x16 x17
    x18 x19 x20 x21 x22 x23 x24 x25 x26 x27 x28 x29 x30 x31 x32 x33 x34
    x35) := a in mk x0 x1 x2 x3 x4 x5 x6 x7 x8 x9 x10 x11 x12 x13 x14 x15
    x16 x17 x18 x19 x20 x21 x22 x23 x24 x25 x26 x27 v x29 x30 x31 x32 x33
    x34 x35.
Definition set_flash_attention_causal_mask (v : bool) (a : t) : t :=
  let '(mk x0 x1 x2 x3 x4 x5 x6 x7 x8 x9 x10 x11 x12 x13 x14 x15 x16 x17
    x18 x19 x20 x21 x22 x23 x24 x25 x26 x27 x28 x29 x30 x31 x32 x33 x34
    x35) := a in mk x0 x1 x2 x3 x4 x5 x6 x7 x8 x9 x10 x11 x12 x13 x14 x15
    x16 x17 x18 x19 x20 x21 x22 x23 x24 x25 x26 x27 x28 v x30 x31 x32 x33
    x34 x35.
Definition set_flash_attention_fast_softmax (v : bool) (a : t) : t :=
  let '(mk x0 x1 x2 x3 x4 x5 x6 x7 x8 x9 x10 x11 x12 x13 x14 x15 x16 x17
    x18 x19 x20 x21 x22 x23 x24 x25 x26 x27 x28 x29 x30 x31 x32 x33 x34
    x35) := a in mk x0 x1 x2 x3 x4 x5 x6 x7 x8 x9 x10 x11 x12 x13 x14 x15
    x16 x17 x18 x19 x20 x21 x22 x23 x24 x25 x26 x27 x28 x29 v x31 x32 x33
    x34 x35.
Definition set_model_revision (v : string) (a : t) : t :=
  let '(mk x0 x1 x2 x3 x4 x5 x6 x7 x8 x9 x10 x11 x12 x13 x14 x15 x16 x17
    x18 x19 x20 x21 x22 x23 x24 x25 x26 x27 x28 x29 x30 x31 x32 x33 x34
    x35) := a in mk x0 x1 x2 x3 x4 x5 x6 x7 x8 x9 x10 x11 x12 x13 x14 x15
    x16 x17 x18 x19 x20 x21 x22 x23 x24 x25 x26 x27 x28 x29 x30 v x32 x33
    x34 x35.
Definition set_buckets (v : list Z) (a : t) : t :=
  let '(mk x0 x1 x2 x3 x4 x5 x6 x7 x8 x9 x10 x11 x12 x13 x14 x15 x16 x17
    x18 x19 x20 x21 x22 x23 x24 x25 x26 x27 x28 x29 x30 x31 x32 x33 x34
    x35) := a in mk x0 x1 x2 x3 x4 x5 x6 x7 x8 x9 x10 x11 x12 x13 x14 x15
    x16 x17 x18 x19 x20 x21 x22 x23 x24 x25 x26 x27 x28 x29 x30 x31 v x33
    x34 x35.
Definition set_local_rank (v : option Z) (a : t) : t :=
  let '(mk x0 x1 x2 x3 x4 x5 x6 x7 x8 x9 x10 x11 x12 x13 x14 x15 x16 x17
    x18 x19 x20 x21 x22 x23 x24 x25 x26 x27 x28 x29 x30 x31 x32 x33 x34
    x35) := a in mk x0 x1 x2 x3 x4 x5 x6 x7 x8 x9 x10 x11 x12 x13 x14 x15
    x16 x17 x18 x19 x20 x21 x22 x23 x24 x25 x26 x27 x28 x29 x30 x31 x32 v
    x34 x35.
Definition set_world_size (v : option Z) (a : t) : t :=
  let '(mk x0 x1 x2 x3 x4 x5 x6 x7 x8 x9 x10 x11 x12 x13 x14 x15 x16 x17
    x18 x19 x20 x21 x22 x23 x24 x25 x26 x27 x28 x29 x30 x31 x32 x33 x34
    x35) := a in mk x0 x1 x2 x3 x4 x5 x6 x7 x8 x9 x10 x11 x12 x13 x14 x15
    x16 x17 x18 x19 x20 x21 x22 x23 x24 x25 x26 x27 x28 x29 x30 x31 x32
    x33 v x35.
Definition set_global_rank (v : option Z) (a : t) : t :=
  let '(mk x0 x1 x2 x3 x4 x5 x6 x7 x8 x9 x10 x11 x12 x13 x14 x15 x16 x17
    x18 x19 x20 x21 x22 x23 x24 x25 x26 x27 x28 x29 x30 x31 x32 x33 x34
    x35) := a in mk x0 x1 x2 x3 x4 x5 x6 x7 x8 x9 x10 x11 x12 x13 x14 x15
    x16 x17 x18 x19 x20 x21 x22 x23 x24 x25 x26 x27 x28 x29 x30 x31 x32
    x33 x34 v.

End Args.

(** One entry of [**kwargs] in [OptimumHabanaLM.__init__]: the name of an
    attribute of [Args] and its value. *)
Inductive Kwarg : Type :=
  | kw_device (v : string)
  | kw_model_name_or_path (v : string)
  | kw_bf16 (v : bool)
  | kw_max_new_tokens (v : Z)
  | kw_max_input_tokens (v : Z)
  | kw_batch_size (v : BatchSize)
  | kw_warmup (v : Z)
  | kw_n_iterations (v : Z)
  | kw_reuse_cache (v : bool)
  | kw_use_kv_cache (v : bool)
  | kw_use_hpu_graphs (v : bool)
  | kw_attn_softmax_bf16 (v : bool)
  | kw_limit_hpu_graphs (v : bool)
  | kw_do_sample (v : bool)
  | kw_torch_compile (v : bool)
  | kw_bucket_internal (v : bool)
  | kw_bucket_size (v : Z)
  | kw_trust_remote_code (v : bool)
  | kw_num_beams (v : Z)
  | kw_bad_words (v : option (list string))
  | kw_force_words (v : option (list string))
  | kw_token (v : option string)
  | kw_top_k (v : option Z)
  | kw_num_return_sequences (v : Z)
  | kw_trim_logits (v : bool)
  | kw_penalty_alpha (v : option PyFloat)
  | kw_reduce_recompile (v : bool)
  | kw_use_flash_attention (v : bool)
  | kw_flash_attention_recompute (v : bool)
  | kw_flash_attention_causal_mask (v : bool)
  | kw_flash_attention_fast_softmax (v : bool)
  | kw_model_revision (v : string)
  | kw_buckets (v : list Z)
  | kw_local_rank (v : option Z)
  | kw_world_size (v : option Z)
  | kw_global_rank (v : option Z).

(** [setattr(args, key, kwargs[key])] *)
Definition setattr (a : Args.t) (k : Kwarg) : Args.t :=
  match k with
  | kw_device v => Args.set_device v a
  | kw_model_name_or_path v => Args.set_model_name_or_path v a
  | kw_bf16 v => Args.set_bf16 v a
  | kw_max_new_tokens v => Args.set_max_new_tokens v a
  | kw_max_input_tokens v => Args.set_max_input_tokens v a
  | kw_batch_size v => Args.set_batch_size v a
  | kw_warmup v => Args.set_warmup v a
  | kw_n_iterations v => Args.set_n_iterations v a
  | kw_reuse_cache v => Args.set_reuse_cache v a
  | kw_use_kv_cache v => Args.set_use_kv_cache v a
  | kw_use_hpu_graphs v => Args.set_use_hpu_graphs v a
  | kw_attn_softmax_bf16 v => Args.set_attn_softmax_bf16 v a
  | kw_limit_hpu_graphs v => Args.set_limit_hpu_graphs v a
  | kw_do_sample v => Args.set_do_sample v a
  | kw_torch_compile v => Args.set_torch_compile v a
  | kw_bucket_internal v => Args.set_bucket_internal v a
  | kw_bucket_size v => Args.set_bucket_size v a
  | kw_trust_remote_code v => Args.set_trust_remote_code v a
  | kw_num_beams v => Args.set_num_beams v a
  | kw_bad_words v => Args.set_bad_words v a
  | kw_force_words v => Args.set_force_words v a
  | kw_token v => Args.set_token v a
  | kw_top_k v => Args.set_top_k v a
  | kw_num_return_sequences v => Args.set_num_return_sequences v a
  | kw_trim_logits v => Args.set_trim_logits v a
  | kw_penalty_alpha v => Args.set_penalty_alpha v a
  | kw_reduce_recompile v => Args.set_reduce_recompile v a
  | kw_use_flash_attention v => Args.set_use_flash_attention v a
  | kw_flash_attention_recompute v => Args.set_flash_attention_recompute v a
  | kw_flash_attention_causal_mask v => Args.set_flash_attention_causal_mask v a
  | kw_flash_attention_fast_softmax v => Args.set_flash_attention_fast_softmax v a
  | kw_model_revision v => Args.set_model_revision v a
  | kw_buckets v => Args.set_buckets v a
  | kw_local_rank v => Args.set_local_rank v a
  | kw_world_size v => Args.set_world_size v a
  | kw_global_rank v => Args.set_global_rank v a
  end.

(** [model.config] *)
Module ModelConfig.
Record t : Type := mk {
  model_type : string;
  is_encoder_decoder : bool;
  pad_token_id : option Z
}.
End ModelConfig.

(** The generation configuration: [model.generation_config] as loaded, and
    the copy [setup_generation_config] derives from it. *)
Module GenerationConfig.
Record t : Type := mk {
  pad_token_id : TokenId;
  eos_token_id : TokenId;
  bos_token_id : TokenId;
  max_new_tokens : Z;
  use_cache : bool;
  static_shapes : bool;
  bucket_size : Z;
  bucket_internal : bool;
  do_sample : bool;
  num_beams : Z;
  top_k : option Z;
  penalty_alpha : option PyFloat;
  bad_words_ids : option (list (list Z));
  force_words_ids : option (list (list Z));
  num_return_sequences : Z;
  trim_logits : bool;
  attn_softmax_bf16 : bool;
  limit_hpu_graphs : bool;
  reuse_cache : bool;
  reduce_recompile : bool;
  use_flash_attention : bool;
  flash_attention_recompute : bool;
  flash_attention_causal_mask : bool;
  flash_attention_fast_softmax : bool;
  trust_remote_code : bool;
  valid_sequence_lengths : option (list Z)
}.

Definition set_pad_token_id (v : TokenId) (g : t) : t :=
  let '(mk _ e b x3 x4 x5 x6 x7 x8 x9 x10 x11 x12 x13 x14 x15 x16 x17 x18
    x19 x20 x21 x22 x23 x24 x25) := g in
  mk v e b x3 x4 x5 x6 x7 x8 x9 x10 x11 x12 x13 x14 x15 x16 x17 x18 x19
    x20 x21 x22 x23 x24 x25.

Definition set_eos_token_id (v : TokenId) (g : t) : t :=
  let '(mk p _ b x3 x4 x5 x6 x7 x8 x9 x10 x11 x12 x13 x14 x15 x16 x17 x18
    x19 x20 x21 x22 x23 x24 x25) := g in
  mk p v b x3 x4 x5 x6 x7 x8 x9 x10 x11 x12 x13 x14 x15 x16 x17 x18 x19
    x20 x21 x22 x23 x24 x25.
End GenerationConfig.

(** The model object, as far as this module looks into it. *)
Module Model.
Record t : Type := mk {
  config : ModelConfig.t;
  generation_config : GenerationConfig.t;
  name_or_path : string;
  torch_dtype : Dtype;
  device : string;
  (** wrapped by [wrap_in_hpu_graph] *)
  hpu_graph : bool;
  (** [LinearAllreduce] children replaced by [ScopedLinearAllReduce] *)
  scoped_linear_all_reduce : bool
}.

Definition set_generation_config (g : GenerationConfig.t) (m : t) : t :=
  mk (config m) g (name_or_path m) (torch_dtype m) (device m) (hpu_graph m)
     (scoped_linear_all_reduce m).
Definition set_device (d : string) (m : t) : t :=
  mk (config m) (generation_config m) (name_or_path m) (torch_dtype m) d
     (hpu_graph m) (scoped_linear_all_reduce m).
Definition set_hpu_graph (b : bool) (m : t) : t :=
  mk (config m) (generation_config m) (name_or_path m) (torch_dtype m)
     (device m) b (scoped_linear_all_reduce m).
Definition set_scoped_linear_all_reduce (b : bool) (m : t) : t :=
  mk (config m) (generation_config m) (name_or_path m) (torch_dtype m)
     (device m) (hpu_graph m) b.
End Model.

(** The tokenizer object; its special-token attributes are plain
    attributes here. *)
Module Tokenizer.
Record t : Type := mk {
  name_or_path : string;
  padding_side : string;
  bos_token_id : TokenId;
  eos_token_id : TokenId;
  pad_token_id : TokenId;
  bos_token : option string;
  eos_token : option string;
  pad_token : option string
}.

Definition set_padding_side (v : string) (k : t) : t :=
  mk (name_or_path k) v (bos_token_id k) (eos_token_id k) (pad_token_id k)
     (bos_token k) (eos_token k) (pad_token k).
Definition set_bos_token_id (v : TokenId) (k : t) : t :=
  mk (name_or_path k) (padding_side k) v (eos_token_id k) (pad_token_id k)
     (bos_token k) (eos_token k) (pad_token k).
Definition set_eos_token_id (v : TokenId) (k : t) : t :=
  mk (name_or_path k) (padding_side k) (bos_token_id k) v (pad_token_id k)
     (bos_token k) (eos_token k) (pad_token k).
Definition set_pad_token_id (v : TokenId) (k : t) : t :=
  mk (name_or_path k) (padding_side k) (bos_token_id k) (eos_token_id k) v
     (bos_token k) (eos_token k) (pad_token k).
Definition set_bos_token (v : option string) (k : t) : t :=
  mk (name_or_path k) (padding_side k) (bos_token_id k) (eos_token_id k)
     (pad_token_id k) v (eos_token k) (pad_token k).
Definition set_eos_token (v : option string) (k : t) : t :=
  mk (name_or_path k) (padding_side k) (bos_token_id k) (eos_token_id k)
     (pad_token_id k) (bos_token k) v (pad_token k).
Definition set_pad_token (v : option string) (k : t) : t :=
  mk (name_or_path k) (padding_side k) (bos_token_id k) (eos_token_id k)
     (pad_token_id k) (bos_token k) (eos_token k) v.
End Tokenizer.

(** ** Tensors

    A tensor is its shape, its placement and an indexing function; only
    the indices below the shape are meaningful. *)

(** [inps]: a batch of token ids, of shape [(bs, seq_length)]. *)
Module IdTensor.
Record t : Type := mk {
  bs : Z;
  seq_length : Z;
  device : string;
  data : Z -> Z -> Z
}.
Definition wf (x : t) : Prop := 0 <= bs x /\ 0 <= seq_length x.
End IdTensor.

(** [logits]: of shape [(bs, seq_length, vocab)]. *)
Module Logits.
Record t : Type := mk {
  bs : Z;
  seq_length : Z;
  vocab : Z;
  dtype : Dtype;
  device : string;
  data : Z -> Z -> Z -> PyFloat
}.
End Logits.

(** ** The outside world *)

(** [model_kwargs] and [tokenizer_kwargs] *)
Record ModelKwargs : Type := {
  mk_revision : string;
  mk_token : option string;
  mk_trust_remote_code : bool
}.

Record TokenizerKwargs : Type := {
  tk_revision : string;
  tk_token : option string;
  tk_trust_remote_code : bool;
  (** the key is present only when bad or forced words are given *)
  tk_add_prefix_space : option bool
}.

(** [ds_inference_kwargs] *)
Record DsInferenceKwargs : Type := {
  ds_dtype : Dtype;
  ds_tp_size : Z;
  ds_enable_cuda_graph : bool;
  ds_injection_policy : string;
  ds_checkpoint : option string
}.

(** Calls into the frameworks that only have an effect. *)
Inductive Event : Type :=
  | EvRmtree (path : string)
  | EvAdaptTransformersToGaudi
  | EvImportHtcore
  | EvDeepspeedInitDistributed (dist_backend : string)
  | EvWriteCheckpointsJson (name : string) (local_rank : Z) (token : option string)
  | EvAllocateKVCache (bs max_seq_len inp_seq_len : Z)
  | EvForward (inps : IdTensor.t) (kwargs : gmap string bool).

(** What torch, transformers, deepspeed and optimum.habana answer.  A
    forward pass may depend on the calls made before it (an allocated
    key/value cache, for one). *)
Record Framework : Type := {
  torch_device : string -> result unit;
  AutoModelForCausalLM_from_pretrained :
    string -> Dtype -> ModelKwargs -> result Model.t;
  AutoModelForCausalLM_from_config : ModelConfig.t -> Dtype -> result Model.t;
  AutoConfig_from_pretrained :
    string -> Dtype -> ModelKwargs -> result ModelConfig.t;
  model_on_meta : ModelConfig.t -> bool;
  model_is_optimized : ModelConfig.t -> bool;
  get_ds_injection_policy : ModelConfig.t -> string;
  checkpoints_json_name : string;
  deepspeed_init_inference : Model.t -> DsInferenceKwargs -> result Model.t;
  AutoTokenizer_from_pretrained : string -> TokenizerKwargs -> result Tokenizer.t;
  tokenizer_decode : Tokenizer.t -> TokenId -> result string;
  tokenizer_encode : Tokenizer.t -> string -> list Z;
  HFLM_init : Model.t -> Tokenizer.t -> BatchSize -> result unit;
  model_forward :
    list Event -> Model.t -> IdTensor.t -> gmap string bool -> result Logits.t;
  (** rounding of a value when a tensor changes its dtype *)
  cast_value : Dtype -> Dtype -> PyFloat -> PyFloat
}.

(** The mutable state the module works on: the [args] object, the process
    environment [os.environ], and the effects performed so far, oldest
    first. *)
Record World : Type := {
  w_args : Args.t;
  w_environ : gmap string string;
  w_log : list Event
}.

(** ** The monad of state and exceptions *)

Definition M (A : Type) : Type := World -> result A * World.

Definition ret {A} (a : A) : M A := fun w => (Ok a, w).

Definition bind {A B} (m : M A) (k : A -> M B) : M B :=
  fun w =>
    match m w with
    | (Ok a, w') => k a w'
    | (Raise e, w') => (Raise e, w')
    end.

Definition lift {A} (r : result A) : M A := fun w => (r, w).

Definition get_args : M Args.t := fun w => (Ok (w_args w), w).

Definition modify_args (f : Args.t -> Args.t) : M unit :=
  fun w => (Ok tt, {| w_args := f (w_args w); w_environ := w_environ w;
                      w_log := w_log w |}).

Definition get_environ : M (gmap string string) :=
  fun w => (Ok (w_environ w), w).

Definition modify_environ (f : gmap string string -> gmap string string) : M unit :=
  fun w => (Ok tt, {| w_args := w_args w; w_environ := f (w_environ w);
                      w_log := w_log w |}).

Definition get_log : M (list Event) := fun w => (Ok (w_log w), w).

Definition emit (e : Event) : M unit :=
  fun w => (Ok tt, {| w_args := w_args w; w_environ := w_environ w;
                      w_log := w_log w ++ [e] |}).

Definition when (b : bool) (m : M unit) : M unit := if b then m else ret tt.

#[global] Instance M_ret : MRet M := @ret.
#[global] Instance M_bind : MBind M := fun A B k m => bind m k.

(** The same for code that can only raise. *)
Definition rbind {A B} (r : result A) (k : A -> result B) : result B :=
  match r with
  | Ok a => k a
  | Raise e => Raise e
  end.

#[global] Instance result_ret : MRet result := @Ok.
#[global] Instance result_bind : MBind result := fun A B k r => rbind r k.

(** [assert b] *)
Definition py_assert (b : bool) : result unit :=
  if b then Ok tt else Raise AssertionError.

(** Reading an attribute that [setup_distributed] creates. *)
Definition getattr (name : string) (o : option Z) : result Z :=
  match o with
  | Some z => Ok z
  | None => Raise (AttributeError name)
  end.

(** [os.getenv(name, default)] and [os.environ.setdefault(name, value)] *)
Definition getenv (name dflt : string) : M string :=
  env ← get_environ; mret (default dflt (env !! name)).

Definition setdefault (name value : string) : M unit :=
  modify_environ (fun env =>
    match env !! name with
    | Some _ => env
    | None => <[name := value]> env
    end).

(** ** The module's functions *)

Section Functions.

Context (fw : Framework).

(** [setup_distributed(args)].  The three attributes are assigned one
    after the other, so an unreadable variable leaves the earlier ones
    assigned. *)
Definition setup_distributed : M unit :=
  s ← getenv "LOCAL_RANK" "0";
  n ← lift (Py.int s);
  modify_args (Args.set_local_rank (Some n));;
  s ← getenv "WORLD_SIZE" "0";
  n ← lift (Py.int s);
  modify_args (Args.set_world_size (Some n));;
  s ← getenv "RANK" "0";
  n ← lift (Py.int s);
  modify_args (Args.set_global_rank (Some n)).

(** [exclude_hpu_graph_configs(args)] *)
Definition exclude_hpu_graph_configs (args : Args.t) : result bool :=
  (* Excluded configs for batch size 1 for hpu graph *)
  if batch_size_is_1 (Args.batch_size args) && Args.limit_hpu_graphs args then
    if Py.str_in "falcon-180B" (Args.model_name_or_path args)
       || Py.str_in "falcon-180b" (Args.model_name_or_path args)
    then Ok false
    else
      world_size ← getattr "world_size" (Args.world_size args);
      if (world_size =? 2) || (world_size =? 4) || (world_size =? 8) then
        if (Args.max_input_tokens args >=? 4096)
           && (Args.max_new_tokens args >=? 128)
        then Ok false
        else Ok true
      else Ok true
  else Ok false.

(** [setup_env(args)] *)
Definition setup_env : M unit :=
  args ← get_args;
  setdefault "EXPERIMENTAL_WEIGHT_SHARING" "FALSE";;
  global_rank ← lift (getattr "global_rank" (Args.global_rank args));
  when ((global_rank =? 0) && negb (Args.torch_compile args))
    (setdefault "GRAPH_VISUALIZATION" "true";;
     emit (EvRmtree ".graph_dumps"));;
  world_size ← lift (getattr "world_size" (Args.world_size args));
  when (world_size >? 0)
    (setdefault "PT_HPU_LAZY_ACC_PAR_MODE" "0";;
     setdefault "PT_HPU_ENABLE_LAZY_COLLECTIVES" "true");;
  when (Args.use_hpu_graphs args && Args.limit_hpu_graphs args
        && negb (Args.reuse_cache args) && Args.bucket_internal args)
    (setdefault "PT_HPUGRAPH_DISABLE_TENSOR_CACHE" "1");;
  (* Tweak generation so that it runs faster on Gaudi *)
  emit EvAdaptTransformersToGaudi.

(** [setup_device(args)]; the caller drops the device it returns. *)
Definition setup_device : M unit :=
  args ← get_args;
  when (String.eqb (Args.device args) "hpu") (emit EvImportHtcore);;
  lift (torch_device fw (Args.device args)).

(** [setup_model(args, model_dtype, model_kwargs)] *)
Definition setup_model (model_dtype : Dtype) (model_kwargs : ModelKwargs)
    : M Model.t :=
  args ← get_args;
  model ← lift (AutoModelForCausalLM_from_pretrained fw
                  (Args.model_name_or_path args) model_dtype model_kwargs);
  let model := Model.set_device (Args.device args) model in
  let model :=
    if Args.use_hpu_graphs args then Model.set_hpu_graph true model
    else model in
  mret model.

(** [patch_scoped_linear_all_reduce(model)]: the walk over the module
    tree is recorded as one flag on the model. *)
Definition patch_scoped_linear_all_reduce (model : Model.t) : Model.t :=
  Model.set_scoped_linear_all_reduce true model.

(** [setup_distributed_model(args, model_dtype, model_kwargs)] *)
Definition setup_distributed_model (model_dtype : Dtype)
    (model_kwargs : ModelKwargs) : M Model.t :=
  args ← get_args;
  emit (EvDeepspeedInitDistributed "hccl");;
  config ← lift (AutoConfig_from_pretrained fw
                   (Args.model_name_or_path args) model_dtype model_kwargs);
  let load_to_meta := model_on_meta fw config in
  model ←
    (if load_to_meta then
       model ← lift (AutoModelForCausalLM_from_config fw config model_dtype);
       local_rank ← lift (getattr "local_rank" (Args.local_rank args));
       emit (EvWriteCheckpointsJson (Args.model_name_or_path args) local_rank
               (Args.token args));;
       mret (Model.set_device "meta" model)
     else
       model ← lift (AutoModelForCausalLM_from_pretrained fw
                       (Args.model_name_or_path args) model_dtype model_kwargs);
       mret (Model.set_device "cpu" model));
  (* Initialize the model *)
  world_size ← lift (getattr "world_size" (Args.world_size args));
  let ds_inference_kwargs := {|
    ds_dtype := model_dtype;
    ds_tp_size := world_size;
    ds_enable_cuda_graph := Args.use_hpu_graphs args;
    ds_injection_policy := get_ds_injection_policy fw config;
    ds_checkpoint :=
      if load_to_meta then Some (checkpoints_json_name fw) else None
  |} in
  model ← lift (deepspeed_init_inference fw model ds_inference_kwargs);
  if Py.in_list (ModelConfig.model_type (Model.config model))
       ["llama"; "falcon"; "qwen2"; "starcoder2"; "gemma"]
  then mret (patch_scoped_linear_all_reduce model)
  else mret model.

(** The first id of [eos_token_id] when it is an [int] or a [list];
    [None] when it is neither, where the source assigns nothing. *)
Definition first_eos (eos : TokenId) : result (option TokenId) :=
  match eos with
  | IdInt i => Ok (Some (IdInt i))
  | IdList l => i ← Py.index_first l; Ok (Some (IdInt i))
  | IdNone => Ok None
  end.

(** The [llama] branch of [setup_tokenizer]. *)
Definition setup_tokenizer_llama (tokenizer : Tokenizer.t) (model : Model.t)
    : result (Tokenizer.t * Model.t) :=
  let gc := Model.generation_config model in
  gc ←
    match GenerationConfig.pad_token_id gc with
    | IdNone =>
        o ← first_eos (GenerationConfig.eos_token_id gc);
        Ok (from_option (fun i => GenerationConfig.set_pad_token_id i gc) gc o)
    | _ => Ok gc
    end;
  let model := Model.set_generation_config gc model in
  let tokenizer :=
    Tokenizer.set_bos_token_id (GenerationConfig.bos_token_id gc) tokenizer in
  o ← first_eos (GenerationConfig.eos_token_id gc);
  let tokenizer :=
    from_option (fun i => Tokenizer.set_eos_token_id i tokenizer) tokenizer o in
  let tokenizer :=
    Tokenizer.set_pad_token_id (GenerationConfig.pad_token_id gc) tokenizer in
  s ← tokenizer_decode fw tokenizer (Tokenizer.pad_token_id tokenizer);
  let tokenizer := Tokenizer.set_pad_token (Some s) tokenizer in
  s ← tokenizer_decode fw tokenizer (Tokenizer.eos_token_id tokenizer);
  let tokenizer := Tokenizer.set_eos_token (Some s) tokenizer in
  s ← tokenizer_decode fw tokenizer (Tokenizer.bos_token_id tokenizer);
  let tokenizer := Tokenizer.set_bos_token (Some s) tokenizer in
  Ok (tokenizer, model).

(** The [persimmon] branch of [setup_tokenizer]. *)
Definition setup_tokenizer_persimmon (tokenizer : Tokenizer.t) (model : Model.t)
    : result (Tokenizer.t * Model.t) :=
  let gc := Model.generation_config model in
  let gc := GenerationConfig.set_pad_token_id (GenerationConfig.eos_token_id gc) gc in
  let model := Model.set_generation_config gc model in
  let tokenizer :=
    Tokenizer.set_bos_token_id (GenerationConfig.bos_token_id gc) tokenizer in
  let tokenizer :=
    Tokenizer.set_eos_token_id (GenerationConfig.eos_token_id gc) tokenizer in
  let tokenizer :=
    Tokenizer.set_pad_token_id (GenerationConfig.pad_token_id gc) tokenizer in
  s ← tokenizer_decode fw tokenizer (Tokenizer.pad_token_id tokenizer);
  let tokenizer := Tokenizer.set_pad_token (Some s) tokenizer in
  s ← tokenizer_decode fw tokenizer (Tokenizer.eos_token_id tokenizer);
  let tokenizer := Tokenizer.set_eos_token (Some s) tokenizer in
  s ← tokenizer_decode fw tokenizer (Tokenizer.bos_token_id tokenizer);
  let tokenizer := Tokenizer.set_bos_token (Some s) tokenizer in
  Ok (tokenizer, model).

(** The MiniCPM3 step: a list of EOS ids is replaced by its last id. *)
Definition setup_tokenizer_minicpm3 (model : Model.t) : result Model.t :=
  let gc := Model.generation_config model in
  match GenerationConfig.eos_token_id gc with
  | IdList l =>
      if String.eqb (ModelConfig.model_type (Model.config model)) "minicpm3" then
        i ← Py.index_last l;
        Ok (Model.set_generation_config
              (GenerationConfig.set_eos_token_id (IdInt i) gc) model)
      else Ok model
  | _ => Ok model
  end.

(** The closing step of [setup_tokenizer]: a tokenizer without a PAD
    token takes its EOS token. *)
Definition setup_tokenizer_pad (tokenizer : Tokenizer.t) (model : Model.t)
    : Tokenizer.t * Model.t :=
  match Tokenizer.pad_token tokenizer with
  | None =>
      let gc := Model.generation_config model in
      (Tokenizer.set_pad_token (Tokenizer.eos_token tokenizer) tokenizer,
       Model.set_generation_config
         (GenerationConfig.set_pad_token_id (GenerationConfig.eos_token_id gc) gc)
         model)
  | Some _ => (tokenizer, model)
  end.

(** The tokenizer as [setup_tokenizer] loads it, before any fix-up. *)
Definition load_tokenizer (args : Args.t) (model : Model.t) : result Tokenizer.t :=
  let tokenizer_kwargs := {|
    tk_revision := Args.model_revision args;
    tk_token := Args.token args;
    tk_trust_remote_code := Args.trust_remote_code args;
    tk_add_prefix_space :=
      if Py.is_not_None (Args.bad_words args)
         || Py.is_not_None (Args.force_words args)
      then Some true else None
  |} in
  tokenizer ← AutoTokenizer_from_pretrained fw (Args.model_name_or_path args)
                tokenizer_kwargs;
  Ok (if negb (ModelConfig.is_encoder_decoder (Model.config model))
      then Tokenizer.set_padding_side "left" tokenizer
      else tokenizer).

(** [setup_tokenizer(args, model)] up to the MiniCPM3 step: the tokenizer
    is loaded and the fix-ups of the model families are applied. *)
Definition setup_tokenizer_families (args : Args.t) (model : Model.t)
    : result (Tokenizer.t * Model.t) :=
  tokenizer ← load_tokenizer args model;
  let model_type := ModelConfig.model_type (Model.config model) in
  '(tokenizer, model) ←
    (if String.eqb model_type "llama"
     then setup_tokenizer_llama tokenizer model
     else Ok (tokenizer, model));
  '(tokenizer, model) ←
    (if String.eqb model_type "persimmon"
     then setup_tokenizer_persimmon tokenizer model
     else Ok (tokenizer, model));
  (* HACK: MiniCPM3 does not support list EOS token ID generation config. *)
  model ← setup_tokenizer_minicpm3 model;
  Ok (tokenizer, model).

(** [setup_tokenizer(args, model)] *)
Definition setup_tokenizer (args : Args.t) (model : Model.t)
    : result (Tokenizer.t * Model.t) :=
  '(tokenizer, model) ← setup_tokenizer_families args model;
  (* Some models like GPT2 do not have a PAD token so we have to set it if necessary *)
  Ok (setup_tokenizer_pad tokenizer model).

(** [setup_generation_config(args, model, tokenizer)].  The copy of
    [model.generation_config] keeps the three special-token ids; every
    other attribute is assigned from [args]. *)
Definition setup_generation_config (args : Args.t) (model : Model.t)
    (tokenizer : Tokenizer.t) : result GenerationConfig.t :=
  let encode_all (words : list string) : list (list Z) :=
    List.map (tokenizer_encode fw tokenizer) words in
  let bad_words_ids := option_map encode_all (Args.bad_words args) in
  let force_words_ids := option_map encode_all (Args.force_words args) in
  let is_optimized := model_is_optimized fw (Model.config model) in
  (* Generation configuration *)
  let generation_config := Model.generation_config model in
  let bucket_size := if is_optimized then Args.bucket_size args else -1 in
  let reduce_recompile := Args.reduce_recompile args in
  (if reduce_recompile then py_assert (bucket_size >? 0) else Ok tt);;
  Ok {|
    GenerationConfig.pad_token_id := GenerationConfig.pad_token_id generation_config;
    GenerationConfig.eos_token_id := GenerationConfig.eos_token_id generation_config;
    GenerationConfig.bos_token_id := GenerationConfig.bos_token_id generation_config;
    GenerationConfig.max_new_tokens := Args.max_new_tokens args;
    GenerationConfig.use_cache := Args.use_kv_cache args;
    GenerationConfig.static_shapes := is_optimized;
    GenerationConfig.bucket_size := bucket_size;
    GenerationConfig.bucket_internal := Args.bucket_internal args;
    GenerationConfig.do_sample := Args.do_sample args;
    GenerationConfig.num_beams := Args.num_beams args;
    GenerationConfig.top_k := Args.top_k args;
    GenerationConfig.penalty_alpha := Args.penalty_alpha args;
    GenerationConfig.bad_words_ids := bad_words_ids;
    GenerationConfig.force_words_ids := force_words_ids;
    GenerationConfig.num_return_sequences := Args.num_return_sequences args;
    GenerationConfig.trim_logits := Args.trim_logits args;
    GenerationConfig.attn_softmax_bf16 := Args.attn_softmax_bf16 args;
    GenerationConfig.limit_hpu_graphs := Args.limit_hpu_graphs args;
    GenerationConfig.reuse_cache := Args.reuse_cache args;
    GenerationConfig.reduce_recompile := reduce_recompile;
    GenerationConfig.use_flash_attention := Args.use_flash_attention args;
    GenerationConfig.flash_attention_recompute := Args.flash_attention_recompute args;
    GenerationConfig.flash_attention_causal_mask :=
      Args.flash_attention_causal_mask args;
    GenerationConfig.flash_attention_fast_softmax :=
      Args.flash_attention_fast_softmax args;
    GenerationConfig.trust_remote_code := Args.trust_remote_code args;
    GenerationConfig.valid_sequence_lengths := None
  |}.

(** [initialize_model(args)] *)
Definition initialize_model : M (Model.t * Tokenizer.t * GenerationConfig.t) :=
  setup_distributed;;
  args ← get_args;
  exclude ← lift (exclude_hpu_graph_configs args);
  when exclude (modify_args (Args.set_limit_hpu_graphs false));;
  setup_env;;
  setup_device;;
  args ← get_args;
  world_size ← lift (getattr "world_size" (Args.world_size args));
  let use_deepspeed := world_size >? 0 in
  model_dtype ←
    (if use_deepspeed || Args.bf16 args then mret Bfloat16
     else modify_args (Args.set_attn_softmax_bf16 false);; mret Float32);
  args ← get_args;
  let model_kwargs := {|
    mk_revision := Args.model_revision args;
    mk_token := Args.token args;
    mk_trust_remote_code := Args.trust_remote_code args
  |} in
  model ←
    (if negb use_deepspeed then setup_model model_dtype model_kwargs
     else setup_distributed_model model_dtype model_kwargs);
  '(tokenizer, model) ← lift (setup_tokenizer args model);
  generation_config ← lift (setup_generation_config args model tokenizer);
  mret (model, tokenizer, generation_config).

End Functions.

(** ** Tensor operations of torch used by the forward pass *)

Module Torch.

(** [F.pad(x, (0, right), value=value)] on the last dimension; a
    negative [right] crops, and cropping more than there is raises.
    [value=None] pads with zero. *)
Definition F_pad (x : IdTensor.t) (right : Z) (value : option Z)
    : result IdTensor.t :=
  if IdTensor.seq_length x + right <? 0 then
    Raise (FrameworkError "The input size is smaller than the crop")
  else
    Ok {| IdTensor.bs := IdTensor.bs x;
          IdTensor.seq_length := IdTensor.seq_length x + right;
          IdTensor.device := IdTensor.device x;
          IdTensor.data := fun i j =>
            if j <? IdTensor.seq_length x then IdTensor.data x i j
            else default 0 value |}.

(** [x.to(device)] *)
Definition to_device (device : string) (x : IdTensor.t) : IdTensor.t :=
  {| IdTensor.bs := IdTensor.bs x;
     IdTensor.seq_length := IdTensor.seq_length x;
     IdTensor.device := device;
     IdTensor.data := IdTensor.data x |}.

(** [y.cpu()] *)
Definition cpu (y : Logits.t) : Logits.t :=
  {| Logits.bs := Logits.bs y;
     Logits.seq_length := Logits.seq_length y;
     Logits.vocab := Logits.vocab y;
     Logits.dtype := Logits.dtype y;
     Logits.device := "cpu";
     Logits.data := Logits.data y |}.

(** The number of positions [l[:stop]] keeps of [n]. *)
Definition slice_stop (n stop : Z) : Z :=
  if stop <? 0 then Z.max 0 (n + stop) else Z.min n stop.

(** [y[:, :stop, :]] *)
Definition slice_seq (stop : Z) (y : Logits.t) : Logits.t :=
  {| Logits.bs := Logits.bs y;
     Logits.seq_length := slice_stop (Logits.seq_length y) stop;
     Logits.vocab := Logits.vocab y;
     Logits.dtype := Logits.dtype y;
     Logits.device := Logits.device y;
     Logits.data := Logits.data y |}.

(** [y.to(dtype)] *)
Definition to_dtype (fw : Framework) (dtype : Dtype) (y : Logits.t) : Logits.t :=
  {| Logits.bs := Logits.bs y;
     Logits.seq_length := Logits.seq_length y;
     Logits.vocab := Logits.vocab y;
     Logits.dtype := dtype;
     Logits.device := Logits.device y;
     Logits.data := fun i j k =>
       cast_value fw (Logits.dtype y) dtype (Logits.data y i j k) |}.

End Torch.

(** ** The class [OptimumHabanaLM] *)

Module OptimumHabanaLM.

Record t : Type := mk {
  _model : Model.t;
  tokenizer : Tokenizer.t;
  generation_config : GenerationConfig.t;
  _device : string;
  buckets : list Z;
  model_inputs : gmap string bool
}.

Section Methods.

Context (fw : Framework).

(** The dictionary [self.model_inputs] that [__init__] builds. *)
Definition build_model_inputs (model_type : string)
    (generation_config : GenerationConfig.t) : gmap string bool :=
  let model_inputs : gmap string bool :=
    {[ "use_cache" := GenerationConfig.use_cache generation_config ]} in
  let model_inputs :=
    if Py.in_list model_type
         ["llama"; "mistral"; "falcon"; "phi"; "mixtral"; "qwen2"; "gptj";
          "starcoder2"; "gemma"; "baichuan"]
    then <["reuse_cache" := GenerationConfig.reuse_cache generation_config]>
           model_inputs
    else model_inputs in
  if Py.in_list model_type
       ["llama"; "mistral"; "qwen2"; "falcon"; "starcoder2"; "gemma"; "baichuan"]
  then
    let model_inputs :=
      if negb (String.eqb model_type "falcon")
      then <["attn_softmax_bf16" :=
               GenerationConfig.attn_softmax_bf16 generation_config]> model_inputs
      else model_inputs in
    <["flash_attention_causal_mask" :=
        GenerationConfig.flash_attention_causal_mask generation_config]>
    (<["flash_attention_recompute" :=
        GenerationConfig.flash_attention_recompute generation_config]>
    (<["use_flash_attention" :=
        GenerationConfig.use_flash_attention generation_config]> model_inputs))
  else model_inputs.

(** The first lines of [__init__]: the [args] object is the parser's
    namespace when there is one, and else an [Args()] that takes the
    keyword arguments, the checkpoint and the batch size. *)
Definition init_args (pretrained : string) (batch_size : BatchSize)
    (parser : option Args.t) (kwargs : list Kwarg) : Args.t :=
  match parser with
  | Some parser => parser
  | None =>
      let args := foldl setattr Args.default kwargs in
      let args := Args.set_model_name_or_path pretrained args in
      Args.set_batch_size batch_size args
  end.

(** [__init__(self, pretrained, batch_size, parser, **kwargs)].  The
    [args] object of the constructor is the one in the [World]. *)
Definition __init__ (pretrained : string) (batch_size : BatchSize)
    (parser : option Args.t) (kwargs : list Kwarg) : M t :=
  modify_args (fun _ => init_args pretrained batch_size parser kwargs);;
  '(model, tokenizer, generation_config) ← initialize_model fw;
  args ← get_args;
  lift (HFLM_init fw model tokenizer (Args.batch_size args));;
  mret {|
    _model := model;
    tokenizer := tokenizer;
    generation_config := generation_config;
    _device := Args.device args;
    buckets := Py.sorted (Args.buckets args);
    model_inputs :=
      build_model_inputs (ModelConfig.model_type (Model.config model))
        generation_config
  |}.

(** [max_length] *)
Definition max_length (self : t) : result Z :=
  Py.index_last (buckets self).

(** [find_bucket(self, length)] *)
Definition find_bucket (self : t) (length : Z) : result Z :=
  Py.index_first (filter (fun b => b >= length) (buckets self)).

(** [_model_call(self, inps)]; the arguments [attn_mask] and [labels]
    are not used by the method. *)
Definition _model_call (self : t) (inps : IdTensor.t) : M Logits.t :=
  let bs := IdTensor.bs inps in
  let seq_length := IdTensor.seq_length inps in
  let padding_length := 0 in
  '(padding_length, inps) ←
    (if GenerationConfig.static_shapes (generation_config self) then
       bucket_length ← lift (find_bucket self seq_length);
       when (GenerationConfig.use_cache (generation_config self)
             && GenerationConfig.reuse_cache (generation_config self))
         (emit (EvAllocateKVCache bs (bucket_length + 1) bucket_length));;
       let padding_length := bucket_length - seq_length in
       inps ← lift (Torch.F_pad inps padding_length
                      (ModelConfig.pad_token_id (Model.config (_model self))));
       mret (padding_length, inps)
     else mret (padding_length, inps));
  history ← get_log;
  let inps := Torch.to_device (_device self) inps in
  emit (EvForward inps (model_inputs self));;
  logits ← lift (model_forward fw history (_model self) inps (model_inputs self));
  let logits := Torch.cpu logits in
  let logits :=
    if GenerationConfig.static_shapes (generation_config self)
       && (padding_length >? 0)
    then Torch.slice_seq (- padding_length) logits
    else logits in
  let logits := Torch.to_dtype fw Float32 logits in
  mret logits.

End Methods.

End OptimumHabanaLM.

(** ** A concrete framework

    A Llama checkpoint behind a framework that always succeeds: the
    forward pass answers one row of bfloat16 logits per input position.
    It is the input of the examples below. *)

Module Demo.

Definition generation_config : GenerationConfig.t := {|
  GenerationConfig.pad_token_id := IdNone;
  GenerationConfig.eos_token_id := IdInt 2;
  GenerationConfig.bos_token_id := IdInt 1;
  GenerationConfig.max_new_tokens := 20;
  GenerationConfig.use_cache := true;
  GenerationConfig.static_shapes := false;
  GenerationConfig.bucket_size := -1;
  GenerationConfig.bucket_internal := false;
  GenerationConfig.do_sample := false;
  GenerationConfig.num_beams := 1;
  GenerationConfig.top_k := Some 50;
  GenerationConfig.penalty_alpha := None;
  GenerationConfig.bad_words_ids := None;
  GenerationConfig.force_words_ids := None;
  GenerationConfig.num_return_sequences := 1;
  GenerationConfig.trim_logits := false;
  GenerationConfig.attn_softmax_bf16 := false;
  GenerationConfig.limit_hpu_graphs := false;
  GenerationConfig.reuse_cache := false;
  GenerationConfig.reduce_recompile := false;
  GenerationConfig.use_flash_attention := false;
  GenerationConfig.flash_attention_recompute := false;
  GenerationConfig.flash_attention_causal_mask := false;
  GenerationConfig.flash_attention_fast_softmax := false;
  GenerationConfig.trust_remote_code := false;
  GenerationConfig.valid_sequence_lengths := None
|}.

Definition config (model_type : string) : ModelConfig.t := {|
  ModelConfig.model_type := model_type;
  ModelConfig.is_encoder_decoder := false;
  ModelConfig.pad_token_id := None
|}.

Definition model (model_type name : string) (dtype : Dtype) : Model.t := {|
  Model.config := config model_type;
  Model.generation_config := generation_config;
  Model.name_or_path := name;
  Model.torch_dtype := dtype;
  Model.device := "cpu";
  Model.hpu_graph := false;
  Model.scoped_linear_all_reduce := false
|}.

(** A tokenizer with BOS and EOS tokens and no PAD token. *)
Definition tokenizer : Tokenizer.t := {|
  Tokenizer.name_or_path := "";
  Tokenizer.padding_side := "right";
  Tokenizer.bos_token_id := IdInt 1;
  Tokenizer.eos_token_id := IdInt 2;
  Tokenizer.pad_token_id := IdNone;
  Tokenizer.bos_token := Some "<s>";
  Tokenizer.eos_token := Some "</s>";
  Tokenizer.pad_token := None
|}.

(** A tokenizer without any special token. *)
Definition bare_tokenizer : Tokenizer.t := {|
  Tokenizer.name_or_path := "";
  Tokenizer.padding_side := "right";
  Tokenizer.bos_token_id := IdNone;
  Tokenizer.eos_token_id := IdNone;
  Tokenizer.pad_token_id := IdNone;
  Tokenizer.bos_token := None;
  Tokenizer.eos_token := None;
  Tokenizer.pad_token := None
|}.

Definition decode (i : TokenId) : result string :=
  match i with
  | IdNone => Raise (FrameworkError "argument 'ids': 'NoneType' object")
  | IdInt 1 => Ok "<s>"
  | IdInt 2 => Ok "</s>"
  | IdInt _ => Ok "<unk>"
  | IdList _ => Ok "<unk>"
  end.

Definition logits (x : IdTensor.t) : Logits.t := {|
  Logits.bs := IdTensor.bs x;
  Logits.seq_length := IdTensor.seq_length x;
  Logits.vocab := 32000;
  Logits.dtype := Bfloat16;
  Logits.device := IdTensor.device x;
  Logits.data := fun _ _ _ => QArith_base.Qmake 0 1
|}.

Definition framework (model_type : string) (tok : Tokenizer.t) : Framework := {|
  torch_device := fun _ => Ok tt;
  AutoModelForCausalLM_from_pretrained := fun name dtype _ =>
    Ok (model model_type name dtype);
  AutoModelForCausalLM_from_config := fun _ dtype => Ok (model model_type "" dtype);
  AutoConfig_from_pretrained := fun _ _ _ => Ok (config model_type);
  model_on_meta := fun _ => false;
  model_is_optimized := fun c => String.eqb (ModelConfig.model_type c) "llama";
  get_ds_injection_policy := fun _ => "";
  checkpoints_json_name := "/tmp/checkpoints.json";
  deepspeed_init_inference := fun m _ => Ok m;
  AutoTokenizer_from_pretrained := fun _ _ => Ok tok;
  tokenizer_decode := fun _ i => decode i;
  tokenizer_encode := fun _ _ => [];
  HFLM_init := fun _ _ _ => Ok tt;
  model_forward := fun _ _ x _ => Ok (logits x);
  cast_value := fun _ _ v => v
|}.

Definition llama : Framework := framework "llama" tokenizer.

(** A GPT-2 checkpoint: not one of the optimized families, so no static
    shapes. *)
Definition gpt2 : Framework := framework "gpt2" tokenizer.

(** A checkpoint whose tokenizer has no special tokens. *)
Definition bare : Framework := framework "gpt2" bare_tokenizer.

(** A fresh process: [Args()] and an empty environment. *)
Definition world : World :=
  {| w_args := Args.default; w_environ := ∅; w_log := [] |}.

(** [OptimumHabanaLM(pretrained)] in a fresh process. *)
Definition lm (fw : Framework) (pretrained : string) : result OptimumHabanaLM.t :=
  (OptimumHabanaLM.__init__ fw pretrained (BatchInt 1) None [] world).1.

Definition wrapper (fw : Framework) (pretrained : string) : OptimumHabanaLM.t :=
  match lm fw pretrained with
  | Ok self => self
  | Raise _ =>
      OptimumHabanaLM.mk (model "" "" Float32) tokenizer generation_config "" [] ∅
  end.

(** The wrapper of the Llama checkpoint, with static shapes, and of the
    GPT-2 checkpoint, without. *)
Definition self : OptimumHabanaLM.t :=
  Eval vm_compute in wrapper llama "meta-llama/Llama-2-7b-hf".

Definition self_gpt2 : OptimumHabanaLM.t :=
  Eval vm_compute in wrapper gpt2 "gpt2".

(** A batch of [bs] sequences of [seq_length] token ids. *)
Definition batch (bs seq_length : Z) : IdTensor.t := {|
  IdTensor.bs := bs;
  IdTensor.seq_length := seq_length;
  IdTensor.device := "cpu";
  IdTensor.data := fun i j => i + j
|}.

End Demo.

(** ** The vocabulary of the properties *)

(** [b] is the least element of [B] that is at least [L]. *)
Definition least_bucket_above (B : list Z) (L b : Z) : Prop :=
  b ∈ B /\ L <= b /\ forall b', b' ∈ B -> L <= b' -> b <= b'.

(** [m] is the greatest element of [B]. *)
Definition greatest_bucket (B : list Z) (m : Z) : Prop :=
  m ∈ B /\ forall b, b ∈ B -> b <= m.

(** [frames R m]: whatever [m] does, and whether it returns or raises,
    the [args] object it leaves is related by [R] to the one it found. *)
Definition frames (R : relation Args.t) {A} (m : M A) : Prop :=
  forall w r w', m w = (r, w') -> R (w_args w) (w_args w').

(** [int(os.getenv(name, "0"))] in the environment [env]. *)
Definition env_rank (env : gmap string string) (name : string) : result Z :=
  Py.int (default "0" (env !! name)).

(** [args] after [setup_distributed] read the three ranks. *)
Definition with_ranks (local_rank world_size global_rank : option Z)
    (a : Args.t) : Args.t :=
  Args.set_global_rank global_rank
    (Args.set_world_size world_size (Args.set_local_rank local_rank a)).

(** [a'] is [a] but for [local_rank], [world_size] and [global_rank]. *)
Definition only_ranks_differ (a a' : Args.t) : Prop :=
  a' = with_ranks (Args.local_rank a') (Args.world_size a') (Args.global_rank a') a.

(** [a'] is [a] but for [attn_softmax_bf16]. *)
Definition only_attn_softmax_bf16_differs (a a' : Args.t) : Prop :=
  a' = Args.set_attn_softmax_bf16 (Args.attn_softmax_bf16 a') a.

(** [a'] is [a] but for the three ranks, [limit_hpu_graphs] and
    [attn_softmax_bf16]. *)
Definition only_startup_fields_differ (a a' : Args.t) : Prop :=
  a' = Args.set_limit_hpu_graphs (Args.limit_hpu_graphs a')
         (Args.set_attn_softmax_bf16 (Args.attn_softmax_bf16 a')
            (with_ranks (Args.local_rank a') (Args.world_size a')
               (Args.global_rank a') a)).

(** The configurations in which [limit_hpu_graphs] is switched off, in the
    words of the specification: batch size 1 with [limit_hpu_graphs] set,
    unless the model is a Falcon 180B or the run is on 2, 4 or 8 devices
    with long inputs and outputs. *)
Definition limit_hpu_graphs_forced_off (world_size : Z) (a : Args.t) : bool :=
  batch_size_is_1 (Args.batch_size a) && Args.limit_hpu_graphs a
  && negb (Py.str_in "falcon-180B" (Args.model_name_or_path a)
           || Py.str_in "falcon-180b" (Args.model_name_or_path a))
  && negb (((world_size =? 2) || (world_size =? 4) || (world_size =? 8))
           && (4096 <=? Args.max_input_tokens a)
           && (128 <=? Args.max_new_tokens a)).

(** A flag of [args] that is either kept or switched off. *)
Definition kept_or_switched_off (flag : Args.t -> bool) : relation Args.t :=
  fun a a' => flag a' = flag a \/ flag a' = false.

(** The model answers, with one row of logits per input position. *)
Definition forward_keeps_positions (fw : Framework) (self : OptimumHabanaLM.t)
    : Prop :=
  forall history x,
    exists y,
      model_forward fw history (OptimumHabanaLM._model self) x
        (OptimumHabanaLM.model_inputs self) = Ok y
      /\ Logits.bs y = IdTensor.bs x
      /\ Logits.seq_length y = IdTensor.seq_length x.

(** The effects one call of [_model_call] adds to the log. *)
Definition model_call_events (fw : Framework) (self : OptimumHabanaLM.t)
    (inps : IdTensor.t) (w : World) : list Event :=
  drop (length (w_log w)) (w_log (OptimumHabanaLM._model_call fw self inps w).2).

Definition is_allocate_kv_cache (e : Event) : bool :=
  match e with
  | EvAllocateKVCache _ _ _ => true
  | _ => false
  end.

Definition is_forward (e : Event) : bool :=
  match e with
  | EvForward _ _ => true
  | _ => false
  end.

(** [m'] is [m] but for the pad and EOS ids of its generation
    configuration. *)
Definition only_special_ids_differ (m m' : Model.t) : Prop :=
  m' = Model.set_generation_config
         (GenerationConfig.set_pad_token_id
            (GenerationConfig.pad_token_id (Model.generation_config m'))
            (GenerationConfig.set_eos_token_id
               (GenerationConfig.eos_token_id (Model.generation_config m'))
               (Model.generation_config m)))
         m.

(** The keyword arguments [__init__] may pass to the model, with the
    attribute of the generation configuration each one carries. *)
Definition model_inputs_table (gc : GenerationConfig.t) : list (string * bool) :=
  [("use_cache", GenerationConfig.use_cache gc);
   ("reuse_cache", GenerationConfig.reuse_cache gc);
   ("attn_softmax_bf16", GenerationConfig.attn_softmax_bf16 gc);
   ("use_flash_attention", GenerationConfig.use_flash_attention gc);
   ("flash_attention_recompute", GenerationConfig.flash_attention_recompute gc);
   ("flash_attention_causal_mask", GenerationConfig.flash_attention_causal_mask gc)].

(** [wframes R m]: whatever [m] does, and whether it returns or raises,
    the world it leaves is related by [R] to the one it found. *)
Definition wframes (R : relation World) {A} (m : M A) : Prop :=
  forall w r w', m w = (r, w') -> R w w'.

(** [m] leaves the environment and the log as they are. *)
Definition environ_and_log_kept : relation World :=
  fun w w' => w_environ w' = w_environ w /\ w_log w' = w_log w.

(** [m] leaves the environment as it is. *)
Definition environ_kept : relation World :=
  fun w w' => w_environ w' = w_environ w.

(** The variables [setup_env] may define. *)
Definition setup_env_names : list string :=
  ["EXPERIMENTAL_WEIGHT_SHARING"; "GRAPH_VISUALIZATION";
   "PT_HPU_LAZY_ACC_PAR_MODE"; "PT_HPU_ENABLE_LAZY_COLLECTIVES";
   "PT_HPUGRAPH_DISABLE_TENSOR_CACHE"].

(** A variable that was set, and a variable outside [names], reads the
    same afterwards. *)
Definition environ_only_defaults (names : list string) : relation World :=
  fun w w' =>
    forall name,
      is_Some (w_environ w !! name) \/ name ∉ names ->
      w_environ w' !! name = w_environ w !! name.

(** The variable [name] reads the same afterwards. *)
Definition environ_variable_kept (name : string) : relation World :=
  fun w w' => w_environ w' !! name = w_environ w !! name.

(** The log only grows, by events that satisfy [P]. *)
Definition log_grows_by (P : Event -> Prop) : relation World :=
  fun w w' => exists new, w_log w' = (w_log w ++ new)%list /\ Forall P new.

Definition is_deepspeed_init (e : Event) : bool :=
  match e with
  | EvDeepspeedInitDistributed _ => true
  | _ => false
  end.

(** [args] when [initialize_model] returns, from the [args] it was given
    and the three ranks of the environment. *)
Definition args_after_startup (local_rank world_size global_rank : Z)
    (a : Args.t) : Args.t :=
  let a1 := with_ranks (Some local_rank) (Some world_size) (Some global_rank) a in
  let a2 :=
    if limit_hpu_graphs_forced_off world_size a
    then Args.set_limit_hpu_graphs false a1 else a1 in
  if (world_size >? 0) || Args.bf16 a then a2
  else Args.set_attn_softmax_bf16 false a2.

(** What [os.environ.setdefault(name, value)] makes of the environment. *)
Definition environ_setdefault (name value : string) (env : gmap string string)
    : gmap string string :=
  match env !! name with
  | Some _ => env
  | None => <[name := value]> env
  end.

(** The environment [setup_env] leaves, from [args] and the two ranks it
    reads there. *)
Definition setup_env_environ (a : Args.t) (global_rank world_size : Z)
    (env : gmap string string) : gmap string string :=
  let env := environ_setdefault "EXPERIMENTAL_WEIGHT_SHARING" "FALSE" env in
  let env :=
    if (global_rank =? 0) && negb (Args.torch_compile a)
    then environ_setdefault "GRAPH_VISUALIZATION" "true" env else env in
  let env :=
    if world_size >? 0
    then environ_setdefault "PT_HPU_ENABLE_LAZY_COLLECTIVES" "true"
           (environ_setdefault "PT_HPU_LAZY_ACC_PAR_MODE" "0" env)
    else env in
  if Args.use_hpu_graphs a && Args.limit_hpu_graphs a
     && negb (Args.reuse_cache a) && Args.bucket_internal a
  then environ_setdefault "PT_HPUGRAPH_DISABLE_TENSOR_CACHE" "1" env else env.

(** The effects of [setup_env] and of [setup_device]. *)
Definition setup_env_events (a : Args.t) (global_rank : Z) : list Event :=
  (if (global_rank =? 0) && negb (Args.torch_compile a)
   then [EvRmtree ".graph_dumps"] else [])
  ++ [EvAdaptTransformersToGaudi].

Definition setup_device_events (a : Args.t) : list Event :=
  if String.eqb (Args.device a) "hpu" then [EvImportHtcore] else [].

(** The dtype [initialize_model] loads the model with. *)
Definition startup_dtype (world_size : Z) (a : Args.t) : Dtype :=
  if (world_size >? 0) || Args.bf16 a then Bfloat16 else Float32.

(** The conditions under which [setup_env] gives a variable its default
    value. *)
Definition setup_env_table (a : Args.t) (global_rank world_size : Z)
    : list (string * string * bool) :=
  [("EXPERIMENTAL_WEIGHT_SHARING", "FALSE", true);
   ("GRAPH_VISUALIZATION", "true",
    (global_rank =? 0) && negb (Args.torch_compile a));
   ("PT_HPU_LAZY_ACC_PAR_MODE", "0", world_size >? 0);
   ("PT_HPU_ENABLE_LAZY_COLLECTIVES", "true", world_size >? 0);
   ("PT_HPUGRAPH_DISABLE_TENSOR_CACHE", "1",
    Args.use_hpu_graphs a && Args.limit_hpu_graphs a
    && negb (Args.reuse_cache a) && Args.bucket_internal a)].

(** ** More concrete inputs *)

Module Demo2.

(** A MiniCPM3 checkpoint whose generation configuration lists two EOS
    ids, and a llama checkpoint that lists none. *)
Definition minicpm3 : Framework := Demo.framework "minicpm3" Demo.tokenizer.

Definition with_eos (eos : TokenId) (m : Model.t) : Model.t :=
  Model.set_generation_config
    (GenerationConfig.set_eos_token_id eos (Model.generation_config m)) m.

Definition minicpm3_model : Model.t :=
  with_eos (IdList [2; 73440]) (Demo.model "minicpm3" "openbmb/MiniCPM3-4B" Bfloat16).

Definition llama_model : Model.t :=
  Demo.model "llama" "meta-llama/Llama-2-7b-hf" Bfloat16.

Definition llama_no_eos : Model.t := with_eos (IdList []) llama_model.

(** A persimmon checkpoint. *)
Definition persimmon : Framework := Demo.framework "persimmon" Demo.tokenizer.

Definition persimmon_model : Model.t :=
  Demo.model "persimmon" "adept/persimmon-8b-base" Bfloat16.

(** A process started by a launcher on eight devices, and one with a
    world size that is not a number. *)
Definition world_of (environ : gmap string string) : World :=
  {| w_args := Args.default; w_environ := environ; w_log := [] |}.

Definition eight_devices : World :=
  world_of (<["LOCAL_RANK" := "3"]> (<["WORLD_SIZE" := "8"]>
            (<["RANK" := "3"]> (<["GRAPH_VISUALIZATION" := "false"]> ∅)))).

Definition bad_world_size : World := world_of (<["WORLD_SIZE" := "eight"]> ∅).

(** [args] once [setup_distributed] has run in a fresh process. *)
Definition ranked : World :=
  {| w_args := with_ranks (Some 0) (Some 0) (Some 0) Args.default;
     w_environ := ∅; w_log := [] |}.

(** The batch of two sequences of 100 tokens, padded to 128. *)
Definition padded : IdTensor.t :=
  match Torch.F_pad (Demo.batch 2 100) (128 - 100) None with
  | Ok x => x
  | Raise _ => Demo.batch 2 100
  end.

(** What [initialize_model] returns on the eight devices. *)
Definition started : Model.t * Tokenizer.t * GenerationConfig.t :=
  Eval vm_compute in
    match (initialize_model Demo.llama eight_devices).1 with
    | Ok res => res
    | Raise _ => (llama_model, Demo.tokenizer, Demo.generation_config)
    end.

End Demo2.

(** ** The embedding at work *)

Example demo_lm_ok : is_ok (Demo.lm Demo.llama "meta-llama/Llama-2-7b-hf") = true.
Proof. vm_compute. reflexivity. Qed.

Example demo_buckets :
  OptimumHabanaLM.buckets Demo.self = [16; 32; 64; 128; 189; 284; 384].
Proof. vm_compute. reflexivity. Qed.

Example demo_find_bucket_100 : OptimumHabanaLM.find_bucket Demo.self 100 = Ok 128.
Proof. vm_compute. reflexivity. Qed.

Example demo_find_bucket_385 :
  OptimumHabanaLM.find_bucket Demo.self 385 = Raise IndexError.
Proof. vm_compute. reflexivity. Qed.

Example demo_model_call_seq :
  (fun r => match r with
            | Ok y => Some (Logits.bs y, Logits.seq_length y, Logits.dtype y)
            | Raise _ => None
            end)
    (fst (OptimumHabanaLM._model_call Demo.llama Demo.self (Demo.batch 1 100)
            Demo.world))
  = Some (1, 100, Float32).
Proof. vm_compute. reflexivity. Qed.

Example demo_model_call_log :
  match snd (OptimumHabanaLM._model_call Demo.llama Demo.self (Demo.batch 1 100)
               Demo.world) with
  | {| w_log := [EvAllocateKVCache 1 129 128; EvForward x _] |} =>
      IdTensor.seq_length x = 128
  | _ => False
  end.
Proof. vm_compute. reflexivity. Qed.

(** A length that is a bucket: the model sees the 128 positions, and 128
    come back. *)
Example demo_model_call_exact_bucket :
  match OptimumHabanaLM._model_call Demo.llama Demo.self (Demo.batch 1 128)
          Demo.world with
  | (Ok y, {| w_log := [_; EvForward x _] |}) =>
      IdTensor.seq_length x = 128 /\ Logits.seq_length y = 128
  | _ => False
  end.
Proof. vm_compute. by split. Qed.

(** Eight devices, long inputs and outputs: the flag stays. *)
Example demo_exclude_8_devices :
  exclude_hpu_graph_configs
    (Args.set_world_size (Some 8)
       (Args.set_max_input_tokens 4096
          (Args.set_max_new_tokens 128 Args.default)))
  = Ok false.
Proof. reflexivity. Qed.

Example demo_exclude_falcon :
  exclude_hpu_graph_configs
    (Args.set_world_size (Some 1)
       (Args.set_model_name_or_path "tiiuae/falcon-180B" Args.default))
  = Ok false.
Proof. reflexivity. Qed.

Example demo_exclude_default :
  exclude_hpu_graph_configs (Args.set_world_size (Some 0) Args.default) = Ok true.
Proof. reflexivity. Qed.

Example demo_int : Py.int " -1_0 " = Ok (-10) /\ Py.int "1__0" = Raise ValueError.
Proof. by split. Qed.

(** ** Bucket selection *)

Section Buckets.

Import OptimumHabanaLM.

Lemma sorted_is_Sorted (B : list Z) : Sorted Z.le (Py.sorted B).
Proof. apply (Sorted_merge_sort Z.le). Qed.

Lemma sorted_elem_of (B : list Z) (b : Z) : b ∈ Py.sorted B <-> b ∈ B.
Proof. unfold Py.sorted. by rewrite (merge_sort_Permutation Z.le). Qed.

Lemma sorted_nil_inv (B : list Z) : Py.sorted B = [] -> B = [].
Proof.
  intros H. apply Permutation_nil_r.
  rewrite <- H. unfold Py.sorted. by rewrite (merge_sort_Permutation Z.le).
Qed.

(** The first element a filter keeps of an ascending list is below every
    other element the filter keeps. *)
Lemma filter_head_least (P : Z -> Prop) `{!forall x, Decision (P x)}
    (B : list Z) (b : Z) (rest : list Z) :
  StronglySorted Z.le B -> filter P B = b :: rest ->
  b ∈ B /\ P b /\ forall b', b' ∈ B -> P b' -> b <= b'.
Proof.
  induction 1 as [|x B HB IH Hx]; intros Hf; [done|].
  rewrite filter_cons in Hf. destruct (decide (P x)) as [Px|Px].
  - injection Hf as -> _. split; [left|split; [done|]].
    intros b' [->|Hb']%elem_of_cons _; [lia|].
    rewrite Forall_forall in Hx. by apply Hx.
  - destruct (IH Hf) as (Hb & Pb & Hmin).
    split; [by right|split; [done|]].
    intros b' [->|Hb']%elem_of_cons Pb'; [done|]. by apply Hmin.
Qed.

(** The last element of an ascending list is its greatest. *)
Lemma last_greatest (B : list Z) (m : Z) :
  StronglySorted Z.le B -> last B = Some m -> greatest_bucket B m.
Proof.
  intros HB [B' ->]%last_Some. split; [set_solver|].
  intros b [Hb| ->%list_elem_of_singleton]%elem_of_app; [|lia].
  eapply (StronglySorted_app_1_elem_of Z.le); [exact HB|exact Hb|set_solver].
Qed.

(** C1: on an ascending bucket list, [find_bucket(L)] returns [b] exactly
    when [b] is the least bucket that is at least [L]; so it returns that
    bucket whenever there is one, and nothing else. *)
Theorem find_bucket_least_bucket (self : t) (L b : Z) :
  Sorted Z.le (buckets self) ->
  find_bucket self L = Ok b <-> least_bucket_above (buckets self) L b.
Proof.
  intros HB%(Sorted_StronglySorted Z.le). unfold find_bucket, Py.index_first.
  destruct (filter _ _) as [|b0 rest] eqn:Hf.
  - split; [done|]. intros (Hb & HL & _).
    assert (b ∈ filter (fun b => b >= L) (buckets self)) as Hin
      by (apply list_elem_of_filter; split; [lia|done]).
    rewrite Hf in Hin. by apply elem_of_nil in Hin.
  - destruct (filter_head_least _ _ _ _ HB Hf) as (Hb0 & HL0 & Hmin).
    split.
    + intros [= <-]. split; [done|split; [lia|]].
      intros b' Hb' HL'. apply Hmin; [done|lia].
    + intros (Hb & HL & Hmin'). f_equal.
      assert (b0 <= b) by (apply Hmin; [done|lia]).
      assert (b <= b0) by (apply Hmin'; [done|lia]). lia.
Qed.

Lemma find_bucket_Raise_iff (self : t) (L : Z) (e : exn) :
  find_bucket self L = Raise e <->
  e = IndexError /\ forall b, b ∈ buckets self -> b < L.
Proof.
  unfold find_bucket, Py.index_first.
  destruct (filter _ _) as [|b0 rest] eqn:Hf.
  - split.
    + intros [= <-]. split; [done|]. intros b Hb.
      destruct (decide (b >= L)) as [Hge|]; [|lia].
      by destruct (filter_nil_not_elem_of _ _ b Hf Hge).
    + by intros [-> _].
  - split; [done|]. intros [_ Hall].
    assert (b0 ∈ filter (fun b => b >= L) (buckets self)) as Hin
      by (rewrite Hf; left).
    apply list_elem_of_filter in Hin as [Hge Hin]. specialize (Hall _ Hin). lia.
Qed.

(** C2: a length above the largest bucket makes [find_bucket] raise
    rather than return a bucket, and a length some bucket reaches makes
    it return. *)
Theorem find_bucket_beyond_largest (self : t) (L m : Z) :
  Sorted Z.le (buckets self) ->
  max_length self = Ok m ->
  (m < L -> find_bucket self L = Raise IndexError)
  /\ ((exists b, b ∈ buckets self /\ L <= b) ->
      exists b, find_bucket self L = Ok b).
Proof.
  intros HB%(Sorted_StronglySorted Z.le) Hm. split.
  - intros HL. apply find_bucket_Raise_iff. split; [done|].
    unfold max_length, Py.index_last in Hm.
    destruct (last (buckets self)) as [m'|] eqn:Hlast; [|done].
    injection Hm as ->.
    destruct (last_greatest _ _ HB Hlast) as [_ Hmax].
    intros b Hb. specialize (Hmax b Hb). lia.
  - intros (b & Hb & HL).
    destruct (find_bucket self L) as [b'|e] eqn:Hfind; [by exists b'|].
    apply find_bucket_Raise_iff in Hfind as [_ Hall].
    specialize (Hall b Hb). lia.
Qed.

End Buckets.

(** ** What a computation does to [args] *)

Section Frames.

Context (R : relation Args.t) `{!PreOrder R}.

Lemma frames_ret {A} (a : A) : frames R (mret a).
Proof. intros w r w' [= _ <-]. reflexivity. Qed.

Lemma frames_lift {A} (x : result A) : frames R (lift x).
Proof. intros w r w' [= _ <-]. reflexivity. Qed.

Lemma frames_get_args : frames R get_args.
Proof. intros w r w' [= _ <-]. reflexivity. Qed.

Lemma frames_get_environ : frames R get_environ.
Proof. intros w r w' [= _ <-]. reflexivity. Qed.

Lemma frames_get_log : frames R get_log.
Proof. intros w r w' [= _ <-]. reflexivity. Qed.

Lemma frames_emit (e : Event) : frames R (emit e).
Proof. intros w r w' [= _ <-]. reflexivity. Qed.

Lemma frames_modify_environ f : frames R (modify_environ f).
Proof. intros w r w' [= _ <-]. reflexivity. Qed.

Lemma frames_modify_args (f : Args.t -> Args.t) :
  (forall a, R a (f a)) -> frames R (modify_args f).
Proof. intros Hf w r w' [= _ <-]. apply Hf. Qed.

Lemma frames_bind {A B} (m : M A) (k : A -> M B) :
  frames R m -> (forall a, frames R (k a)) -> frames R (m ≫= k).
Proof.
  intros Hm Hk w r w' Hrun. unfold mbind, M_bind, bind in Hrun.
  destruct (m w) as [[a|e] w1] eqn:Hmw.
  - transitivity (w_args w1); [by eapply Hm|by eapply Hk].
  - injection Hrun as _ <-. by eapply Hm.
Qed.

Lemma frames_when (b : bool) (m : M unit) : frames R m -> frames R (when b m).
Proof. destruct b; [done|]. intros _. apply frames_ret. Qed.

End Frames.

Create HintDb frames discriminated.
#[local] Hint Resolve frames_ret frames_lift frames_get_args frames_get_environ
  frames_get_log frames_emit frames_modify_environ frames_when : frames.

(** Walks through a computation written with [≫=], [when] and conditionals. *)
Ltac frames_step :=
  match goal with
  | |- frames _ (_ ≫= _) => apply frames_bind; [try typeclasses eauto| |intros ?]
  | |- frames _ (if ?b then _ else _) => destruct b
  | |- frames _ (let '(_, _) := ?p in _) => destruct p
  | |- frames _ (when _ _) => apply frames_when; [try typeclasses eauto|]
  | |- frames _ _ => solve [auto with frames typeclass_instances]
  end.
Ltac solve_frames := repeat frames_step.

Section FramesOfFunctions.

Context (fw : Framework) (R : relation Args.t) `{!PreOrder R}.

Lemma frames_getenv name dflt : frames R (getenv name dflt).
Proof. unfold getenv. solve_frames. Qed.

Lemma frames_setdefault name value : frames R (setdefault name value).
Proof. unfold setdefault. solve_frames. Qed.

Hint Resolve frames_getenv frames_setdefault : frames.

Lemma frames_setup_distributed :
  (forall v a, R a (Args.set_local_rank v a)) ->
  (forall v a, R a (Args.set_world_size v a)) ->
  (forall v a, R a (Args.set_global_rank v a)) ->
  frames R setup_distributed.
Proof.
  intros H1 H2 H3. unfold setup_distributed.
  solve_frames; apply frames_modify_args; auto.
Qed.

Lemma frames_setup_env : frames R setup_env.
Proof. unfold setup_env. solve_frames. Qed.

Lemma frames_setup_device : frames R (setup_device fw).
Proof. unfold setup_device. solve_frames. Qed.

Lemma frames_setup_model dtype kwargs : frames R (setup_model fw dtype kwargs).
Proof. unfold setup_model. solve_frames. Qed.

Lemma frames_setup_distributed_model dtype kwargs :
  frames R (setup_distributed_model fw dtype kwargs).
Proof. unfold setup_distributed_model. solve_frames. Qed.

End FramesOfFunctions.

(** ** The [args] object through [initialize_model] *)

Lemma kept_or_switched_off_preorder flag : PreOrder (kept_or_switched_off flag).
Proof.
  split.
  - intros a. by left.
  - intros a b c [Hab|Hab] [Hbc|Hbc]; unfold kept_or_switched_off;
      rewrite ?Hbc, ?Hab; auto.
Qed.

Ltac args_preorder :=
  split;
  [ intros []; reflexivity
  | intros [] [] [];
    unfold only_ranks_differ, only_attn_softmax_bf16_differs,
      only_startup_fields_differ, with_ranks; simpl;
    intros [=] [=]; subst; reflexivity ].

Lemma only_ranks_differ_preorder : PreOrder only_ranks_differ.
Proof. args_preorder. Qed.

Lemma only_attn_softmax_bf16_differs_preorder :
  PreOrder only_attn_softmax_bf16_differs.
Proof. args_preorder. Qed.

Lemma only_startup_fields_differ_preorder :
  PreOrder only_startup_fields_differ.
Proof. args_preorder. Qed.

#[local] Existing Instances kept_or_switched_off_preorder only_ranks_differ_preorder
  only_attn_softmax_bf16_differs_preorder only_startup_fields_differ_preorder.

Lemma bind_run_Ok {A B} (m : M A) (k : A -> M B) (w w1 : World) (a : A) :
  m w = (Ok a, w1) -> (m ≫= k) w = k a w1.
Proof. intros H. unfold mbind, M_bind, bind. by rewrite H. Qed.

Lemma bind_run_Raise {A B} (m : M A) (k : A -> M B) (w w1 : World) (e : exn) :
  m w = (Raise e, w1) -> (m ≫= k) w = (Raise e, w1).
Proof. intros H. unfold mbind, M_bind, bind. by rewrite H. Qed.

Lemma setup_distributed_run (w : World) (lr ws gr : Z) :
  env_rank (w_environ w) "LOCAL_RANK" = Ok lr ->
  env_rank (w_environ w) "WORLD_SIZE" = Ok ws ->
  env_rank (w_environ w) "RANK" = Ok gr ->
  setup_distributed w =
    (Ok tt, {| w_args := with_ranks (Some lr) (Some ws) (Some gr) (w_args w);
               w_environ := w_environ w; w_log := w_log w |}).
Proof.
  unfold env_rank. intros Hlr Hws Hgr.
  unfold setup_distributed, getenv, get_environ, lift, modify_args,
    mbind, mret, M_bind, M_ret, bind, ret. simpl.
  rewrite Hlr. simpl. rewrite Hws. simpl. by rewrite Hgr.
Qed.

(** The nested conditionals of [exclude_hpu_graph_configs] compute the
    condition the specification words. *)
Lemma exclude_hpu_graph_configs_spec (a : Args.t) (ws : Z) :
  Args.world_size a = Some ws ->
  exclude_hpu_graph_configs a = Ok (limit_hpu_graphs_forced_off ws a).
Proof.
  intros Hws. unfold exclude_hpu_graph_configs, limit_hpu_graphs_forced_off.
  rewrite Hws. simpl. unfold mbind, result_bind, rbind.
  rewrite !Z.geb_leb.
  destruct (batch_size_is_1 _), (Args.limit_hpu_graphs a),
    (Py.str_in "falcon-180B" _), (Py.str_in "falcon-180b" _),
    (ws =? 2), (ws =? 4), (ws =? 8), (4096 <=? _), (128 <=? _); reflexivity.
Qed.

Lemma frames_run {A} (R : relation Args.t) (m : M A) (w : World) :
  frames R m -> R (w_args w) (w_args (m w).2).
Proof. intros H. destruct (m w) as [r w'] eqn:Hrun. by eapply H. Qed.

Section InitializeModel.

Context (fw : Framework).

(** [initialize_model] assigns to [args] in five places. *)
Lemma frames_initialize_model_of (R : relation Args.t) `{!PreOrder R} :
  (forall v a, R a (Args.set_local_rank v a)) ->
  (forall v a, R a (Args.set_world_size v a)) ->
  (forall v a, R a (Args.set_global_rank v a)) ->
  (forall a, R a (Args.set_limit_hpu_graphs false a)) ->
  (forall a, R a (Args.set_attn_softmax_bf16 false a)) ->
  frames R (initialize_model fw).
Proof.
  intros Hlr Hws Hgr Hlimit Hattn. unfold initialize_model. solve_frames;
    auto using frames_setup_env, frames_setup_device, frames_setup_model,
      frames_setup_distributed_model, frames_setup_distributed,
      frames_modify_args with typeclass_instances.
Qed.

Lemma frames_initialize_model :
  frames only_startup_fields_differ (initialize_model fw).
Proof. apply frames_initialize_model_of; [apply _|..]; by intros; destruct a. Qed.

Lemma frames_initialize_model_flag (flag : Args.t -> bool) :
  (forall v a, flag (Args.set_local_rank v a) = flag a) ->
  (forall v a, flag (Args.set_world_size v a) = flag a) ->
  (forall v a, flag (Args.set_global_rank v a) = flag a) ->
  (forall a, flag (Args.set_limit_hpu_graphs false a) = flag a
             \/ flag (Args.set_limit_hpu_graphs false a) = false) ->
  (forall a, flag (Args.set_attn_softmax_bf16 false a) = flag a
             \/ flag (Args.set_attn_softmax_bf16 false a) = false) ->
  frames (kept_or_switched_off flag) (initialize_model fw).
Proof.
  intros Hlr Hws Hgr Hlimit Hattn.
  apply frames_initialize_model_of; [apply _|..]; unfold kept_or_switched_off; auto.
Qed.

(** C6, as the code has it: [initialize_model] leaves every attribute
    of [args] as it found it but five: the three ranks it reads from the
    environment, and [limit_hpu_graphs] and [attn_softmax_bf16], each of
    which it either keeps or sets to [False].  This holds for the runs
    that raise as well. *)
Theorem initialize_model_frame (w : World) :
  let a := w_args w in
  let a' := w_args (initialize_model fw w).2 in
  only_startup_fields_differ a a'
  /\ (Args.limit_hpu_graphs a' = Args.limit_hpu_graphs a
      \/ Args.limit_hpu_graphs a' = false)
  /\ (Args.attn_softmax_bf16 a' = Args.attn_softmax_bf16 a
      \/ Args.attn_softmax_bf16 a' = false).
Proof.
  intros a a'. split; [|split].
  - apply frames_run, frames_initialize_model.
  - apply (frames_run (kept_or_switched_off Args.limit_hpu_graphs)).
    apply frames_initialize_model_flag; intros; destruct a0; simpl; auto.
  - apply (frames_run (kept_or_switched_off Args.attn_softmax_bf16)).
    apply frames_initialize_model_flag; intros; destruct a0; simpl; auto.
Qed.

(** C10: once the three ranks are read, [initialize_model] leaves
    [limit_hpu_graphs] at [False] in the configurations singled out by
    [limit_hpu_graphs_forced_off] (batch size 1 with the flag set, no
    Falcon 180B, and not 2, 4 or 8 devices with at least 4096 input and
    128 new tokens), and as supplied in every other configuration. *)
Theorem initialize_model_limit_hpu_graphs (w : World) (lr ws gr : Z) :
  env_rank (w_environ w) "LOCAL_RANK" = Ok lr ->
  env_rank (w_environ w) "WORLD_SIZE" = Ok ws ->
  env_rank (w_environ w) "RANK" = Ok gr ->
  Args.limit_hpu_graphs (w_args (initialize_model fw w).2) =
    if limit_hpu_graphs_forced_off ws (w_args w) then false
    else Args.limit_hpu_graphs (w_args w).
Proof.
  intros Hlr Hws Hgr. unfold initialize_model.
  rewrite (bind_run_Ok _ _ _ _ _ (setup_distributed_run w lr ws gr Hlr Hws Hgr)).
  set (w1 := {| w_args := _ |}).
  rewrite (bind_run_Ok get_args _ w1 w1 (w_args w1) eq_refl).
  assert (exclude_hpu_graph_configs (w_args w1)
          = Ok (limit_hpu_graphs_forced_off ws (w_args w))) as Hex.
  { rewrite (exclude_hpu_graph_configs_spec _ ws); [|by destruct w as [[] ? ?]].
    by destruct w as [[] ? ?]. }
  rewrite (bind_run_Ok (lift _) _ w1 w1 _ (f_equal (fun r => (r, w1)) Hex)).
  destruct (limit_hpu_graphs_forced_off ws (w_args w)) eqn:Hforced.
  - erewrite bind_run_Ok by reflexivity.
    set (w2 := {| w_args := _ |}).
    match goal with
    | |- context [(?m w2).2] =>
        assert (frames only_attn_softmax_bf16_differs m) as Htail
    end.
    { solve_frames;
        auto using frames_setup_env, frames_setup_device, frames_setup_model,
          frames_setup_distributed_model with typeclass_instances.
      apply frames_modify_args. intros []; reflexivity. }
    apply frames_run with (w := w2) in Htail.
    rewrite Htail. subst w2 w1. simpl. by destruct w as [[] ? ?].
  - erewrite bind_run_Ok by reflexivity.
    match goal with
    | |- context [(?m w1).2] =>
        assert (frames only_attn_softmax_bf16_differs m) as Htail
    end.
    { solve_frames;
        auto using frames_setup_env, frames_setup_device, frames_setup_model,
          frames_setup_distributed_model with typeclass_instances.
      apply frames_modify_args. intros []; reflexivity. }
    apply frames_run with (w := w1) in Htail.
    rewrite Htail. subst w1. simpl. by destruct w as [[] ? ?].
Qed.

End InitializeModel.

(** ** The constructor and the forward pass *)

Section Wrapper.

Import OptimumHabanaLM.

Context (fw : Framework).

(** The buckets of a wrapper are the sorted buckets of the [args] its
    constructor built. *)
Lemma init_buckets pretrained batch_size parser kwargs (w w' : World) (self : t) :
  __init__ fw pretrained batch_size parser kwargs w = (Ok self, w') ->
  buckets self =
    Py.sorted (Args.buckets (init_args pretrained batch_size parser kwargs)).
Proof.
  unfold __init__. erewrite bind_run_Ok by reflexivity.
  set (w0 := {| w_args := _ |}).
  pose proof (frames_run _ _ w0 (frames_initialize_model fw)) as Hframe.
  unfold mbind at 1, M_bind at 1, bind at 1.
  destruct (initialize_model fw w0) as [[[[model tok] gc]|e] w1]; [|done].
  simpl in Hframe.
  erewrite bind_run_Ok by reflexivity.
  unfold mbind, M_bind, bind, lift, mret, M_ret, ret.
  destruct (HFLM_init _ _ _ _); [|done].
  intros [= <- _]. simpl. f_equal.
  rewrite Hframe. subst w0. simpl.
  by destruct (init_args _ _ _ _).
Qed.

(** The shape and the log of a forward pass without static shapes. *)
Lemma model_call_dynamic (self : t) (inps : IdTensor.t) (w : World) :
  GenerationConfig.static_shapes (generation_config self) = false ->
  _model_call fw self inps w =
    let x := Torch.to_device (_device self) inps in
    let w' := {| w_args := w_args w; w_environ := w_environ w;
                 w_log := w_log w ++ [EvForward x (model_inputs self)] |} in
    match model_forward fw (w_log w) (_model self) x (model_inputs self) with
    | Ok y => (Ok (Torch.to_dtype fw Float32 (Torch.cpu y)), w')
    | Raise e => (Raise e, w')
    end.
Proof.
  intros Hs. unfold _model_call. rewrite Hs. simpl.
  unfold mbind, mret, M_bind, M_ret, bind, ret, get_log, emit, lift. simpl.
  by destruct (model_forward _ _ _ _ _).
Qed.

(** The same with static shapes, once a bucket is found. *)
Lemma model_call_static (self : t) (inps : IdTensor.t) (w : World) (b : Z) :
  GenerationConfig.static_shapes (generation_config self) = true ->
  find_bucket self (IdTensor.seq_length inps) = Ok b ->
  _model_call fw self inps w =
    let allocate :=
      if GenerationConfig.use_cache (generation_config self)
         && GenerationConfig.reuse_cache (generation_config self)
      then [EvAllocateKVCache (IdTensor.bs inps) (b + 1) b] else [] in
    match Torch.F_pad inps (b - IdTensor.seq_length inps)
            (ModelConfig.pad_token_id (Model.config (_model self))) with
    | Ok padded =>
        let x := Torch.to_device (_device self) padded in
        let w' := {| w_args := w_args w; w_environ := w_environ w;
                     w_log := (w_log w ++ allocate)
                              ++ [EvForward x (model_inputs self)] |} in
        match model_forward fw (w_log w ++ allocate) (_model self) x
                (model_inputs self) with
        | Ok y =>
            (Ok (Torch.to_dtype fw Float32
                   (if b - IdTensor.seq_length inps >? 0
                    then Torch.slice_seq (- (b - IdTensor.seq_length inps))
                           (Torch.cpu y)
                    else Torch.cpu y)), w')
        | Raise e => (Raise e, w')
        end
    | Raise e =>
        (Raise e, {| w_args := w_args w; w_environ := w_environ w;
                     w_log := w_log w ++ allocate |})
    end.
Proof.
  intros Hs Hb. unfold _model_call. rewrite Hs, Hb. simpl.
  unfold mbind, mret, M_bind, M_ret, bind, ret, get_log, emit, lift, when.
  destruct (GenerationConfig.use_cache _ && GenerationConfig.reuse_cache _);
    simpl.
  - destruct (Torch.F_pad _ _ _); simpl; [|done].
    by destruct (model_forward _ _ _ _ _).
  - rewrite app_nil_r. destruct w. simpl.
    destruct (Torch.F_pad _ _ _); simpl; [|done].
    by destruct (model_forward _ _ _ _ _).
Qed.

(** Without a bucket the call raises before it touches the model. *)
Lemma model_call_no_bucket (self : t) (inps : IdTensor.t) (w : World) (e : exn) :
  GenerationConfig.static_shapes (generation_config self) = true ->
  find_bucket self (IdTensor.seq_length inps) = Raise e ->
  _model_call fw self inps w = (Raise e, w).
Proof. intros Hs Hb. unfold _model_call. by rewrite Hs, Hb. Qed.

(** C5: the buckets a constructed wrapper stores are the supplied ones
    in ascending order, and for a non-empty supply [max_length] is its
    greatest element. *)
Theorem init_buckets_sorted_max_length pretrained batch_size parser kwargs
    (w w' : World) (self : t) :
  let B := Args.buckets (init_args pretrained batch_size parser kwargs) in
  __init__ fw pretrained batch_size parser kwargs w = (Ok self, w') ->
  B <> [] ->
  Sorted Z.le (buckets self)
  /\ buckets self ≡ₚ B
  /\ exists m, max_length self = Ok m /\ greatest_bucket B m.
Proof.
  intros B Hinit HB. rewrite (init_buckets _ _ _ _ _ _ _ Hinit). fold B.
  split; [apply sorted_is_Sorted|].
  split; [apply (merge_sort_Permutation Z.le)|].
  unfold max_length, Py.index_last. rewrite (init_buckets _ _ _ _ _ _ _ Hinit).
  fold B. destruct (last (Py.sorted B)) as [m|] eqn:Hlast.
  - exists m. split; [done|].
    apply last_greatest in Hlast as [Hin Hmax];
      [|apply (StronglySorted_merge_sort Z.le)].
    split; [by apply sorted_elem_of|].
    intros b Hb. by apply Hmax, sorted_elem_of.
  - apply last_None, sorted_nil_inv in Hlast. done.
Qed.

End Wrapper.

(** ** Properties of the forward pass *)

Section ModelCall.

Import OptimumHabanaLM.

Context (fw : Framework).

Lemma find_bucket_Ok_inv (self : t) (L b : Z) :
  find_bucket self L = Ok b -> b ∈ buckets self /\ L <= b.
Proof.
  unfold find_bucket, Py.index_first.
  destruct (filter _ _) as [|b0 rest] eqn:Hf; [done|]. intros [= <-].
  assert (b0 ∈ filter (fun b => b >= L) (buckets self)) as Hin
    by (rewrite Hf; left).
  apply list_elem_of_filter in Hin as [Hge Hin]. split; [done|lia].
Qed.

Lemma find_bucket_below_last (self : t) (L m : Z) :
  max_length self = Ok m -> L <= m -> exists b, find_bucket self L = Ok b.
Proof.
  unfold max_length, Py.index_last.
  destruct (last (buckets self)) as [m'|] eqn:Hlast; [|done].
  intros [= ->] HL. apply last_Some_elem_of in Hlast.
  destruct (find_bucket self L) as [b|e] eqn:Hb; [by exists b|].
  apply find_bucket_Raise_iff in Hb as [_ Hall]. specialize (Hall _ Hlast). lia.
Qed.

Lemma drop_log_app (l new : list Event) : drop (length l) (l ++ new) = new.
Proof. by rewrite drop_app_length. Qed.

(** C3: for every batch of shape [(bs, L)] with [L] at most the largest
    bucket, [_model_call] returns logits whose sequence dimension is [L]
    and whose dtype is float32, with and without static shapes; this
    covers [L] equal to a bucket, where nothing is padded or stripped. *)
Theorem model_call_returns_unpadded_float32 (self : t) (inps : IdTensor.t)
    (w : World) :
  forward_keeps_positions fw self ->
  IdTensor.wf inps ->
  (GenerationConfig.static_shapes (generation_config self) = true ->
   exists m, max_length self = Ok m /\ IdTensor.seq_length inps <= m) ->
  exists y w',
    _model_call fw self inps w = (Ok y, w')
    /\ Logits.bs y = IdTensor.bs inps
    /\ Logits.seq_length y = IdTensor.seq_length inps
    /\ Logits.dtype y = Float32.
Proof.
  intros Hfw [Hbs HL] Hmax.
  destruct (GenerationConfig.static_shapes (generation_config self)) eqn:Hs.
  - destruct (Hmax eq_refl) as (m & Hm & Hle).
    destruct (find_bucket_below_last _ _ _ Hm Hle) as [b Hb].
    destruct (find_bucket_Ok_inv _ _ _ Hb) as [_ Hge].
    rewrite (model_call_static fw self inps w b Hs Hb). cbv zeta.
    unfold Torch.F_pad.
    destruct (Z.ltb_spec (IdTensor.seq_length inps + (b - IdTensor.seq_length inps)) 0)
      as [Hneg|_]; [lia|].
    match goal with
    | |- context [model_forward fw ?h _ ?x _] =>
        destruct (Hfw h x) as (y & -> & Hybs & Hyseq)
    end.
    simpl in Hybs, Hyseq. eexists _, _. split; [reflexivity|].
    destruct (Z.gtb_spec (b - IdTensor.seq_length inps) 0) as [Hpad|Hpad]; simpl.
    + repeat split; [done|]. rewrite Hyseq. unfold Torch.slice_stop.
      destruct (Z.ltb_spec (- (b - IdTensor.seq_length inps)) 0); lia.
    + repeat split; [done|]. lia.
  - rewrite (model_call_dynamic fw self inps w Hs). cbv zeta.
    match goal with
    | |- context [model_forward fw ?h _ ?x _] =>
        destruct (Hfw h x) as (y & -> & Hybs & Hyseq)
    end.
    simpl in Hybs, Hyseq. eexists _, _. by split.
Qed.

(** C7: with static shapes, a key/value cache of capacity
    [bucket_length + 1] for sequences of [bucket_length] is allocated,
    before the model runs, exactly when [use_cache] and [reuse_cache]
    are both set; with static shapes off or a flag off, the call
    allocates none. *)
Theorem model_call_kv_cache (self : t) (inps : IdTensor.t) (w : World) :
  let gc := generation_config self in
  let pad_value := ModelConfig.pad_token_id (Model.config (_model self)) in
  (forall b padded,
     GenerationConfig.static_shapes gc = true ->
     find_bucket self (IdTensor.seq_length inps) = Ok b ->
     Torch.F_pad inps (b - IdTensor.seq_length inps) pad_value = Ok padded ->
     model_call_events fw self inps w =
       ((if GenerationConfig.use_cache gc && GenerationConfig.reuse_cache gc
         then [EvAllocateKVCache (IdTensor.bs inps) (b + 1) b] else [])
        ++ [EvForward (Torch.to_device (_device self) padded)
              (model_inputs self)])%list)
  /\ (GenerationConfig.static_shapes gc && GenerationConfig.use_cache gc
      && GenerationConfig.reuse_cache gc = false ->
      Forall (fun e => is_allocate_kv_cache e = false)
        (model_call_events fw self inps w)).
Proof.
  intros gc pad_value. unfold model_call_events. split.
  - intros b padded Hs Hb Hpad.
    rewrite (model_call_static fw self inps w b Hs Hb). cbv zeta.
    fold gc pad_value. rewrite Hpad.
    destruct (model_forward _ _ _ _ _); simpl;
      by rewrite <- app_assoc, drop_log_app.
  - intros Hoff.
    destruct (GenerationConfig.static_shapes gc) eqn:Hs.
    + simpl in Hoff.
      destruct (find_bucket self (IdTensor.seq_length inps)) as [b|e] eqn:Hb.
      * rewrite (model_call_static fw self inps w b Hs Hb). cbv zeta.
        fold gc. rewrite Hoff, app_nil_r.
        destruct (Torch.F_pad _ _ _); simpl.
        -- destruct (model_forward _ _ _ _ _); simpl; rewrite drop_log_app;
             by repeat constructor.
        -- rewrite drop_all. constructor.
      * rewrite (model_call_no_bucket fw self inps w e Hs Hb). simpl.
        rewrite drop_all. constructor.
    + rewrite (model_call_dynamic fw self inps w Hs). cbv zeta.
      destruct (model_forward _ _ _ _ _); simpl; rewrite drop_log_app;
        by repeat constructor.
Qed.

(** C9: with static shapes off, [_model_call] selects no bucket,
    allocates no key/value cache and pads nothing: the model receives the
    input as it came, and its logits are converted to float32 and never
    sliced. *)
Theorem model_call_without_static_shapes (self : t) (inps : IdTensor.t)
    (w : World) :
  GenerationConfig.static_shapes (generation_config self) = false ->
  let x := Torch.to_device (_device self) inps in
  let forwarded := model_forward fw (w_log w) (_model self) x (model_inputs self) in
  (* no bucket is looked at *)
  (forall B,
     _model_call fw (mk (_model self) (tokenizer self) (generation_config self)
                       (_device self) B (model_inputs self)) inps w
     = _model_call fw self inps w)
  (* the model is the only thing called, on the unpadded input *)
  /\ model_call_events fw self inps w = [EvForward x (model_inputs self)]
  /\ IdTensor.seq_length x = IdTensor.seq_length inps
  /\ IdTensor.bs x = IdTensor.bs inps
  /\ IdTensor.data x = IdTensor.data inps
  (* the logits are converted and nothing else *)
  /\ (forall y, forwarded = Ok y ->
        (_model_call fw self inps w).1 = Ok (Torch.to_dtype fw Float32 (Torch.cpu y))
        /\ Logits.seq_length (Torch.to_dtype fw Float32 (Torch.cpu y))
           = Logits.seq_length y)
  /\ (forall e, forwarded = Raise e -> (_model_call fw self inps w).1 = Raise e).
Proof.
  intros Hs x forwarded.
  pose proof (model_call_dynamic fw self inps w Hs) as Hrun.
  cbv zeta in Hrun. fold x forwarded in Hrun.
  split; [intros B; by rewrite !model_call_dynamic|].
  split.
  { unfold model_call_events. rewrite Hrun.
    destruct forwarded; simpl; apply drop_log_app. }
  do 3 (split; [reflexivity|]).
  split.
  - intros y Hy. rewrite Hrun, Hy. by split.
  - intros e He. by rewrite Hrun, He.
Qed.

End ModelCall.

(** ** Properties of the configuration *)

Section Configuration.

Context (fw : Framework).

(** C4: [setup_generation_config] fails, and then on its assertion, if
    and only if [reduce_recompile] is set and the bucket size of the
    generation configuration is not positive; that bucket size is
    [args.bucket_size] for an optimized model and [-1] otherwise. *)
Theorem setup_generation_config_assertion (args : Args.t) (model : Model.t)
    (tokenizer : Tokenizer.t) :
  let bucket_size :=
    if model_is_optimized fw (Model.config model) then Args.bucket_size args
    else -1 in
  let outcome := setup_generation_config fw args model tokenizer in
  (is_ok outcome = false <->
   Args.reduce_recompile args = true /\ bucket_size <= 0)
  /\ (forall e, outcome = Raise e -> e = AssertionError)
  /\ (forall gc, outcome = Ok gc ->
        GenerationConfig.bucket_size gc = bucket_size
        /\ GenerationConfig.reduce_recompile gc = Args.reduce_recompile args).
Proof.
  intros bucket_size outcome. subst outcome.
  unfold setup_generation_config. fold bucket_size.
  unfold mbind, result_bind, rbind, py_assert.
  destruct (Args.reduce_recompile args); simpl.
  - destruct (Z.gtb_spec bucket_size 0); simpl.
    + split; [|split].
      * split; [done|]. intros [_ ?]. lia.
      * done.
      * by intros gc [= <-].
    + split; [|split].
      * by split.
      * by intros e [= <-].
      * done.
  - split; [|split].
    + split; [done|]. by intros [? _].
    + done.
    + by intros gc [= <-].
Qed.

Lemma setup_tokenizer_llama_pad (tok tok' : Tokenizer.t) (model model' : Model.t) :
  setup_tokenizer_llama fw tok model = Ok (tok', model') ->
  Model.config model' = Model.config model
  /\ (exists s, Tokenizer.pad_token tok' = Some s)
  /\ (GenerationConfig.pad_token_id (Model.generation_config model) = IdNone ->
      match GenerationConfig.eos_token_id (Model.generation_config model) with
      | IdInt e =>
          GenerationConfig.pad_token_id (Model.generation_config model') = IdInt e
      | IdList l =>
          exists e, head l = Some e
            /\ GenerationConfig.pad_token_id (Model.generation_config model')
               = IdInt e
      | IdNone =>
          GenerationConfig.pad_token_id (Model.generation_config model') = IdNone
      end).
Proof.
  unfold setup_tokenizer_llama, first_eos, Py.index_first.
  unfold mbind, result_bind, rbind.
  destruct model as [cfg [pad eos bos] ? ? ? ? ?]. simpl.
  destruct pad as [|p|ps], eos as [|e|[|e l]]; simpl; try done;
    repeat (destruct (tokenizer_decode _ _ _); simpl; [|done]);
    intros [= <- <-]; simpl; (split; [done|split; [by eexists|]]);
    try done; intros _; by eexists.
Qed.

Lemma setup_tokenizer_persimmon_pad (tok tok' : Tokenizer.t)
    (model model' : Model.t) :
  setup_tokenizer_persimmon fw tok model = Ok (tok', model') ->
  Model.config model' = Model.config model
  /\ exists s, Tokenizer.pad_token tok' = Some s.
Proof.
  unfold setup_tokenizer_persimmon. unfold mbind, result_bind, rbind.
  repeat (destruct (tokenizer_decode _ _ _); simpl; [|done]).
  intros [= <- <-]. simpl. split; [done|by eexists].
Qed.

Lemma setup_tokenizer_minicpm3_config (model model' : Model.t) :
  setup_tokenizer_minicpm3 model = Ok model' ->
  Model.config model' = Model.config model
  /\ GenerationConfig.pad_token_id (Model.generation_config model')
     = GenerationConfig.pad_token_id (Model.generation_config model).
Proof.
  unfold setup_tokenizer_minicpm3. unfold mbind, result_bind, rbind.
  destruct model as [cfg [pad eos bos] ? ? ? ? ?]. simpl.
  destruct eos; try (by intros [= <-]).
  destruct (String.eqb _ _); [|by intros [= <-]].
  destruct (Py.index_last _); [|done]. by intros [= <-].
Qed.

Lemma setup_tokenizer_pad_Some (tok : Tokenizer.t) (model : Model.t) (s : string) :
  Tokenizer.pad_token tok = Some s -> setup_tokenizer_pad tok model = (tok, model).
Proof. unfold setup_tokenizer_pad. by intros ->. Qed.

Lemma setup_tokenizer_pad_None (tok : Tokenizer.t) (model : Model.t) :
  Tokenizer.pad_token tok = None ->
  let '(tok', model') := setup_tokenizer_pad tok model in
  Tokenizer.pad_token tok' = Tokenizer.eos_token tok
  /\ GenerationConfig.pad_token_id (Model.generation_config model')
     = GenerationConfig.eos_token_id (Model.generation_config model')
  /\ GenerationConfig.eos_token_id (Model.generation_config model')
     = GenerationConfig.eos_token_id (Model.generation_config model).
Proof.
  unfold setup_tokenizer_pad. intros ->. simpl.
  by destruct (Model.generation_config model).
Qed.

(** C8, as the code has it: after [setup_tokenizer] returns, the pad
    token is [None] only for a tokenizer loaded with neither a pad nor an
    EOS token, on a model that is neither llama nor persimmon (there the
    pad token is decoded from the pad token id); for every family, a
    tokenizer that has no pad token once the fix-ups of the families are
    done gets its EOS token, and the model's
    [generation_config.pad_token_id] its [eos_token_id]; on llama a [None]
    [pad_token_id] becomes the [eos_token_id], or its first element when
    that is a list. *)
Theorem setup_tokenizer_pad_token (args : Args.t) (model model' : Model.t)
    (loaded tok : Tokenizer.t) :
  load_tokenizer fw args model = Ok loaded ->
  setup_tokenizer fw args model = Ok (tok, model') ->
  let family := ModelConfig.model_type (Model.config model) in
  let gc := Model.generation_config model in
  let gc' := Model.generation_config model' in
  exists fixed model1,
    setup_tokenizer_families fw args model = Ok (fixed, model1)
    /\ (Tokenizer.pad_token tok = None ->
        family <> "llama" /\ family <> "persimmon"
        /\ Tokenizer.pad_token loaded = None /\ Tokenizer.eos_token loaded = None)
    /\ (Tokenizer.pad_token fixed = None ->
        Tokenizer.pad_token tok = Tokenizer.eos_token fixed
        /\ GenerationConfig.pad_token_id gc' = GenerationConfig.eos_token_id gc')
    /\ (family <> "llama" -> family <> "persimmon" -> fixed = loaded)
    /\ (family = "llama" -> GenerationConfig.pad_token_id gc = IdNone ->
        match GenerationConfig.eos_token_id gc with
        | IdInt e => GenerationConfig.pad_token_id gc' = IdInt e
        | IdList l =>
            exists e, head l = Some e /\ GenerationConfig.pad_token_id gc' = IdInt e
        | IdNone => GenerationConfig.pad_token_id gc' = IdNone
        end).
Proof.
  intros Hload Hrun family gc gc'. unfold setup_tokenizer in Hrun.
  unfold mbind at 1, result_bind at 1, rbind at 1 in Hrun.
  destruct (setup_tokenizer_families fw args model) as [[fixed model1]|]
    eqn:Hfix; [|done].
  exists fixed, model1. split; [done|].
  injection Hrun as Hrun.
  unfold setup_tokenizer_families in Hfix. rewrite Hload in Hfix.
  unfold mbind, result_bind, rbind in Hfix. fold family in Hfix.
  destruct (String.eqb_spec family "llama") as [Hllama|Hllama].
  - (* llama *)
    destruct (setup_tokenizer_llama fw loaded model) as [[tok1 model2]|]
      eqn:H1; [|done].
    apply setup_tokenizer_llama_pad in H1 as (Hcfg & [s Hs] & Hpad).
    destruct (String.eqb_spec family "persimmon") as [Hp|_];
      [rewrite Hllama in Hp; done|].
    destruct (setup_tokenizer_minicpm3 model2) as [model3|] eqn:H2; [|done].
    apply setup_tokenizer_minicpm3_config in H2 as [_ Hpad2].
    injection Hfix as <- <-.
    rewrite (setup_tokenizer_pad_Some _ _ _ Hs) in Hrun.
    injection Hrun as <- <-. subst gc'. rewrite Hpad2, Hs.
    split; [done|]. split; [done|]. split; [done|]. intros _. exact Hpad.
  - destruct (String.eqb_spec family "persimmon") as [Hp|Hp].
    + (* persimmon *)
      destruct (setup_tokenizer_persimmon fw loaded model) as [[tok1 model2]|]
        eqn:H1; [|done].
      apply setup_tokenizer_persimmon_pad in H1 as (Hcfg & [s Hs]).
      destruct (setup_tokenizer_minicpm3 model2) as [model3|] eqn:H2; [|done].
      injection Hfix as <- <-.
      rewrite (setup_tokenizer_pad_Some _ _ _ Hs) in Hrun.
      injection Hrun as <- <-. rewrite Hs. by repeat split.
    + (* every other family *)
      destruct (setup_tokenizer_minicpm3 model) as [model2|] eqn:H2; [|done].
      injection Hfix as <- <-.
      destruct (Tokenizer.pad_token loaded) as [s|] eqn:Hs.
      * rewrite (setup_tokenizer_pad_Some _ _ _ Hs) in Hrun.
        injection Hrun as <- <-. rewrite Hs. by repeat split.
      * pose proof (setup_tokenizer_pad_None loaded model2 Hs) as Hpad.
        rewrite Hrun in Hpad. destruct Hpad as (Hpad & Hid & _).
        split; [|split; [|by split]].
        -- intros Hnone. rewrite Hpad in Hnone. by repeat split.
        -- intros _. by split.
Qed.

End Configuration.

(** ** The properties at concrete inputs *)

Lemma demo_self_is_wrapper :
  OptimumHabanaLM.__init__ Demo.llama "meta-llama/Llama-2-7b-hf" (BatchInt 1) None []
    Demo.world
  = (Ok Demo.self,
     (OptimumHabanaLM.__init__ Demo.llama "meta-llama/Llama-2-7b-hf" (BatchInt 1)
        None [] Demo.world).2).
Proof. vm_compute. reflexivity. Qed.

Lemma demo_buckets_Sorted : Sorted Z.le (OptimumHabanaLM.buckets Demo.self).
Proof. repeat constructor; simpl; lia. Qed.

(** A sequence of 100 tokens goes to the bucket of 128. *)
Lemma find_bucket_least_bucket_witness :
  Sorted Z.le (OptimumHabanaLM.buckets Demo.self)
  /\ (OptimumHabanaLM.find_bucket Demo.self 100 = Ok 128
      <-> least_bucket_above (OptimumHabanaLM.buckets Demo.self) 100 128).
Proof.
  split; [exact demo_buckets_Sorted|].
  apply (find_bucket_least_bucket Demo.self 100 128). exact demo_buckets_Sorted.
Defined.

(** 385 tokens are more than the largest bucket, 384, holds. *)
Lemma find_bucket_beyond_largest_witness :
  Sorted Z.le (OptimumHabanaLM.buckets Demo.self)
  /\ OptimumHabanaLM.max_length Demo.self = Ok 384
  /\ (384 < 385 -> OptimumHabanaLM.find_bucket Demo.self 385 = Raise IndexError)
  /\ ((exists b, b ∈ OptimumHabanaLM.buckets Demo.self /\ 385 <= b) ->
      exists b, OptimumHabanaLM.find_bucket Demo.self 385 = Ok b).
Proof.
  split; [exact demo_buckets_Sorted|]. split; [reflexivity|].
  apply (find_bucket_beyond_largest Demo.self 385 384);
    [exact demo_buckets_Sorted|reflexivity].
Defined.

Lemma demo_forward_keeps_positions fw_model_type tok self :
  forward_keeps_positions (Demo.framework fw_model_type tok) self.
Proof. intros history x. eexists. by repeat split. Qed.

(** A batch of two sequences of 100 tokens, padded to 128 and stripped
    again. *)
Lemma model_call_returns_unpadded_float32_witness :
  forward_keeps_positions Demo.llama Demo.self
  /\ IdTensor.wf (Demo.batch 2 100)
  /\ (GenerationConfig.static_shapes (OptimumHabanaLM.generation_config Demo.self)
      = true ->
      exists m, OptimumHabanaLM.max_length Demo.self = Ok m
                /\ IdTensor.seq_length (Demo.batch 2 100) <= m)
  /\ exists y w',
       OptimumHabanaLM._model_call Demo.llama Demo.self (Demo.batch 2 100) Demo.world
       = (Ok y, w')
       /\ Logits.bs y = 2 /\ Logits.seq_length y = 100 /\ Logits.dtype y = Float32.
Proof.
  assert (forward_keeps_positions Demo.llama Demo.self) as Hfw
    by apply demo_forward_keeps_positions.
  assert (IdTensor.wf (Demo.batch 2 100)) as Hwf by (split; simpl; lia).
  assert (GenerationConfig.static_shapes (OptimumHabanaLM.generation_config Demo.self)
          = true ->
          exists m, OptimumHabanaLM.max_length Demo.self = Ok m
                    /\ IdTensor.seq_length (Demo.batch 2 100) <= m) as Hmax
    by (intros _; exists 384; split; [reflexivity|simpl; lia]).
  split; [exact Hfw|]. split; [exact Hwf|]. split; [exact Hmax|].
  exact (model_call_returns_unpadded_float32 Demo.llama Demo.self (Demo.batch 2 100)
           Demo.world Hfw Hwf Hmax).
Defined.

(** The constructor on the default buckets. *)
Lemma init_buckets_sorted_max_length_witness :
  Args.buckets (OptimumHabanaLM.init_args "meta-llama/Llama-2-7b-hf" (BatchInt 1)
                  None []) <> []
  /\ Sorted Z.le (OptimumHabanaLM.buckets Demo.self)
  /\ OptimumHabanaLM.buckets Demo.self
     ≡ₚ Args.buckets (OptimumHabanaLM.init_args "meta-llama/Llama-2-7b-hf"
                        (BatchInt 1) None [])
  /\ exists m,
       OptimumHabanaLM.max_length Demo.self = Ok m
       /\ greatest_bucket
            (Args.buckets (OptimumHabanaLM.init_args "meta-llama/Llama-2-7b-hf"
                             (BatchInt 1) None [])) m.
Proof.
  assert (Args.buckets (OptimumHabanaLM.init_args "meta-llama/Llama-2-7b-hf"
                          (BatchInt 1) None []) <> []) as HB by discriminate.
  split; [exact HB|].
  exact (init_buckets_sorted_max_length Demo.llama "meta-llama/Llama-2-7b-hf"
           (BatchInt 1) None [] Demo.world _ Demo.self demo_self_is_wrapper HB).
Defined.

(** The Llama wrapper allocates a cache of 129 for the bucket of 128, then
    calls the model. *)
Lemma model_call_kv_cache_witness :
  exists padded,
    Torch.F_pad (Demo.batch 2 100) (128 - 100) None = Ok padded
    /\ model_call_events Demo.llama Demo.self (Demo.batch 2 100) Demo.world
       = [EvAllocateKVCache 2 129 128;
          EvForward (Torch.to_device "hpu" padded)
            (OptimumHabanaLM.model_inputs Demo.self)].
Proof.
  eexists. split; [reflexivity|].
  exact (proj1 (model_call_kv_cache Demo.llama Demo.self (Demo.batch 2 100)
                  Demo.world) 128 _ eq_refl eq_refl eq_refl).
Defined.

(** The GPT-2 wrapper hands the 100 tokens to the model as they are. *)
Lemma model_call_without_static_shapes_witness :
  GenerationConfig.static_shapes (OptimumHabanaLM.generation_config Demo.self_gpt2)
  = false
  /\ model_call_events Demo.gpt2 Demo.self_gpt2 (Demo.batch 2 100) Demo.world
     = [EvForward (Torch.to_device "hpu" (Demo.batch 2 100))
          (OptimumHabanaLM.model_inputs Demo.self_gpt2)].
Proof.
  split; [reflexivity|].
  exact (proj1 (proj2 (model_call_without_static_shapes Demo.gpt2 Demo.self_gpt2
                         (Demo.batch 2 100) Demo.world eq_refl))).
Defined.

(** Reduced recompilation on a model that is not optimized: the bucket
    size is -1 and the assertion fails. *)
Lemma setup_generation_config_assertion_witness :
  let args := Args.set_reduce_recompile true Args.default in
  let model := Demo.model "gpt2" "gpt2" Bfloat16 in
  setup_generation_config Demo.gpt2 args model Demo.tokenizer = Raise AssertionError.
Proof.
  intros args model.
  destruct (setup_generation_config_assertion Demo.gpt2 args model Demo.tokenizer)
    as (Hfail & Hexn & _).
  destruct (setup_generation_config Demo.gpt2 args model Demo.tokenizer) as [gc|e]
    eqn:Hrun.
  - assert (true = false) as Habs by (apply Hfail; split; [reflexivity|simpl; lia]).
    discriminate Habs.
  - f_equal. exact (Hexn e eq_refl).
Defined.

(** The Llama checkpoint: the pad token id is the EOS id 2. *)
Lemma setup_tokenizer_pad_token_witness :
  exists loaded tok model',
    let model := Demo.model "llama" "meta-llama/Llama-2-7b-hf" Bfloat16 in
    load_tokenizer Demo.llama Args.default model = Ok loaded
    /\ setup_tokenizer Demo.llama Args.default model = Ok (tok, model')
    /\ Tokenizer.pad_token tok = Some "</s>"
    /\ GenerationConfig.pad_token_id (Model.generation_config model') = IdInt 2.
Proof.
  eexists _, _, _. intros model.
  assert (load_tokenizer Demo.llama Args.default model = Ok _) as Hload
    by reflexivity.
  assert (setup_tokenizer Demo.llama Args.default model = Ok (_, _)) as Hrun
    by reflexivity.
  split; [exact Hload|]. split; [exact Hrun|]. split; [reflexivity|].
  destruct (setup_tokenizer_pad_token Demo.llama Args.default model _ _ _
              Hload Hrun) as (fixed & model1 & _ & _ & _ & _ & Hllama).
  exact (Hllama eq_refl eq_refl).
Defined.

(** C8 as stated fails: a tokenizer that comes without pad and without EOS
    token leaves [setup_tokenizer] with its pad token still [None]. *)
Lemma setup_tokenizer_pad_token_None :
  exists tok model',
    setup_tokenizer Demo.bare Args.default (Demo.model "gpt2" "gpt2" Bfloat16)
    = Ok (tok, model')
    /\ Tokenizer.pad_token tok = None.
Proof. eexists _, _. split; reflexivity. Qed.

(** C6 as stated fails: in a fresh process with the default [Args()],
    [initialize_model] returns and has switched [limit_hpu_graphs] off,
    which is none of the three ranks. *)
Lemma initialize_model_changes_more_than_ranks :
  is_ok (initialize_model Demo.llama Demo.world).1 = true
  /\ ~ only_ranks_differ (w_args Demo.world)
         (w_args (initialize_model Demo.llama Demo.world).2).
Proof.
  split; [vm_compute; reflexivity|].
  intros H. apply (f_equal Args.limit_hpu_graphs) in H.
  vm_compute in H. discriminate H.
Qed.

(** A fresh process, batch size 1, no other device: the flag goes off. *)
Lemma initialize_model_limit_hpu_graphs_witness :
  env_rank (w_environ Demo.world) "LOCAL_RANK" = Ok 0
  /\ env_rank (w_environ Demo.world) "WORLD_SIZE" = Ok 0
  /\ env_rank (w_environ Demo.world) "RANK" = Ok 0
  /\ Args.limit_hpu_graphs (w_args Demo.world) = true
  /\ Args.limit_hpu_graphs (w_args (initialize_model Demo.llama Demo.world).2) = false.
Proof.
  repeat (split; [reflexivity|]).
  exact (initialize_model_limit_hpu_graphs Demo.llama Demo.world 0 0 0
           eq_refl eq_refl eq_refl).
Defined.

(** ** More on the buckets and the forward pass *)

Section ForwardPass.

Import OptimumHabanaLM.

Context (fw : Framework).

(** On an ascending list the bucket found is below every bucket that is
    long enough. *)
Lemma find_bucket_sorted_below (self : t) (L b b' : Z) :
  Sorted Z.le (buckets self) ->
  find_bucket self L = Ok b -> b' ∈ buckets self -> L <= b' -> b <= b'.
Proof.
  intros HB%(Sorted_StronglySorted Z.le). unfold find_bucket, Py.index_first.
  destruct (filter _ _) as [|b0 rest] eqn:Hf; [done|]. intros [= <-] Hb' HL.
  destruct (filter_head_least _ _ _ _ HB Hf) as (_ & _ & Hmin).
  apply Hmin; [done|lia].
Qed.

(** X1: a length that is itself a bucket is its own bucket: such a batch is
    never padded. *)
Theorem find_bucket_of_bucket (self : t) (b : Z) :
  Sorted Z.le (buckets self) -> b ∈ buckets self -> find_bucket self b = Ok b.
Proof.
  intros HB Hb. destruct (find_bucket self b) as [b0|e] eqn:Hfind.
  - f_equal. destruct (find_bucket_Ok_inv _ _ _ Hfind) as [_ Hge].
    pose proof (find_bucket_sorted_below _ _ _ b HB Hfind Hb) as Hle. lia.
  - apply find_bucket_Raise_iff in Hfind as [_ Hall]. specialize (Hall b Hb). lia.
Qed.

(** X2: a longer sequence never gets a shorter bucket. *)
Theorem find_bucket_monotone (self : t) (L L' b b' : Z) :
  Sorted Z.le (buckets self) ->
  L <= L' ->
  find_bucket self L = Ok b -> find_bucket self L' = Ok b' -> b <= b'.
Proof.
  intros HB HL Hb Hb'. destruct (find_bucket_Ok_inv _ _ _ Hb') as [Hin Hge].
  apply (find_bucket_sorted_below self L b b' HB Hb Hin). lia.
Qed.

(** X3: with static shapes, a batch longer than every bucket (any batch, when
    there is no bucket) makes [_model_call] raise [IndexError] before
    anything is allocated or the model is called: the world is as it was. *)
Theorem model_call_too_long (self : t) (inps : IdTensor.t) (w : World) :
  GenerationConfig.static_shapes (generation_config self) = true ->
  (forall b, b ∈ buckets self -> b < IdTensor.seq_length inps) ->
  _model_call fw self inps w = (Raise IndexError, w).
Proof.
  intros Hs Hall. apply model_call_no_bucket; [done|].
  by apply find_bucket_Raise_iff.
Qed.

(** X4: with static shapes the model receives the batch padded on the right up
    to the bucket: same rows, the ids of the batch in the first [L]
    columns, and [model.config.pad_token_id] (zero when it is [None]) in
    the others. *)
Theorem model_call_pads_right (self : t) (inps : IdTensor.t) (w : World) (b : Z) :
  GenerationConfig.static_shapes (generation_config self) = true ->
  IdTensor.wf inps ->
  find_bucket self (IdTensor.seq_length inps) = Ok b ->
  exists x,
    last (model_call_events fw self inps w) = Some (EvForward x (model_inputs self))
    /\ IdTensor.bs x = IdTensor.bs inps
    /\ IdTensor.seq_length x = b
    /\ IdTensor.device x = _device self
    /\ (forall i j, j < IdTensor.seq_length inps ->
          IdTensor.data x i j = IdTensor.data inps i j)
    /\ (forall i j, IdTensor.seq_length inps <= j ->
          IdTensor.data x i j
          = default 0 (ModelConfig.pad_token_id (Model.config (_model self)))).
Proof.
  intros Hs [_ HL] Hb. destruct (find_bucket_Ok_inv _ _ _ Hb) as [_ Hge].
  unfold model_call_events. rewrite (model_call_static fw self inps w b Hs Hb).
  cbv zeta. unfold Torch.F_pad.
  destruct (Z.ltb_spec (IdTensor.seq_length inps + (b - IdTensor.seq_length inps)) 0)
    as [Hneg|_]; [lia|].
  eexists. split.
  { destruct (model_forward _ _ _ _ _); simpl;
      rewrite <- app_assoc, drop_log_app; apply last_snoc. }
  simpl. split; [done|]. split; [lia|]. split; [done|]. split.
  - intros i j Hj. by destruct (Z.ltb_spec j (IdTensor.seq_length inps)); [|lia].
  - intros i j Hj. by destruct (Z.ltb_spec j (IdTensor.seq_length inps)); [lia|].
Qed.

(** X5: whatever the mode and the outcome, [_model_call] leaves [args] and the
    environment alone and only adds to the log: at most one allocation of
    a key/value cache, then at most one call of the model. *)
Theorem model_call_effects (self : t) (inps : IdTensor.t) (w : World) :
  let w' := (_model_call fw self inps w).2 in
  w_args w' = w_args w
  /\ w_environ w' = w_environ w
  /\ w_log w' = (w_log w ++ model_call_events fw self inps w)%list
  /\ exists allocations calls,
       model_call_events fw self inps w = (allocations ++ calls)%list
       /\ Forall (fun e => is_allocate_kv_cache e = true) allocations
       /\ Forall (fun e => is_forward e = true) calls
       /\ (length allocations <= 1)%nat /\ (length calls <= 1)%nat.
Proof.
  unfold model_call_events.
  destruct (GenerationConfig.static_shapes (generation_config self)) eqn:Hs.
  - destruct (find_bucket self (IdTensor.seq_length inps)) as [b|e] eqn:Hb.
    + rewrite (model_call_static fw self inps w b Hs Hb). cbv zeta.
      set (allocate :=
             if GenerationConfig.use_cache (generation_config self)
                && GenerationConfig.reuse_cache (generation_config self)
             then [EvAllocateKVCache (IdTensor.bs inps) (b + 1) b] else []).
      assert (Forall (fun e => is_allocate_kv_cache e = true) allocate
              /\ (length allocate <= 1)%nat) as [Hall Hlen].
      { subst allocate. destruct (_ && _); simpl; split;
          repeat constructor. }
      destruct (Torch.F_pad _ _ _) as [padded|e]; simpl.
      * assert (forall r : result Logits.t,
                  (r, {| w_args := w_args w; w_environ := w_environ w;
                         w_log := (w_log w ++ allocate)
                                  ++ [EvForward (Torch.to_device (_device self) padded)
                                        (model_inputs self)] |}).2
                  = {| w_args := w_args w; w_environ := w_environ w;
                       w_log := w_log w
                                ++ (allocate
                                    ++ [EvForward
                                          (Torch.to_device (_device self) padded)
                                          (model_inputs self)]) |}) as Hw
          by (intros r; simpl; by rewrite <- app_assoc).
        destruct (model_forward _ _ _ _ _); rewrite Hw; simpl;
          rewrite drop_log_app; (do 3 (split; [done|]));
          exists allocate,
            [EvForward (Torch.to_device (_device self) padded) (model_inputs self)];
          (do 2 (split; [done|])); (split; [by apply Forall_singleton|]);
          (split; [done|simpl; lia]).
      * rewrite drop_log_app. do 3 (split; [done|]).
        exists allocate, []. rewrite app_nil_r.
        do 2 (split; [done|]). split; [constructor|]. split; [done|simpl; lia].
    + rewrite (model_call_no_bucket fw self inps w e Hs Hb). simpl.
      rewrite drop_all, app_nil_r. do 3 (split; [done|]).
      exists [], []. split; [done|]. split; [constructor|].
      split; [constructor|]. simpl. lia.
  - rewrite (model_call_dynamic fw self inps w Hs). cbv zeta.
    destruct (model_forward _ _ _ _ _); simpl; rewrite drop_log_app;
      (do 3 (split; [done|]));
      exists [], [EvForward (Torch.to_device (_device self) inps) (model_inputs self)];
      (split; [done|]); (split; [constructor|]);
      (split; [by apply Forall_singleton|]); simpl; lia.
Qed.

(** X6: with static shapes the logits returned are those of the model,
    position by position and converted to float32: the batch and the
    vocabulary dimensions are the model's, and the tensor is on the cpu. *)
Theorem model_call_static_values (self : t) (inps : IdTensor.t) (w : World)
    (b : Z) (padded : IdTensor.t) (y : Logits.t) :
  let gc := generation_config self in
  let allocate :=
    if GenerationConfig.use_cache gc && GenerationConfig.reuse_cache gc
    then [EvAllocateKVCache (IdTensor.bs inps) (b + 1) b] else [] in
  GenerationConfig.static_shapes gc = true ->
  find_bucket self (IdTensor.seq_length inps) = Ok b ->
  Torch.F_pad inps (b - IdTensor.seq_length inps)
    (ModelConfig.pad_token_id (Model.config (_model self))) = Ok padded ->
  model_forward fw (w_log w ++ allocate) (_model self)
    (Torch.to_device (_device self) padded) (model_inputs self) = Ok y ->
  exists r,
    (_model_call fw self inps w).1 = Ok r
    /\ Logits.bs r = Logits.bs y
    /\ Logits.vocab r = Logits.vocab y
    /\ Logits.device r = "cpu"
    /\ forall i j k,
         Logits.data r i j k
         = cast_value fw (Logits.dtype y) Float32 (Logits.data y i j k).
Proof.
  intros gc allocate Hs Hb Hpad Hy.
  rewrite (model_call_static fw self inps w b Hs Hb). cbv zeta.
  fold gc allocate. rewrite Hpad, Hy. simpl. eexists. split; [reflexivity|].
  by destruct (_ >? _).
Qed.

End ForwardPass.

(** ** More on the tokenizer and the generation configuration *)

Section TokenizerAndGeneration.

Context (fw : Framework).

(** X7: a generation configuration with [reduce_recompile] set is only ever
    returned for an optimized model: then static shapes are on and the
    bucket size is the positive one of [args]. *)
Theorem setup_generation_config_reduce_recompile (args : Args.t) (model : Model.t)
    (tokenizer : Tokenizer.t) (gc : GenerationConfig.t) :
  setup_generation_config fw args model tokenizer = Ok gc ->
  GenerationConfig.reduce_recompile gc = true ->
  model_is_optimized fw (Model.config model) = true
  /\ GenerationConfig.static_shapes gc = true
  /\ GenerationConfig.bucket_size gc = Args.bucket_size args
  /\ 0 < GenerationConfig.bucket_size gc.
Proof.
  unfold setup_generation_config, mbind, result_bind, rbind, py_assert.
  destruct (Args.reduce_recompile args) eqn:Hrr.
  - destruct (model_is_optimized fw (Model.config model)); [|done].
    destruct (Z.gtb_spec (Args.bucket_size args) 0); [|done].
    intros [= <-] _. simpl. repeat split; try done; lia.
  - by intros [= <-].
Qed.

Lemma only_special_ids_differ_refl (m : Model.t) : only_special_ids_differ m m.
Proof. by destruct m as [? [] ? ? ? ? ?]. Qed.

Lemma only_special_ids_differ_trans (m1 m2 m3 : Model.t) :
  only_special_ids_differ m1 m2 -> only_special_ids_differ m2 m3 ->
  only_special_ids_differ m1 m3.
Proof.
  destruct m1 as [? [] ? ? ? ? ?], m2 as [? [] ? ? ? ? ?], m3 as [? [] ? ? ? ? ?].
  unfold only_special_ids_differ. simpl. intros [=] [=]. subst. reflexivity.
Qed.

Lemma setup_tokenizer_llama_frame (tok tok' : Tokenizer.t) (model model' : Model.t) :
  setup_tokenizer_llama fw tok model = Ok (tok', model') ->
  only_special_ids_differ model model'
  /\ GenerationConfig.eos_token_id (Model.generation_config model')
     = GenerationConfig.eos_token_id (Model.generation_config model)
  /\ Tokenizer.padding_side tok' = Tokenizer.padding_side tok
  /\ Tokenizer.pad_token_id tok'
     = GenerationConfig.pad_token_id (Model.generation_config model')
  /\ Tokenizer.bos_token_id tok'
     = GenerationConfig.bos_token_id (Model.generation_config model').
Proof.
  unfold setup_tokenizer_llama, first_eos, Py.index_first.
  unfold mbind, result_bind, rbind.
  destruct model as [cfg [pad eos bos] ? ? ? ? ?]. simpl.
  destruct pad as [|p|ps], eos as [|e|[|e l]]; simpl; try done;
    repeat (destruct (tokenizer_decode _ _ _); simpl; [|done]);
    intros [= <- <-]; simpl; by repeat split.
Qed.

Lemma setup_tokenizer_persimmon_frame (tok tok' : Tokenizer.t)
    (model model' : Model.t) :
  setup_tokenizer_persimmon fw tok model = Ok (tok', model') ->
  only_special_ids_differ model model'
  /\ GenerationConfig.eos_token_id (Model.generation_config model')
     = GenerationConfig.eos_token_id (Model.generation_config model)
  /\ Tokenizer.padding_side tok' = Tokenizer.padding_side tok
  /\ Tokenizer.pad_token_id tok'
     = GenerationConfig.pad_token_id (Model.generation_config model')
  /\ Tokenizer.bos_token_id tok'
     = GenerationConfig.bos_token_id (Model.generation_config model')
  /\ Tokenizer.eos_token_id tok'
     = GenerationConfig.eos_token_id (Model.generation_config model')
  /\ GenerationConfig.pad_token_id (Model.generation_config model')
     = GenerationConfig.eos_token_id (Model.generation_config model').
Proof.
  unfold setup_tokenizer_persimmon. unfold mbind, result_bind, rbind.
  destruct model as [cfg [pad eos bos] ? ? ? ? ?]. simpl.
  repeat (destruct (tokenizer_decode _ _ _); simpl; [|done]).
  intros [= <- <-]. simpl. by repeat split.
Qed.

Lemma setup_tokenizer_minicpm3_frame (model model' : Model.t) :
  setup_tokenizer_minicpm3 model = Ok model' ->
  only_special_ids_differ model model'
  /\ GenerationConfig.pad_token_id (Model.generation_config model')
     = GenerationConfig.pad_token_id (Model.generation_config model)
  /\ GenerationConfig.bos_token_id (Model.generation_config model')
     = GenerationConfig.bos_token_id (Model.generation_config model)
  /\ (ModelConfig.model_type (Model.config model) <> "minicpm3" -> model' = model)
  /\ (ModelConfig.model_type (Model.config model) = "minicpm3" ->
      match GenerationConfig.eos_token_id (Model.generation_config model) with
      | IdList l =>
          exists e, last l = Some e
            /\ GenerationConfig.eos_token_id (Model.generation_config model')
               = IdInt e
      | other =>
          GenerationConfig.eos_token_id (Model.generation_config model') = other
      end).
Proof.
  unfold setup_tokenizer_minicpm3, Py.index_last. unfold mbind, result_bind, rbind.
  destruct model as [cfg [pad eos bos] ? ? ? ? ?]. simpl.
  destruct eos as [|e|l]; try (intros [= <-]; by repeat split).
  destruct (String.eqb_spec (ModelConfig.model_type cfg) "minicpm3") as [Heq|Hne].
  - destruct (last l) as [e|] eqn:Hlast; [|done]. intros [= <-]. simpl.
    repeat split; [done|]. intros _. by exists e.
  - intros [= <-]. by repeat split.
Qed.

Lemma setup_tokenizer_pad_frame (tok : Tokenizer.t) (model : Model.t) :
  only_special_ids_differ model (setup_tokenizer_pad tok model).2
  /\ GenerationConfig.eos_token_id
       (Model.generation_config (setup_tokenizer_pad tok model).2)
     = GenerationConfig.eos_token_id (Model.generation_config model)
  /\ Tokenizer.padding_side (setup_tokenizer_pad tok model).1
     = Tokenizer.padding_side tok
  /\ Tokenizer.pad_token_id (setup_tokenizer_pad tok model).1
     = Tokenizer.pad_token_id tok
  /\ Tokenizer.bos_token_id (setup_tokenizer_pad tok model).1
     = Tokenizer.bos_token_id tok
  /\ Tokenizer.eos_token_id (setup_tokenizer_pad tok model).1
     = Tokenizer.eos_token_id tok.
Proof.
  unfold setup_tokenizer_pad. destruct model as [cfg [pad eos bos] ? ? ? ? ?].
  by destruct (Tokenizer.pad_token tok).
Qed.

(** The steps of a run of [setup_tokenizer] that returns. *)
Lemma setup_tokenizer_Ok_inv (args : Args.t) (model model' : Model.t)
    (tok : Tokenizer.t) :
  setup_tokenizer fw args model = Ok (tok, model') ->
  let family := ModelConfig.model_type (Model.config model) in
  exists loaded tok1 model1 tok2 model2 model3,
    load_tokenizer fw args model = Ok loaded
    /\ (if String.eqb family "llama" then setup_tokenizer_llama fw loaded model
        else Ok (loaded, model)) = Ok (tok1, model1)
    /\ (if String.eqb family "persimmon"
        then setup_tokenizer_persimmon fw tok1 model1
        else Ok (tok1, model1)) = Ok (tok2, model2)
    /\ setup_tokenizer_minicpm3 model2 = Ok model3
    /\ setup_tokenizer_pad tok2 model3 = (tok, model').
Proof.
  intros Hrun family. unfold setup_tokenizer, setup_tokenizer_families in Hrun.
  unfold mbind, result_bind, rbind in Hrun. fold family in Hrun.
  destruct (load_tokenizer fw args model) as [loaded|]; [|done].
  destruct (if String.eqb family "llama" then _ else _) as [[tok1 model1]|]
    eqn:H1; [|done].
  destruct (if String.eqb family "persimmon" then _ else _) as [[tok2 model2]|]
    eqn:H2; [|done].
  destruct (setup_tokenizer_minicpm3 model2) as [model3|] eqn:H3; [|done].
  injection Hrun as Hrun. by exists loaded, tok1, model1, tok2, model2, model3.
Qed.


(** X9: [setup_tokenizer] changes nothing of the model but the pad and EOS ids
    of its generation configuration, and the EOS id only for MiniCPM3. *)
Theorem setup_tokenizer_model_frame (args : Args.t) (model model' : Model.t)
    (tok : Tokenizer.t) :
  setup_tokenizer fw args model = Ok (tok, model') ->
  only_special_ids_differ model model'
  /\ (ModelConfig.model_type (Model.config model) <> "minicpm3" ->
      GenerationConfig.eos_token_id (Model.generation_config model')
      = GenerationConfig.eos_token_id (Model.generation_config model)).
Proof.
  intros Hrun.
  destruct (setup_tokenizer_Ok_inv _ _ _ _ Hrun)
    as (loaded & tok1 & model1 & tok2 & model2 & model3
        & Hload & H1 & H2 & H3 & Hpad).
  assert (only_special_ids_differ model model1
          /\ Model.config model1 = Model.config model
          /\ GenerationConfig.eos_token_id (Model.generation_config model1)
             = GenerationConfig.eos_token_id (Model.generation_config model))
    as (F1 & C1 & E1).
  { destruct (String.eqb _ "llama").
    - apply setup_tokenizer_llama_frame in H1 as (F & E & _).
      split; [done|]. split; [|done]. rewrite F. by destruct model.
    - injection H1 as _ <-. split; [apply only_special_ids_differ_refl|done]. }
  assert (only_special_ids_differ model1 model2
          /\ Model.config model2 = Model.config model1
          /\ GenerationConfig.eos_token_id (Model.generation_config model2)
             = GenerationConfig.eos_token_id (Model.generation_config model1))
    as (F2 & C2 & E2).
  { destruct (String.eqb _ "persimmon").
    - apply setup_tokenizer_persimmon_frame in H2 as (F & E & _).
      split; [done|]. split; [|done]. rewrite F. by destruct model1.
    - injection H2 as _ <-. split; [apply only_special_ids_differ_refl|done]. }
  apply setup_tokenizer_minicpm3_frame in H3 as (F3 & _ & _ & Hother & _).
  pose proof (setup_tokenizer_pad_frame tok2 model3) as (F4 & E4 & _).
  rewrite Hpad in F4, E4. simpl in F4, E4. split.
  - eauto using only_special_ids_differ_trans.
  - intros Hne. rewrite E4, Hother; [congruence|]. congruence.
Qed.

(** X10: on llama and persimmon the tokenizer returned carries the pad and BOS
    ids of the model's generation configuration; on persimmon also its EOS
    id, which is the pad id as well. *)
Theorem setup_tokenizer_ids_agree (args : Args.t) (model model' : Model.t)
    (tok : Tokenizer.t) :
  setup_tokenizer fw args model = Ok (tok, model') ->
  let family := ModelConfig.model_type (Model.config model) in
  let gc' := Model.generation_config model' in
  family = "llama" \/ family = "persimmon" ->
  Tokenizer.pad_token_id tok = GenerationConfig.pad_token_id gc'
  /\ Tokenizer.bos_token_id tok = GenerationConfig.bos_token_id gc'
  /\ (family = "persimmon" ->
      Tokenizer.eos_token_id tok = GenerationConfig.eos_token_id gc'
      /\ GenerationConfig.pad_token_id gc' = GenerationConfig.eos_token_id gc').
Proof.
  intros Hrun family gc' Hfamily.
  destruct (setup_tokenizer_Ok_inv _ _ _ _ Hrun)
    as (loaded & tok1 & model1 & tok2 & model2 & model3
        & Hload & H1 & H2 & H3 & Hpad).
  fold family in H1, H2.
  assert (ModelConfig.model_type (Model.config model2) <> "minicpm3"
          /\ (exists s, Tokenizer.pad_token tok2 = Some s)
          /\ Tokenizer.pad_token_id tok2
             = GenerationConfig.pad_token_id (Model.generation_config model2)
          /\ Tokenizer.bos_token_id tok2
             = GenerationConfig.bos_token_id (Model.generation_config model2)
          /\ (family = "persimmon" ->
              Tokenizer.eos_token_id tok2
              = GenerationConfig.eos_token_id (Model.generation_config model2)
              /\ GenerationConfig.pad_token_id (Model.generation_config model2)
                 = GenerationConfig.eos_token_id (Model.generation_config model2)))
    as (Hne & [s Hs] & Hp & Hb & He).
  { destruct Hfamily as [Hf|Hf]; rewrite Hf in H1, H2; simpl in H1, H2.
    - injection H2 as <- <-.
      pose proof (setup_tokenizer_llama_pad fw _ _ _ _ H1) as (Hcfg & Hs & _).
      apply setup_tokenizer_llama_frame in H1 as (_ & _ & _ & Hp & Hb).
      split; [rewrite Hcfg; fold family; by rewrite Hf|].
      split; [done|]. split; [done|]. split; [done|]. by rewrite Hf.
    - injection H1 as <- <-.
      pose proof (setup_tokenizer_persimmon_pad fw _ _ _ _ H2) as (Hcfg & Hs).
      apply setup_tokenizer_persimmon_frame in H2 as (_ & _ & _ & Hp & Hb & He & Hpe).
      split; [rewrite Hcfg; fold family; by rewrite Hf|]. by repeat split. }
  apply setup_tokenizer_minicpm3_frame in H3 as (_ & _ & _ & Hsame & _).
  rewrite (Hsame Hne) in Hpad.
  rewrite (setup_tokenizer_pad_Some _ _ _ Hs) in Hpad.
  injection Hpad as <- <-. subst gc'. split; [done|]. split; [done|]. exact He.
Qed.

(** X11: on MiniCPM3 the generation configuration never leaves with a list of
    EOS ids: a list is replaced by its last id. *)
Theorem setup_tokenizer_minicpm3_eos (args : Args.t) (model model' : Model.t)
    (tok : Tokenizer.t) :
  setup_tokenizer fw args model = Ok (tok, model') ->
  ModelConfig.model_type (Model.config model) = "minicpm3" ->
  match GenerationConfig.eos_token_id (Model.generation_config model) with
  | IdList l =>
      exists e, last l = Some e
        /\ GenerationConfig.eos_token_id (Model.generation_config model') = IdInt e
  | other => GenerationConfig.eos_token_id (Model.generation_config model') = other
  end.
Proof.
  intros Hrun Hfamily.
  destruct (setup_tokenizer_Ok_inv _ _ _ _ Hrun)
    as (loaded & tok1 & model1 & tok2 & model2 & model3
        & Hload & H1 & H2 & H3 & Hpad).
  rewrite Hfamily in H1, H2. simpl in H1, H2.
  injection H1 as <- <-. injection H2 as <- <-.
  apply setup_tokenizer_minicpm3_frame in H3 as (_ & _ & _ & _ & Heos).
  pose proof (setup_tokenizer_pad_frame loaded model3) as (_ & E4 & _).
  rewrite Hpad in E4. simpl in E4. rewrite E4. by apply Heos.
Qed.

(** X12: an empty list of EOS ids is not accepted on llama and on MiniCPM3:
    once the tokenizer is loaded, [setup_tokenizer] raises [IndexError]. *)
Theorem setup_tokenizer_empty_eos_list (args : Args.t) (model : Model.t)
    (loaded : Tokenizer.t) :
  load_tokenizer fw args model = Ok loaded ->
  GenerationConfig.eos_token_id (Model.generation_config model) = IdList [] ->
  ModelConfig.model_type (Model.config model) = "llama"
  \/ ModelConfig.model_type (Model.config model) = "minicpm3" ->
  setup_tokenizer fw args model = Raise IndexError.
Proof.
  intros Hload Heos Hfamily.
  unfold setup_tokenizer, setup_tokenizer_families. rewrite Hload.
  unfold mbind, result_bind, rbind.
  destruct Hfamily as [Hf|Hf]; rewrite Hf; simpl.
  - unfold setup_tokenizer_llama, first_eos, mbind, result_bind, rbind.
    rewrite Heos. simpl.
    destruct (GenerationConfig.pad_token_id (Model.generation_config model));
      simpl; rewrite ?Heos; reflexivity.
  - unfold setup_tokenizer_minicpm3, mbind, result_bind, rbind.
    rewrite Heos, Hf. reflexivity.
Qed.

End TokenizerAndGeneration.

(** ** What a computation does to the world *)

Section WorldFrames.

Context (R : relation World) `{!PreOrder R}.

Lemma wframes_ret {A} (a : A) : wframes R (mret a).
Proof. intros w r w' [= _ <-]. reflexivity. Qed.

Lemma wframes_lift {A} (x : result A) : wframes R (lift x).
Proof. intros w r w' [= _ <-]. reflexivity. Qed.

Lemma wframes_get_args : wframes R get_args.
Proof. intros w r w' [= _ <-]. reflexivity. Qed.

Lemma wframes_get_environ : wframes R get_environ.
Proof. intros w r w' [= _ <-]. reflexivity. Qed.

Lemma wframes_get_log : wframes R get_log.
Proof. intros w r w' [= _ <-]. reflexivity. Qed.

Lemma wframes_bind {A B} (m : M A) (k : A -> M B) :
  wframes R m -> (forall a, wframes R (k a)) -> wframes R (m ≫= k).
Proof.
  intros Hm Hk w r w' Hrun. unfold mbind, M_bind, bind in Hrun.
  destruct (m w) as [[a|e] w1] eqn:Hmw.
  - transitivity w1; [by eapply Hm|by eapply Hk].
  - injection Hrun as _ <-. by eapply Hm.
Qed.

Lemma wframes_when (b : bool) (m : M unit) : wframes R m -> wframes R (when b m).
Proof. destruct b; [done|]. intros _. apply wframes_ret. Qed.

Lemma wframes_run {A} (m : M A) (w : World) : wframes R m -> R w (m w).2.
Proof. intros H. destruct (m w) as [r w'] eqn:Hrun. by eapply H. Qed.

End WorldFrames.

Create HintDb wframes discriminated.
#[local] Hint Resolve wframes_ret wframes_lift wframes_get_args wframes_get_environ
  wframes_get_log : wframes.

(** Walks through a computation; the assignments to [args], the changes of
    the environment and the effects are left to the caller. *)
Ltac wframes_step :=
  match goal with
  | |- wframes _ (_ ≫= _) => apply wframes_bind; [try typeclasses eauto| |intros ?]
  | |- wframes _ (if ?b then _ else _) => destruct b
  | |- wframes _ (let '(_, _) := ?p in _) => destruct p
  | |- wframes _ (when _ _) => apply wframes_when; [try typeclasses eauto|]
  | |- wframes _ _ => solve [auto with wframes typeclass_instances]
  end.
Ltac solve_wframes := repeat wframes_step.

Lemma environ_and_log_kept_preorder : PreOrder environ_and_log_kept.
Proof.
  split; [by intros w|].
  intros w1 w2 w3 [H1 H2] [H3 H4]. split; congruence.
Qed.

Lemma environ_kept_preorder : PreOrder environ_kept.
Proof. split; [by intros w|]. intros w1 w2 w3 H1 H2. unfold environ_kept. congruence. Qed.

Lemma environ_variable_kept_preorder name : PreOrder (environ_variable_kept name).
Proof.
  split; [by intros w|]. intros w1 w2 w3 H1 H2.
  unfold environ_variable_kept. congruence.
Qed.

Lemma environ_only_defaults_preorder names : PreOrder (environ_only_defaults names).
Proof.
  split; [by intros w name _|].
  intros w1 w2 w3 H12 H23 name Hname.
  rewrite <- (H12 name Hname). apply H23.
  destruct Hname as [Hset|Hout]; [|by right].
  left. by rewrite (H12 name (or_introl Hset)).
Qed.

Lemma log_grows_by_preorder P : PreOrder (log_grows_by P).
Proof.
  split.
  - intros w. exists []. by rewrite app_nil_r.
  - intros w1 w2 w3 (n1 & H1 & F1) (n2 & H2 & F2). exists (n1 ++ n2)%list.
    split; [by rewrite H2, H1, app_assoc|by apply Forall_app].
Qed.

#[local] Existing Instances environ_and_log_kept_preorder environ_kept_preorder
  environ_variable_kept_preorder environ_only_defaults_preorder
  log_grows_by_preorder.

(** [setup_distributed], outcome by outcome: the three variables are read
    in turn, and the first that is not an integer stops the function with
    the ranks read so far assigned. *)
Lemma setup_distributed_spec (w : World) :
  let env := w_environ w in
  let world a := {| w_args := a; w_environ := env; w_log := w_log w |} in
  setup_distributed w =
    match env_rank env "LOCAL_RANK" with
    | Raise e => (Raise e, w)
    | Ok lr =>
        let a1 := Args.set_local_rank (Some lr) (w_args w) in
        match env_rank env "WORLD_SIZE" with
        | Raise e => (Raise e, world a1)
        | Ok ws =>
            let a2 := Args.set_world_size (Some ws) a1 in
            match env_rank env "RANK" with
            | Raise e => (Raise e, world a2)
            | Ok gr => (Ok tt, world (Args.set_global_rank (Some gr) a2))
            end
        end
    end.
Proof.
  cbv zeta. unfold env_rank.
  unfold setup_distributed, getenv, get_environ, lift, modify_args,
    mbind, mret, M_bind, M_ret, bind, ret. simpl.
  destruct (Py.int (default "0" (w_environ w !! "LOCAL_RANK"))); simpl;
    [|by destruct w].
  destruct (Py.int (default "0" (w_environ w !! "WORLD_SIZE"))); simpl; [|done].
  by destruct (Py.int (default "0" (w_environ w !! "RANK"))).
Qed.

Lemma env_rank_Raise (env : gmap string string) (name : string) (e : exn) :
  env_rank env name = Raise e -> e = ValueError.
Proof.
  unfold env_rank, Py.int.
  by destruct (match Py.strip _ with "" => _ | String _ _ => _ end); intros [=].
Qed.

Section StartupWorld.

Context (fw : Framework).

(** X13: a rank variable that is not an integer stops [initialize_model] with
    [ValueError] before anything else happens: the environment and the log
    are untouched, no framework was called, and [args] has at most some
    ranks assigned. *)
Theorem initialize_model_bad_rank (w : World) :
  let env := w_environ w in
  is_ok (env_rank env "LOCAL_RANK") && is_ok (env_rank env "WORLD_SIZE")
  && is_ok (env_rank env "RANK") = false ->
  (initialize_model fw w).1 = Raise ValueError
  /\ w_environ (initialize_model fw w).2 = w_environ w
  /\ w_log (initialize_model fw w).2 = w_log w
  /\ only_ranks_differ (w_args w) (w_args (initialize_model fw w).2).
Proof.
  intros env Hbad. unfold initialize_model.
  pose proof (setup_distributed_spec w) as Hspec. cbv zeta in Hspec. fold env in Hspec.
  destruct (env_rank env "LOCAL_RANK") as [lr|e1] eqn:H1.
  2:{ rewrite (bind_run_Raise _ _ _ _ _ Hspec). simpl.
      rewrite (env_rank_Raise _ _ _ H1). repeat split.
      by destruct (w_args w). }
  destruct (env_rank env "WORLD_SIZE") as [ws|e2] eqn:H2.
  2:{ rewrite (bind_run_Raise _ _ _ _ _ Hspec). simpl.
      rewrite (env_rank_Raise _ _ _ H2). repeat split.
      by destruct (w_args w). }
  destruct (env_rank env "RANK") as [gr|e3] eqn:H3; [done|].
  rewrite (bind_run_Raise _ _ _ _ _ Hspec). simpl.
  rewrite (env_rank_Raise _ _ _ H3). repeat split.
  by destruct (w_args w).
Qed.

Lemma wframes_modify_args_environ (names : list string) (f : Args.t -> Args.t) :
  wframes (environ_only_defaults names) (modify_args f).
Proof. by intros w r w' [= _ <-] name _. Qed.

Lemma wframes_emit_environ (names : list string) (e : Event) :
  wframes (environ_only_defaults names) (emit e).
Proof. by intros w r w' [= _ <-] name _. Qed.

Lemma wframes_setdefault_environ (names : list string) (name value : string) :
  name ∈ names -> wframes (environ_only_defaults names) (setdefault name value).
Proof.
  intros Hin w r w' [= _ <-] name' Hname'. simpl.
  destruct (w_environ w !! name) eqn:Hname; [done|].
  apply lookup_insert_ne. intros <-.
  destruct Hname' as [[v Hv]|Hout]; [congruence|done].
Qed.

Lemma wframes_initialize_model_environ :
  wframes (environ_only_defaults setup_env_names) (initialize_model fw).
Proof.
  unfold initialize_model, setup_distributed, setup_env, setup_device,
    setup_model, setup_distributed_model, getenv.
  solve_wframes;
    first [ apply wframes_modify_args_environ
          | apply wframes_emit_environ
          | apply wframes_setdefault_environ; unfold setup_env_names; set_solver ].
Qed.


End StartupWorld.

(** ** The environment and the start-up of the model *)

Lemma lookup_environ_setdefault (name value : string) (env : gmap string string)
    (k : string) :
  environ_setdefault name value env !! k
  = if decide (k = name) then Some (default value (env !! name)) else env !! k.
Proof.
  unfold environ_setdefault. destruct (env !! name) as [v|] eqn:Hname.
  - case_decide; [by subst|done].
  - rewrite lookup_insert. repeat case_decide; by subst.
Qed.

Lemma setup_env_run (w : World) (gr ws : Z) :
  Args.global_rank (w_args w) = Some gr ->
  Args.world_size (w_args w) = Some ws ->
  setup_env w =
    (Ok tt, {| w_args := w_args w;
               w_environ := setup_env_environ (w_args w) gr ws (w_environ w);
               w_log := w_log w ++ setup_env_events (w_args w) gr |}).
Proof.
  intros Hgr Hws.
  unfold setup_env, setup_env_environ, setup_env_events, setdefault,
    modify_environ, get_args, emit, lift, when, getattr,
    mbind, mret, M_bind, M_ret, bind, ret.
  simpl. rewrite Hgr. simpl. fold (environ_setdefault "EXPERIMENTAL_WEIGHT_SHARING"
    "FALSE" (w_environ w)).
  destruct ((gr =? 0) && negb (Args.torch_compile (w_args w))); simpl;
    rewrite Hws; simpl;
    destruct (ws >? 0); simpl;
    destruct (Args.use_hpu_graphs (w_args w) && Args.limit_hpu_graphs (w_args w)
              && negb (Args.reuse_cache (w_args w))
              && Args.bucket_internal (w_args w)); simpl;
    rewrite <- ?app_assoc; reflexivity.
Qed.

Lemma lookup_environ_setdefault_ne (name value : string)
    (env : gmap string string) (k : string) :
  k <> name -> environ_setdefault name value env !! k = env !! k.
Proof. intros Hne. rewrite lookup_environ_setdefault. by case_decide. Qed.

Lemma lookup_environ_setdefault_eq (name value : string)
    (env : gmap string string) :
  environ_setdefault name value env !! name = Some (default value (env !! name)).
Proof. rewrite lookup_environ_setdefault. by case_decide. Qed.

(** The variables of [setup_env] do not interfere: each one is looked up
    in the environment the function leaves as if it were alone. *)
Lemma setup_env_environ_lookup (a : Args.t) (gr ws : Z) (env : gmap string string)
    (name value : string) (condition : bool) :
  (name, value, condition) ∈ setup_env_table a gr ws ->
  setup_env_environ a gr ws env !! name
  = if condition then Some (default value (env !! name)) else env !! name.
Proof.
  intros Hin%list_elem_of_In. unfold setup_env_table, setup_env_environ in *.
  set (b1 := (gr =? 0) && negb (Args.torch_compile a)) in *.
  set (b2 := ws >? 0) in *.
  set (b3 := Args.use_hpu_graphs a && Args.limit_hpu_graphs a
             && negb (Args.reuse_cache a) && Args.bucket_internal a) in *.
  clearbody b1 b2 b3. simpl in Hin.
  destruct Hin as [Hin|[Hin|[Hin|[Hin|[Hin|[]]]]]];
    injection Hin as <- <- <-; destruct b1, b2, b3;
    rewrite ?lookup_environ_setdefault_eq;
    rewrite ?lookup_environ_setdefault_ne by discriminate;
    rewrite ?lookup_environ_setdefault_eq;
    rewrite ?lookup_environ_setdefault_ne by discriminate;
    rewrite ?lookup_environ_setdefault_eq;
    rewrite ?lookup_environ_setdefault_ne by discriminate;
    reflexivity.
Qed.

(** X15: once the ranks are assigned, [setup_env] returns, and each of its five
    variables reads its default value if its condition holds and it was
    not set, and reads as before otherwise. *)
Theorem setup_env_variables (w : World) (gr ws : Z) (name value : string)
    (condition : bool) :
  Args.global_rank (w_args w) = Some gr ->
  Args.world_size (w_args w) = Some ws ->
  (name, value, condition) ∈ setup_env_table (w_args w) gr ws ->
  (setup_env w).1 = Ok tt
  /\ w_environ (setup_env w).2 !! name
     = if condition then Some (default value (w_environ w !! name))
       else w_environ w !! name.
Proof.
  intros Hgr Hws Hin. rewrite (setup_env_run w gr ws Hgr Hws). simpl.
  split; [done|]. by apply setup_env_environ_lookup.
Qed.

(** X16: before [setup_distributed] has run there is no rank to read:
    [setup_env] raises [AttributeError], with the first of its variables
    already defined. *)
Theorem setup_env_without_ranks (w : World) :
  Args.global_rank (w_args w) = None ->
  (setup_env w).1 = Raise (AttributeError "global_rank")
  /\ is_Some (w_environ (setup_env w).2 !! "EXPERIMENTAL_WEIGHT_SHARING")
  /\ w_log (setup_env w).2 = w_log w.
Proof.
  intros Hgr.
  unfold setup_env, setdefault, modify_environ, get_args, emit, lift, when,
    getattr, mbind, mret, M_bind, M_ret, bind, ret.
  simpl. rewrite Hgr. simpl. split; [done|]. split; [|done].
  fold (environ_setdefault "EXPERIMENTAL_WEIGHT_SHARING" "FALSE" (w_environ w)).
  rewrite lookup_environ_setdefault. by case_decide.
Qed.

Lemma bind_Ok_inv {A B} (m : M A) (k : A -> M B) (w w' : World) (b : B) :
  (m ≫= k) w = (Ok b, w') ->
  exists a w1, m w = (Ok a, w1) /\ k a w1 = (Ok b, w').
Proof.
  unfold mbind, M_bind, bind. destruct (m w) as [[a|e] w1]; [|done].
  intros H. by exists a, w1.
Qed.

Lemma with_ranks_ranks (lr ws gr : option Z) (a : Args.t) :
  Args.local_rank (with_ranks lr ws gr a) = lr
  /\ Args.world_size (with_ranks lr ws gr a) = ws
  /\ Args.global_rank (with_ranks lr ws gr a) = gr.
Proof. by destruct a. Qed.

Lemma limit_hpu_graphs_forced_off_with_ranks (ws : Z) (lr ws' gr : option Z)
    (a : Args.t) :
  limit_hpu_graphs_forced_off ws (with_ranks lr ws' gr a)
  = limit_hpu_graphs_forced_off ws a.
Proof. by destruct a. Qed.

Lemma set_limit_hpu_graphs_ranks (v : bool) (a : Args.t) :
  Args.world_size (Args.set_limit_hpu_graphs v a) = Args.world_size a
  /\ Args.global_rank (Args.set_limit_hpu_graphs v a) = Args.global_rank a
  /\ Args.bf16 (Args.set_limit_hpu_graphs v a) = Args.bf16 a.
Proof. by destruct a. Qed.

Section Startup.

Context (fw : Framework).

Lemma setup_device_run (w : World) :
  setup_device fw w =
    (torch_device fw (Args.device (w_args w)),
     {| w_args := w_args w; w_environ := w_environ w;
        w_log := w_log w ++ setup_device_events (w_args w) |}).
Proof.
  unfold setup_device, setup_device_events, get_args, emit, lift, when,
    mbind, mret, M_bind, M_ret, bind, ret. simpl.
  destruct (String.eqb _ _); simpl; [done|]. rewrite app_nil_r. by destruct w.
Qed.

(** The world in which [initialize_model] starts to load the model. *)
Lemma initialize_model_Ok_inv (w w' : World) (model : Model.t) (tok : Tokenizer.t)
    (gc : GenerationConfig.t) :
  initialize_model fw w = (Ok (model, tok, gc), w') ->
  exists lr ws gr model0 w5,
    env_rank (w_environ w) "LOCAL_RANK" = Ok lr
    /\ env_rank (w_environ w) "WORLD_SIZE" = Ok ws
    /\ env_rank (w_environ w) "RANK" = Ok gr
    /\ let a1 := with_ranks (Some lr) (Some ws) (Some gr) (w_args w) in
       let a2 := if limit_hpu_graphs_forced_off ws (w_args w)
                 then Args.set_limit_hpu_graphs false a1 else a1 in
       let a5 := args_after_startup lr ws gr (w_args w) in
       let model_kwargs := {| mk_revision := Args.model_revision a5;
                              mk_token := Args.token a5;
                              mk_trust_remote_code := Args.trust_remote_code a5 |} in
       torch_device fw (Args.device a2) = Ok tt
       /\ w5 = {| w_args := a5;
                  w_environ := setup_env_environ a2 gr ws (w_environ w);
                  w_log := (w_log w ++ setup_env_events a2 gr)
                           ++ setup_device_events a2 |}
       /\ (if negb (ws >? 0)
           then setup_model fw (startup_dtype ws (w_args w)) model_kwargs
           else setup_distributed_model fw (startup_dtype ws (w_args w))
                  model_kwargs) w5 = (Ok model0, w')
       /\ setup_tokenizer fw a5 model0 = Ok (tok, model)
       /\ setup_generation_config fw a5 model tok = Ok gc.
Proof.
  intros H. unfold initialize_model in H.
  apply bind_Ok_inv in H as (u1 & w1 & Hsd & H).
  rewrite setup_distributed_spec in Hsd. cbv zeta in Hsd.
  destruct (env_rank (w_environ w) "LOCAL_RANK") as [lr|] eqn:Hlr; [|done].
  destruct (env_rank (w_environ w) "WORLD_SIZE") as [ws|] eqn:Hws; [|done].
  destruct (env_rank (w_environ w) "RANK") as [gr|] eqn:Hgr; [|done].
  injection Hsd as _ <-. fold (with_ranks (Some lr) (Some ws) (Some gr) (w_args w)) in H.
  exists lr, ws, gr.
  set (a1 := with_ranks (Some lr) (Some ws) (Some gr) (w_args w)) in *.
  destruct (with_ranks_ranks (Some lr) (Some ws) (Some gr) (w_args w))
    as (_ & Hws1 & Hgr1). fold a1 in Hws1, Hgr1.
  apply bind_Ok_inv in H as (args1 & w1 & Hget & H). injection Hget as <- <-.
  apply bind_Ok_inv in H as (ex & w1 & Hex & H). simpl in Hex.
  unfold lift in Hex. rewrite (exclude_hpu_graph_configs_spec a1 ws Hws1) in Hex.
  subst a1. rewrite limit_hpu_graphs_forced_off_with_ranks in Hex.
  set (a1 := with_ranks (Some lr) (Some ws) (Some gr) (w_args w)) in *.
  injection Hex as <- <-.
  apply bind_Ok_inv in H as (u2 & w2 & Hwhen & H).
  set (a2 := if limit_hpu_graphs_forced_off ws (w_args w)
             then Args.set_limit_hpu_graphs false a1 else a1).
  assert (w2 = {| w_args := a2; w_environ := w_environ w; w_log := w_log w |})
    as ->.
  { subst a2. destruct (limit_hpu_graphs_forced_off ws (w_args w));
      by injection Hwhen as _ <-. }
  clear Hwhen.
  assert (Args.world_size a2 = Some ws /\ Args.global_rank a2 = Some gr
          /\ Args.bf16 a2 = Args.bf16 (w_args w)) as (Hws2 & Hgr2 & Hbf).
  { subst a2. destruct (limit_hpu_graphs_forced_off ws (w_args w));
      rewrite ?(proj1 (set_limit_hpu_graphs_ranks _ _)),
        ?(proj1 (proj2 (set_limit_hpu_graphs_ranks _ _))),
        ?(proj2 (proj2 (set_limit_hpu_graphs_ranks _ _)));
      (repeat split; [done|done|]); subst a1; by destruct (w_args w). }
  apply bind_Ok_inv in H as (u3 & w3 & Henv & H).
  rewrite (setup_env_run {| w_args := a2; w_environ := w_environ w;
                            w_log := w_log w |} gr ws Hgr2 Hws2) in Henv.
  simpl in Henv.
  injection Henv as _ <-.
  apply bind_Ok_inv in H as (u4 & w4 & Hdev & H).
  rewrite setup_device_run in Hdev. simpl in Hdev. injection Hdev as Hdev <-.
  destruct u4.
  apply bind_Ok_inv in H as (args4 & w4 & Hget & H). injection Hget as <- <-.
  apply bind_Ok_inv in H as (ws' & w4 & Hgetws & H). simpl in Hgetws.
  unfold lift in Hgetws. rewrite Hws2 in Hgetws. injection Hgetws as <- <-.
  apply bind_Ok_inv in H as (dtype & w5 & Hdtype & H).
  rewrite Hbf in Hdtype.
  assert (dtype = startup_dtype ws (w_args w)
          /\ w5 = {| w_args := args_after_startup lr ws gr (w_args w);
                     w_environ := setup_env_environ a2 gr ws (w_environ w);
                     w_log := (w_log w ++ setup_env_events a2 gr)
                              ++ setup_device_events a2 |}) as [-> ->].
  { unfold startup_dtype, args_after_startup. fold a1. fold a2.
    destruct ((ws >? 0) || Args.bf16 (w_args w)); by injection Hdtype as <- <-. }
  clear Hdtype.
  apply bind_Ok_inv in H as (args5 & w5 & Hget & H). injection Hget as <- <-.
  simpl in H.
  apply bind_Ok_inv in H as (model0 & w6 & Hload & H).
  exists model0. eexists. cbv zeta. fold a1. fold a2.
  split; [done|]. split; [done|]. split; [done|]. split; [done|].
  split; [reflexivity|].
  apply bind_Ok_inv in H as ([tok1 model1] & w7 & Htok & H).
  unfold lift in Htok. injection Htok as Htok <-.
  apply bind_Ok_inv in H as (gc1 & w8 & Hgc & H).
  unfold lift in Hgc. injection Hgc as Hgc <-.
  injection H as <- <- <- <-.
  by repeat split.
Qed.

End Startup.

(** ** The keyword arguments of the model *)

Section ModelInputs.

Import OptimumHabanaLM.

Lemma table_insert (T : list (string * bool)) (m : gmap string bool)
    (k0 : string) (v0 : bool) :
  (k0, v0) ∈ T ->
  (forall k v, m !! k = Some v -> (k, v) ∈ T) ->
  forall k v, <[k0 := v0]> m !! k = Some v -> (k, v) ∈ T.
Proof.
  intros Hin Hm k v [[-> ->]|[_ Hk]]%lookup_insert_Some; [exact Hin|by apply Hm].
Qed.

Lemma six_families (family : string) :
  family <> "falcon" ->
  family ∈ ["llama"; "mistral"; "qwen2"; "starcoder2"; "gemma"; "baichuan"]
  <-> family ∈ ["llama"; "mistral"; "qwen2"; "falcon"; "starcoder2"; "gemma";
                "baichuan"].
Proof. intros Hfalcon. rewrite !elem_of_cons, !elem_of_nil. tauto. Qed.

(** X21: every keyword argument the wrapper passes to the model carries the
    attribute of the same name of the generation configuration;
    [use_cache] is passed to every model, [reuse_cache] to ten families,
    the flash-attention switches to seven of them, and [attn_softmax_bf16]
    to those seven but falcon. *)
Theorem build_model_inputs_entries (family : string) (gc : GenerationConfig.t) :
  let inputs := build_model_inputs family gc in
  (forall k v, inputs !! k = Some v -> (k, v) ∈ model_inputs_table gc)
  /\ inputs !! "use_cache" = Some (GenerationConfig.use_cache gc)
  /\ (is_Some (inputs !! "reuse_cache") <->
      family ∈ ["llama"; "mistral"; "falcon"; "phi"; "mixtral"; "qwen2"; "gptj";
                "starcoder2"; "gemma"; "baichuan"])
  /\ (is_Some (inputs !! "use_flash_attention") <->
      family ∈ ["llama"; "mistral"; "qwen2"; "falcon"; "starcoder2"; "gemma";
                "baichuan"])
  /\ (is_Some (inputs !! "attn_softmax_bf16") <->
      family ∈ ["llama"; "mistral"; "qwen2"; "starcoder2"; "gemma"; "baichuan"]).
Proof.
  intros inputs. subst inputs. unfold build_model_inputs, Py.in_list.
  destruct (String.eqb_spec family "falcon") as [->|Hfalcon].
  - rewrite !bool_decide_eq_true_2 by compute_done. cbn [negb].
    split; [|split; [done|]].
    + repeat apply table_insert;
        first [by intros k v; rewrite lookup_empty
              |apply list_elem_of_In; simpl; tauto].
    + split; [|split]; split.
      * intros _. compute_done.
      * intros _. by eexists.
      * intros _. compute_done.
      * intros _. by eexists.
      * by intros [v Hv].
      * intros Hin. exfalso. revert Hin. compute_done.
  - rewrite (six_families family Hfalcon). cbn [negb].
    destruct (bool_decide (family ∈ ["llama"; "mistral"; "falcon"; "phi"; "mixtral";
                                       "qwen2"; "gptj"; "starcoder2"; "gemma";
                                       "baichuan"])) eqn:Hten;
      destruct (bool_decide (family ∈ ["llama"; "mistral"; "qwen2"; "falcon";
                                         "starcoder2"; "gemma"; "baichuan"]))
        eqn:Hseven.
    all: first [apply bool_decide_eq_true_1 in Hten
               |apply bool_decide_eq_false_1 in Hten].
    all: first [apply bool_decide_eq_true_1 in Hseven
               |apply bool_decide_eq_false_1 in Hseven].
    all: split;
      [repeat apply table_insert;
       first [by intros k v; rewrite lookup_empty
             |apply list_elem_of_In; simpl; tauto]|].
    all: split; [done|].
    all: split; [|split];
      (split; [intros [v Hv]; first [done|assumption]
              |intros Hin; first [done|by eexists]]).
Qed.

End ModelInputs.

(** ** The start-up of the model, when it returns *)

Section StartupReturns.

Context (fw : Framework).

Lemma setup_model_world dtype kwargs (w w' : World) (r : result Model.t) :
  setup_model fw dtype kwargs w = (r, w') -> w' = w.
Proof.
  unfold setup_model, get_args, lift, mbind, mret, M_bind, M_ret, bind, ret.
  simpl. destruct (AutoModelForCausalLM_from_pretrained _ _ _ _);
    by intros [= _ <-].
Qed.

Lemma setup_distributed_model_Ok_world dtype kwargs (w w' : World)
    (model : Model.t) :
  setup_distributed_model fw dtype kwargs w = (Ok model, w') ->
  w_args w' = w_args w
  /\ w_environ w' = w_environ w
  /\ exists rest,
       w_log w' = (w_log w ++ EvDeepspeedInitDistributed "hccl" :: rest)%list
       /\ forallb (fun e => negb (is_deepspeed_init e)) rest = true.
Proof.
  intros H. unfold setup_distributed_model in H.
  apply bind_Ok_inv in H as (args & w1 & Hget & H). injection Hget as <- <-.
  apply bind_Ok_inv in H as (u & w1 & Hemit & H). injection Hemit as _ <-.
  apply bind_Ok_inv in H as (config & w2 & Hcfg & H).
  unfold lift in Hcfg. injection Hcfg as _ <-.
  apply bind_Ok_inv in H as (model1 & w3 & Hload & H).
  assert (w_args w3 = w_args w /\ w_environ w3 = w_environ w
          /\ exists rest,
               w_log w3 = (w_log w ++ EvDeepspeedInitDistributed "hccl" :: rest)%list
               /\ forallb (fun e => negb (is_deepspeed_init e)) rest = true)
    as (Ha & He & rest & Hl & Hrest).
  { destruct (model_on_meta fw config).
    - apply bind_Ok_inv in Hload as (m & w4 & Hm & Hload).
      unfold lift in Hm. injection Hm as _ <-.
      apply bind_Ok_inv in Hload as (lr & w4 & Hlr & Hload).
      unfold lift in Hlr. injection Hlr as _ <-.
      apply bind_Ok_inv in Hload as (u' & w4 & Hemit & Hload).
      injection Hemit as _ <-. injection Hload as _ <-. simpl.
      repeat split. eexists [_]. by rewrite <- app_assoc.
    - apply bind_Ok_inv in Hload as (m & w4 & Hm & Hload).
      unfold lift in Hm. injection Hm as _ <-.
      injection Hload as _ <-. simpl. repeat split. by exists []. }
  apply bind_Ok_inv in H as (ws & w4 & Hws & H).
  unfold lift in Hws. injection Hws as _ <-.
  apply bind_Ok_inv in H as (model2 & w4 & Hds & H).
  unfold lift in Hds. injection Hds as _ <-.
  assert (w' = w3) as ->
    by (destruct (Py.in_list _ _); by injection H as _ <-).
  split; [done|]. split; [done|]. by exists rest.
Qed.

(** What the worlds of a run of [initialize_model] that returns have in
    common with the closed forms. *)
Lemma initialize_model_Ok_world (w w' : World) (model : Model.t)
    (tok : Tokenizer.t) (gc : GenerationConfig.t) (lr ws gr : Z) :
  env_rank (w_environ w) "LOCAL_RANK" = Ok lr ->
  env_rank (w_environ w) "WORLD_SIZE" = Ok ws ->
  env_rank (w_environ w) "RANK" = Ok gr ->
  initialize_model fw w = (Ok (model, tok, gc), w') ->
  let a1 := with_ranks (Some lr) (Some ws) (Some gr) (w_args w) in
  let a2 := if limit_hpu_graphs_forced_off ws (w_args w)
            then Args.set_limit_hpu_graphs false a1 else a1 in
  let a5 := args_after_startup lr ws gr (w_args w) in
  w_args w' = a5
  /\ w_environ w' = setup_env_environ a2 gr ws (w_environ w)
  /\ (exists loading,
        w_log w' = (w_log w
                    ++ (setup_env_events a2 gr ++ setup_device_events a2)
                    ++ loading)%list
        /\ existsb is_deepspeed_init loading = (ws >? 0))
  /\ (exists model0, setup_tokenizer fw a5 model0 = Ok (tok, model))
  /\ setup_generation_config fw a5 model tok = Ok gc.
Proof.
  intros Hlr Hws Hgr Hrun.
  apply initialize_model_Ok_inv in Hrun
    as (lr' & ws' & gr' & model0 & w5 & Hlr' & Hws' & Hgr' & Hrun).
  rewrite Hlr in Hlr'. rewrite Hws in Hws'. rewrite Hgr in Hgr'.
  injection Hlr' as <-. injection Hws' as <-. injection Hgr' as <-.
  cbv zeta in Hrun. destruct Hrun as (_ & -> & Hload & Htok & Hgc).
  cbv zeta.
  set (w5 := {| w_args := args_after_startup lr ws gr (w_args w) |}) in Hload.
  assert (w_args w' = w_args w5 /\ w_environ w' = w_environ w5
          /\ exists loading,
               w_log w' = (w_log w5 ++ loading)%list
               /\ existsb is_deepspeed_init loading = (ws >? 0))
    as (Ha & He & loading & Hl & Hloading).
  { destruct (ws >? 0); simpl in Hload.
    - apply setup_distributed_model_Ok_world in Hload
        as (Ha & He & rest & Hl & Hrest).
      split; [done|]. split; [done|].
      by exists (EvDeepspeedInitDistributed "hccl" :: rest).
    - apply setup_model_world in Hload as ->.
      split; [done|]. split; [done|]. exists []. by rewrite app_nil_r. }
  split; [done|]. split; [done|].
  split; [|split; [by exists model0|done]].
  exists loading. split; [|done]. rewrite Hl. subst w5. simpl.
  by rewrite <- !app_assoc.
Qed.

(** X17: when [initialize_model] returns, [args] is the one it was given with
    the three ranks assigned, [limit_hpu_graphs] off in the excluded
    configurations, and [attn_softmax_bf16] off when the model is loaded
    in float32, that is without deepspeed and without [bf16]. *)
Theorem initialize_model_args_on_return (w w' : World)
    (res : Model.t * Tokenizer.t * GenerationConfig.t) (lr ws gr : Z) :
  env_rank (w_environ w) "LOCAL_RANK" = Ok lr ->
  env_rank (w_environ w) "WORLD_SIZE" = Ok ws ->
  env_rank (w_environ w) "RANK" = Ok gr ->
  initialize_model fw w = (Ok res, w') ->
  w_args w' = args_after_startup lr ws gr (w_args w)
  /\ Args.attn_softmax_bf16 (w_args w')
     = Args.attn_softmax_bf16 (w_args w) && ((ws >? 0) || Args.bf16 (w_args w))
  /\ Args.limit_hpu_graphs (w_args w')
     = Args.limit_hpu_graphs (w_args w)
       && negb (limit_hpu_graphs_forced_off ws (w_args w)).
Proof.
  intros Hlr Hws Hgr Hrun. destruct res as [[model tok] gc].
  destruct (initialize_model_Ok_world _ _ _ _ _ _ _ _ Hlr Hws Hgr Hrun) as (-> & _).
  split; [done|]. unfold args_after_startup.
  destruct (w_args w); simpl.
  unfold limit_hpu_graphs_forced_off. simpl.
  destruct limit_hpu_graphs, attn_softmax_bf16, bf16, (ws >? 0),
    (batch_size_is_1 batch_size), (Py.str_in "falcon-180B" model_name_or_path),
    (Py.str_in "falcon-180b" model_name_or_path),
    (((ws =? 2) || (ws =? 4) || (ws =? 8)) && (4096 <=? max_input_tokens)
     && (128 <=? max_new_tokens)); by simpl.
Qed.

(** X18: the generation configuration [initialize_model] returns sees the flags
    as the start-up left them, has static shapes exactly for an optimized
    model, and carries the special-token ids of the model that is returned
    with it, fix-ups of [setup_tokenizer] included. *)
Theorem initialize_model_generation_config (w w' : World) (model : Model.t)
    (tok : Tokenizer.t) (gc : GenerationConfig.t) (lr ws gr : Z) :
  env_rank (w_environ w) "LOCAL_RANK" = Ok lr ->
  env_rank (w_environ w) "WORLD_SIZE" = Ok ws ->
  env_rank (w_environ w) "RANK" = Ok gr ->
  initialize_model fw w = (Ok (model, tok, gc), w') ->
  GenerationConfig.limit_hpu_graphs gc = Args.limit_hpu_graphs (w_args w')
  /\ GenerationConfig.attn_softmax_bf16 gc = Args.attn_softmax_bf16 (w_args w')
  /\ GenerationConfig.use_cache gc = Args.use_kv_cache (w_args w)
  /\ GenerationConfig.reuse_cache gc = Args.reuse_cache (w_args w)
  /\ GenerationConfig.static_shapes gc = model_is_optimized fw (Model.config model)
  /\ GenerationConfig.pad_token_id gc
     = GenerationConfig.pad_token_id (Model.generation_config model)
  /\ GenerationConfig.eos_token_id gc
     = GenerationConfig.eos_token_id (Model.generation_config model)
  /\ GenerationConfig.bos_token_id gc
     = GenerationConfig.bos_token_id (Model.generation_config model).
Proof.
  intros Hlr Hws Hgr Hrun.
  destruct (initialize_model_Ok_world _ _ _ _ _ _ _ _ Hlr Hws Hgr Hrun)
    as (-> & _ & _ & _ & Hgc).
  unfold setup_generation_config, mbind, result_bind, rbind in Hgc.
  destruct (if Args.reduce_recompile _ then _ else _); [|done].
  injection Hgc as <-. simpl. repeat split.
  - unfold args_after_startup.
    destruct (limit_hpu_graphs_forced_off ws (w_args w)),
      ((ws >? 0) || Args.bf16 (w_args w)); by destruct (w_args w).
  - unfold args_after_startup.
    destruct (limit_hpu_graphs_forced_off ws (w_args w)),
      ((ws >? 0) || Args.bf16 (w_args w)); by destruct (w_args w).
Qed.

(** X19: when [initialize_model] returns, deepspeed was initialised if and only
    if the world size read from the environment is positive. *)
Theorem initialize_model_deepspeed (w w' : World)
    (res : Model.t * Tokenizer.t * GenerationConfig.t) (lr ws gr : Z) :
  env_rank (w_environ w) "LOCAL_RANK" = Ok lr ->
  env_rank (w_environ w) "WORLD_SIZE" = Ok ws ->
  env_rank (w_environ w) "RANK" = Ok gr ->
  initialize_model fw w = (Ok res, w') ->
  existsb is_deepspeed_init (drop (length (w_log w)) (w_log w')) = (ws >? 0).
Proof.
  intros Hlr Hws Hgr Hrun. destruct res as [[model tok] gc].
  destruct (initialize_model_Ok_world _ _ _ _ _ _ _ _ Hlr Hws Hgr Hrun)
    as (_ & _ & (loading & -> & Hloading) & _).
  rewrite <- app_assoc, drop_app_length, !existsb_app, Hloading.
  unfold setup_env_events, setup_device_events.
  by destruct (_ && negb _), (String.eqb _ _).
Qed.

(** X20: when [initialize_model] returns, the tensor cache of the HPU graphs is
    disabled by default exactly when [use_hpu_graphs] and
    [bucket_internal] are set, [reuse_cache] is not, and
    [limit_hpu_graphs] is set and was not switched off at start-up;
    otherwise the variable reads as before. *)
Theorem initialize_model_tensor_cache (w w' : World)
    (res : Model.t * Tokenizer.t * GenerationConfig.t) (lr ws gr : Z) :
  env_rank (w_environ w) "LOCAL_RANK" = Ok lr ->
  env_rank (w_environ w) "WORLD_SIZE" = Ok ws ->
  env_rank (w_environ w) "RANK" = Ok gr ->
  initialize_model fw w = (Ok res, w') ->
  let a := w_args w in
  w_environ w' !! "PT_HPUGRAPH_DISABLE_TENSOR_CACHE"
  = if Args.use_hpu_graphs a && Args.limit_hpu_graphs a
       && negb (limit_hpu_graphs_forced_off ws a)
       && negb (Args.reuse_cache a) && Args.bucket_internal a
    then Some (default "1" (w_environ w !! "PT_HPUGRAPH_DISABLE_TENSOR_CACHE"))
    else w_environ w !! "PT_HPUGRAPH_DISABLE_TENSOR_CACHE".
Proof.
  intros Hlr Hws Hgr Hrun a. destruct res as [[model tok] gc].
  destruct (initialize_model_Ok_world _ _ _ _ _ _ _ _ Hlr Hws Hgr Hrun)
    as (_ & -> & _).
  erewrite setup_env_environ_lookup;
    [|unfold setup_env_table; do 4 right; left].
  subst a. unfold limit_hpu_graphs_forced_off.
  destruct (w_args w); simpl.
  destruct (batch_size_is_1 batch_size), limit_hpu_graphs, use_hpu_graphs,
    reuse_cache, bucket_internal,
    (Py.str_in "falcon-180B" model_name_or_path),
    (Py.str_in "falcon-180b" model_name_or_path),
    (((ws =? 2) || (ws =? 4) || (ws =? 8)) && (4096 <=? max_input_tokens)
     && (128 <=? max_new_tokens)); by simpl.
Qed.

End StartupReturns.

(** ** The wrapper the constructor returns *)

Section Constructor.

Import OptimumHabanaLM.

Context (fw : Framework).

Lemma setattr_buckets (k : Kwarg) (a : Args.t) :
  (forall v, k <> kw_buckets v) -> Args.buckets (setattr a k) = Args.buckets a.
Proof.
  intros Hk. destruct k; try (by destruct a). by destruct (Hk v).
Qed.

Lemma foldl_setattr_buckets (kwargs : list Kwarg) (a : Args.t) :
  (forall v, kw_buckets v ∉ kwargs) ->
  Args.buckets (foldl setattr a kwargs) = Args.buckets a.
Proof.
  revert a. induction kwargs as [|k kwargs IH]; intros a Hno; [done|].
  simpl. rewrite IH.
  - apply setattr_buckets. intros v ->. apply (Hno v). by left.
  - intros v Hin. apply (Hno v). by right.
Qed.

Lemma build_model_inputs_use_cache (family : string) (gc : GenerationConfig.t) :
  build_model_inputs family gc !! "use_cache" = Some (GenerationConfig.use_cache gc).
Proof.
  unfold build_model_inputs.
  by destruct (Py.in_list family _), (Py.in_list family _),
    (negb (String.eqb family "falcon")).
Qed.

(** The steps of a constructor that returns. *)
Lemma init_Ok_inv pretrained batch_size parser kwargs (w w' : World) (self : t) :
  __init__ fw pretrained batch_size parser kwargs w = (Ok self, w') ->
  let w0 := {| w_args := init_args pretrained batch_size parser kwargs;
               w_environ := w_environ w; w_log := w_log w |} in
  exists model tok gc,
    initialize_model fw w0 = (Ok (model, tok, gc), w')
    /\ self = {| _model := model; tokenizer := tok; generation_config := gc;
                 _device := Args.device (w_args w');
                 buckets := Py.sorted (Args.buckets (w_args w'));
                 model_inputs :=
                   build_model_inputs (ModelConfig.model_type (Model.config model))
                     gc |}.
Proof.
  intros H w0. unfold __init__ in H.
  apply bind_Ok_inv in H as (u & w1 & Hset & H). injection Hset as _ <-.
  fold w0 in H.
  apply bind_Ok_inv in H as ([[model tok] gc] & w1 & Hinit & H).
  apply bind_Ok_inv in H as (args & w2 & Hget & H). injection Hget as <- <-.
  apply bind_Ok_inv in H as (u' & w2 & Hhf & H).
  unfold lift in Hhf. injection Hhf as _ <-.
  injection H as <- <-. by exists model, tok, gc.
Qed.

(** X22: without a parser and without a [buckets] keyword, the wrapper has the
    buckets of the class [Args], and its maximum length is 384. *)
Theorem init_default_max_length pretrained batch_size kwargs (w w' : World)
    (self : t) :
  __init__ fw pretrained batch_size None kwargs w = (Ok self, w') ->
  (forall v, kw_buckets v ∉ kwargs) ->
  buckets self = [16; 32; 64; 128; 189; 284; 384]
  /\ max_length self = Ok 384.
Proof.
  intros Hinit Hno. pose proof (init_buckets fw _ _ _ _ _ _ _ Hinit) as Hb.
  assert (Args.buckets (init_args pretrained batch_size None kwargs)
          = [16; 32; 64; 128; 189; 284; 384]) as Hdefault.
  { unfold init_args.
    transitivity (Args.buckets (foldl setattr Args.default kwargs)).
    - by destruct (foldl setattr Args.default kwargs).
    - by rewrite foldl_setattr_buckets. }
  rewrite Hdefault in Hb. unfold max_length. rewrite Hb. by split.
Qed.

(** X23: the wrapper agrees with the arguments of its constructor: it runs on
    [args.device], pads to buckets exactly when its model is optimized,
    and passes the model the [use_cache] of [args.use_kv_cache]; its
    generation configuration has the [reuse_cache] of [args] and the
    special-token ids of its model. *)
Theorem init_wrapper_agrees pretrained batch_size parser kwargs (w w' : World)
    (self : t) :
  __init__ fw pretrained batch_size parser kwargs w = (Ok self, w') ->
  let a := init_args pretrained batch_size parser kwargs in
  let gc := generation_config self in
  _device self = Args.device a
  /\ GenerationConfig.static_shapes gc
     = model_is_optimized fw (Model.config (_model self))
  /\ GenerationConfig.use_cache gc = Args.use_kv_cache a
  /\ GenerationConfig.reuse_cache gc = Args.reuse_cache a
  /\ model_inputs self !! "use_cache" = Some (Args.use_kv_cache a)
  /\ GenerationConfig.pad_token_id gc
     = GenerationConfig.pad_token_id (Model.generation_config (_model self)).
Proof.
  intros Hinit a gc.
  destruct (init_Ok_inv _ _ _ _ _ _ _ Hinit) as (model & tok & gc0 & Hrun & ->).
  simpl in gc. subst gc. simpl.
  pose proof Hrun as Hinv.
  apply initialize_model_Ok_inv in Hinv
    as (lr & ws & gr & model0 & w5 & Hlr & Hws & Hgr & _).
  destruct (initialize_model_Ok_world fw _ _ _ _ _ _ _ _ Hlr Hws Hgr Hrun)
    as (Hargs & _ & _ & _ & Hgc).
  simpl in Hargs, Hgc. fold a in Hargs, Hgc.
  unfold setup_generation_config, mbind, result_bind, rbind in Hgc.
  destruct (if Args.reduce_recompile _ then _ else _); [|done].
  injection Hgc as <-. rewrite build_model_inputs_use_cache. simpl.
  rewrite Hargs. unfold args_after_startup.
  destruct (limit_hpu_graphs_forced_off ws a), ((ws >? 0) || Args.bf16 a);
    by destruct a.
Qed.

End Constructor.

(** ** The further properties at concrete inputs *)

Lemma demo_static_shapes :
  GenerationConfig.static_shapes (OptimumHabanaLM.generation_config Demo.self) = true.
Proof. reflexivity. Qed.

(** A batch of 128 tokens has the bucket 128. *)
Lemma find_bucket_of_bucket_witness :
  Sorted Z.le (OptimumHabanaLM.buckets Demo.self)
  /\ 128 ∈ OptimumHabanaLM.buckets Demo.self
  /\ OptimumHabanaLM.find_bucket Demo.self 128 = Ok 128.
Proof.
  assert (128 ∈ OptimumHabanaLM.buckets Demo.self) as Hin by compute_done.
  split; [exact demo_buckets_Sorted|]. split; [exact Hin|].
  exact (find_bucket_of_bucket Demo.self 128 demo_buckets_Sorted Hin).
Defined.

(** 20 tokens go to the bucket 32 and 100 tokens to the bucket 128. *)
Lemma find_bucket_monotone_witness :
  Sorted Z.le (OptimumHabanaLM.buckets Demo.self)
  /\ 20 <= 100
  /\ OptimumHabanaLM.find_bucket Demo.self 20 = Ok 32
  /\ OptimumHabanaLM.find_bucket Demo.self 100 = Ok 128
  /\ 32 <= 128.
Proof.
  assert (20 <= 100) as HL by lia.
  split; [exact demo_buckets_Sorted|]. split; [exact HL|].
  split; [reflexivity|]. split; [reflexivity|].
  exact (find_bucket_monotone Demo.self 20 100 32 128 demo_buckets_Sorted HL
           eq_refl eq_refl).
Defined.

(** 385 tokens: no bucket, and nothing happens. *)
Lemma model_call_too_long_witness :
  GenerationConfig.static_shapes (OptimumHabanaLM.generation_config Demo.self) = true
  /\ (forall b, b ∈ OptimumHabanaLM.buckets Demo.self ->
        b < IdTensor.seq_length (Demo.batch 1 385))
  /\ OptimumHabanaLM._model_call Demo.llama Demo.self (Demo.batch 1 385) Demo.world
     = (Raise IndexError, Demo.world).
Proof.
  assert (forall b, b ∈ OptimumHabanaLM.buckets Demo.self ->
            b < IdTensor.seq_length (Demo.batch 1 385)) as Hall.
  { apply Forall_forall. repeat constructor; simpl; lia. }
  split; [reflexivity|]. split; [exact Hall|].
  exact (model_call_too_long Demo.llama Demo.self (Demo.batch 1 385) Demo.world
           eq_refl Hall).
Defined.

(** 100 tokens are padded to 128 columns; column 5 is the batch's and
    column 100 is the pad value. *)
Lemma model_call_pads_right_witness :
  IdTensor.wf (Demo.batch 2 100)
  /\ OptimumHabanaLM.find_bucket Demo.self 100 = Ok 128
  /\ exists x,
       last (model_call_events Demo.llama Demo.self (Demo.batch 2 100) Demo.world)
       = Some (EvForward x (OptimumHabanaLM.model_inputs Demo.self))
       /\ IdTensor.seq_length x = 128
       /\ IdTensor.data x 1 5 = IdTensor.data (Demo.batch 2 100) 1 5
       /\ IdTensor.data x 1 100 = 0.
Proof.
  assert (IdTensor.wf (Demo.batch 2 100)) as Hwf by (split; simpl; lia).
  split; [exact Hwf|]. split; [reflexivity|].
  destruct (model_call_pads_right Demo.llama Demo.self (Demo.batch 2 100)
              Demo.world 128 eq_refl Hwf eq_refl)
    as (x & Hlast & _ & Hseq & _ & Hkept & Hpad).
  exists x. split; [exact Hlast|]. split; [exact Hseq|].
  split; [apply Hkept; simpl; lia|apply Hpad; simpl; lia].
Defined.

(** The logits of the 100 tokens are the model's, on the cpu. *)
Lemma model_call_static_values_witness :
  Torch.F_pad (Demo.batch 2 100) (128 - 100) None = Ok Demo2.padded
  /\ exists r,
       (OptimumHabanaLM._model_call Demo.llama Demo.self (Demo.batch 2 100)
          Demo.world).1 = Ok r
       /\ Logits.vocab r = 32000
       /\ Logits.device r = "cpu".
Proof.
  assert (Torch.F_pad (Demo.batch 2 100) (128 - 100) None = Ok Demo2.padded)
    as Hpad by reflexivity.
  split; [exact Hpad|].
  destruct (model_call_static_values Demo.llama Demo.self (Demo.batch 2 100)
              Demo.world 128 Demo2.padded
              (Demo.logits (Torch.to_device "hpu" Demo2.padded))
              eq_refl eq_refl Hpad eq_refl)
    as (r & Hr & _ & Hvocab & Hdev & _).
  exists r. split; [exact Hr|]. split; [exact Hvocab|exact Hdev].
Defined.

(** Reduced recompilation on the llama checkpoint, with the bucket size
    128 of [Args]. *)
Lemma setup_generation_config_reduce_recompile_witness :
  exists gc,
    setup_generation_config Demo.llama
      (Args.set_reduce_recompile true Args.default) Demo2.llama_model Demo.tokenizer
    = Ok gc
    /\ GenerationConfig.reduce_recompile gc = true
    /\ GenerationConfig.static_shapes gc = true
    /\ GenerationConfig.bucket_size gc = 128.
Proof.
  eexists.
  assert (setup_generation_config Demo.llama
            (Args.set_reduce_recompile true Args.default) Demo2.llama_model
            Demo.tokenizer = Ok _) as Hrun by reflexivity.
  split; [exact Hrun|]. split; [reflexivity|].
  destruct (setup_generation_config_reduce_recompile Demo.llama _ _ _ _ Hrun
              eq_refl) as (_ & Hstatic & Hsize & _).
  split; [exact Hstatic|exact Hsize].
Defined.


Lemma setup_tokenizer_model_frame_witness :
  exists tok model',
    setup_tokenizer Demo.llama Args.default Demo2.llama_model = Ok (tok, model')
    /\ only_special_ids_differ Demo2.llama_model model'
    /\ GenerationConfig.eos_token_id (Model.generation_config model') = IdInt 2.
Proof.
  eexists _, _.
  assert (setup_tokenizer Demo.llama Args.default Demo2.llama_model = Ok (_, _))
    as Hrun by reflexivity.
  split; [exact Hrun|].
  destruct (setup_tokenizer_model_frame Demo.llama _ _ _ _ Hrun) as [Hframe Heos].
  split; [exact Hframe|]. apply Heos. discriminate.
Defined.

(** The persimmon checkpoint: pad id and EOS id are both 2. *)
Lemma setup_tokenizer_ids_agree_witness :
  exists tok model',
    setup_tokenizer Demo2.persimmon Args.default Demo2.persimmon_model
    = Ok (tok, model')
    /\ Tokenizer.pad_token_id tok = IdInt 2
    /\ Tokenizer.eos_token_id tok = IdInt 2.
Proof.
  eexists _, _.
  assert (setup_tokenizer Demo2.persimmon Args.default Demo2.persimmon_model
          = Ok (_, _)) as Hrun by reflexivity.
  split; [exact Hrun|].
  destruct (setup_tokenizer_ids_agree Demo2.persimmon _ _ _ _ Hrun
              (or_intror eq_refl)) as (Hpad & _ & Heos).
  split; [exact Hpad|]. exact (proj1 (Heos eq_refl)).
Defined.

(** The two EOS ids of the MiniCPM3 checkpoint become the last one. *)
Lemma setup_tokenizer_minicpm3_eos_witness :
  exists tok model',
    setup_tokenizer Demo2.minicpm3 Args.default Demo2.minicpm3_model
    = Ok (tok, model')
    /\ exists e,
         last [2; 73440] = Some e
         /\ GenerationConfig.eos_token_id (Model.generation_config model') = IdInt e.
Proof.
  eexists _, _.
  assert (setup_tokenizer Demo2.minicpm3 Args.default Demo2.minicpm3_model
          = Ok (_, _)) as Hrun by reflexivity.
  split; [exact Hrun|].
  exact (setup_tokenizer_minicpm3_eos Demo2.minicpm3 _ _ _ _ Hrun eq_refl).
Defined.

Lemma setup_tokenizer_empty_eos_list_witness :
  load_tokenizer Demo.llama Args.default Demo2.llama_no_eos
  = Ok (Tokenizer.set_padding_side "left" Demo.tokenizer)
  /\ setup_tokenizer Demo.llama Args.default Demo2.llama_no_eos = Raise IndexError.
Proof.
  assert (load_tokenizer Demo.llama Args.default Demo2.llama_no_eos
          = Ok (Tokenizer.set_padding_side "left" Demo.tokenizer)) as Hload
    by reflexivity.
  split; [exact Hload|].
  exact (setup_tokenizer_empty_eos_list Demo.llama _ _ _ Hload eq_refl
           (or_introl eq_refl)).
Defined.

(** [WORLD_SIZE=eight]: the start-up stops with [ValueError]. *)
Lemma initialize_model_bad_rank_witness :
  is_ok (env_rank (w_environ Demo2.bad_world_size) "WORLD_SIZE") = false
  /\ (initialize_model Demo.llama Demo2.bad_world_size).1 = Raise ValueError
  /\ w_log (initialize_model Demo.llama Demo2.bad_world_size).2 = [].
Proof.
  split; [reflexivity|].
  destruct (initialize_model_bad_rank Demo.llama Demo2.bad_world_size eq_refl)
    as (Hraise & _ & Hlog & _).
  split; [exact Hraise|exact Hlog].
Defined.


(** Rank 0 without [torch.compile]: the graphs are dumped. *)
Lemma setup_env_variables_witness :
  Args.global_rank (w_args Demo2.ranked) = Some 0
  /\ Args.world_size (w_args Demo2.ranked) = Some 0
  /\ (setup_env Demo2.ranked).1 = Ok tt
  /\ w_environ (setup_env Demo2.ranked).2 !! "GRAPH_VISUALIZATION" = Some "true".
Proof.
  split; [reflexivity|]. split; [reflexivity|].
  refine (setup_env_variables Demo2.ranked 0 0 "GRAPH_VISUALIZATION" "true" true
            eq_refl eq_refl _).
  unfold setup_env_table. right. left.
Defined.

Lemma setup_env_without_ranks_witness :
  Args.global_rank (w_args Demo.world) = None
  /\ (setup_env Demo.world).1 = Raise (AttributeError "global_rank").
Proof.
  split; [reflexivity|].
  exact (proj1 (setup_env_without_ranks Demo.world eq_refl)).
Defined.

Lemma demo_started :
  initialize_model Demo.llama Demo2.eight_devices
  = (Ok Demo2.started, (initialize_model Demo.llama Demo2.eight_devices).2).
Proof. vm_compute. reflexivity. Qed.

(** Eight devices and the default [Args()]: deepspeed loads the model in
    bfloat16, [attn_softmax_bf16] stays and [limit_hpu_graphs] goes. *)
Lemma initialize_model_args_on_return_witness :
  env_rank (w_environ Demo2.eight_devices) "LOCAL_RANK" = Ok 3
  /\ env_rank (w_environ Demo2.eight_devices) "WORLD_SIZE" = Ok 8
  /\ env_rank (w_environ Demo2.eight_devices) "RANK" = Ok 3
  /\ Args.attn_softmax_bf16
       (w_args (initialize_model Demo.llama Demo2.eight_devices).2) = true
  /\ Args.limit_hpu_graphs
       (w_args (initialize_model Demo.llama Demo2.eight_devices).2) = false.
Proof.
  do 3 (split; [reflexivity|]).
  destruct (initialize_model_args_on_return Demo.llama Demo2.eight_devices _ _
              3 8 3 eq_refl eq_refl eq_refl demo_started) as (_ & Hattn & Hlimit).
  split; [exact Hattn|exact Hlimit].
Defined.

Lemma initialize_model_generation_config_witness :
  env_rank (w_environ Demo2.eight_devices) "LOCAL_RANK" = Ok 3
  /\ env_rank (w_environ Demo2.eight_devices) "WORLD_SIZE" = Ok 8
  /\ env_rank (w_environ Demo2.eight_devices) "RANK" = Ok 3
  /\ GenerationConfig.static_shapes Demo2.started.2 = true
  /\ GenerationConfig.pad_token_id Demo2.started.2 = IdInt 2.
Proof.
  do 3 (split; [reflexivity|]).
  destruct (initialize_model_generation_config Demo.llama Demo2.eight_devices _
              Demo2.started.1.1 Demo2.started.1.2 Demo2.started.2
              3 8 3 eq_refl eq_refl eq_refl demo_started)
    as (_ & _ & _ & _ & Hstatic & Hpad & _).
  split; [exact Hstatic|exact Hpad].
Defined.

Lemma initialize_model_deepspeed_witness :
  env_rank (w_environ Demo2.eight_devices) "LOCAL_RANK" = Ok 3
  /\ env_rank (w_environ Demo2.eight_devices) "WORLD_SIZE" = Ok 8
  /\ env_rank (w_environ Demo2.eight_devices) "RANK" = Ok 3
  /\ existsb is_deepspeed_init
       (drop (length (w_log Demo2.eight_devices))
          (w_log (initialize_model Demo.llama Demo2.eight_devices).2)) = true.
Proof.
  do 3 (split; [reflexivity|]).
  exact (initialize_model_deepspeed Demo.llama Demo2.eight_devices _ _ 3 8 3
           eq_refl eq_refl eq_refl demo_started).
Defined.

(** [limit_hpu_graphs] was switched off, so the tensor cache keeps its
    setting: the variable stays undefined. *)
Lemma initialize_model_tensor_cache_witness :
  env_rank (w_environ Demo2.eight_devices) "LOCAL_RANK" = Ok 3
  /\ env_rank (w_environ Demo2.eight_devices) "WORLD_SIZE" = Ok 8
  /\ env_rank (w_environ Demo2.eight_devices) "RANK" = Ok 3
  /\ w_environ (initialize_model Demo.llama Demo2.eight_devices).2
     !! "PT_HPUGRAPH_DISABLE_TENSOR_CACHE" = None.
Proof.
  do 3 (split; [reflexivity|]).
  exact (initialize_model_tensor_cache Demo.llama Demo2.eight_devices _ _ 3 8 3
           eq_refl eq_refl eq_refl demo_started).
Defined.

(** The llama wrapper built without keyword arguments. *)
Lemma init_default_max_length_witness :
  (forall v, kw_buckets v ∉ ([] : list Kwarg))
  /\ OptimumHabanaLM.max_length Demo.self = Ok 384.
Proof.
  assert (forall v, kw_buckets v ∉ ([] : list Kwarg)) as Hno
    by (intros v Hin; by apply elem_of_nil in Hin).
  split; [exact Hno|].
  exact (proj2 (init_default_max_length Demo.llama "meta-llama/Llama-2-7b-hf"
                  (BatchInt 1) [] Demo.world _ Demo.self demo_self_is_wrapper Hno)).
Defined.

Lemma init_wrapper_agrees_witness :
  OptimumHabanaLM._device Demo.self = "hpu"
  /\ OptimumHabanaLM.model_inputs Demo.self !! "use_cache" = Some true.
Proof.
  destruct (init_wrapper_agrees Demo.llama "meta-llama/Llama-2-7b-hf" (BatchInt 1)
              None [] Demo.world _ Demo.self demo_self_is_wrapper)
    as (Hdevice & _ & _ & _ & Hcache & _).
  split; [exact Hdevice|exact Hcache].
Defined.

(** The falcon wrapper gets the flash-attention switches and no
    [attn_softmax_bf16]. *)
Lemma build_model_inputs_entries_witness :
  is_Some (OptimumHabanaLM.build_model_inputs "falcon" Demo.generation_config
           !! "use_flash_attention")
  /\ ~ is_Some (OptimumHabanaLM.build_model_inputs "falcon" Demo.generation_config
                !! "attn_softmax_bf16").
Proof.
  destruct (build_model_inputs_entries "falcon" Demo.generation_config)
    as (_ & _ & _ & Hflash & Hattn).
  split.
  - apply Hflash. compute_done.
  - intros Hsome. apply Hattn in Hsome. revert Hsome. compute_done.
Defined.

(** A call on the llama wrapper leaves [args] and the environment alone. *)
Lemma model_call_effects_witness :
  w_args (OptimumHabanaLM._model_call Demo.llama Demo.self (Demo.batch 2 100)
            Demo.world).2 = w_args Demo.world
  /\ w_environ (OptimumHabanaLM._model_call Demo.llama Demo.self (Demo.batch 2 100)
                  Demo.world).2 = w_environ Demo.world.
Proof.
  destruct (model_call_effects Demo.llama Demo.self (Demo.batch 2 100) Demo.world)
    as (Hargs & Henv & _).
  split; [exact Hargs|exact Henv].
Defined.
